(** * OpenKH MDLX importer: the BAR container reader and the MDLX bone-table
      decoder of [blender_addons/mdlx_importer.py], embedded in Rocq.

    Python integers are modelled by [Z], [bytes] objects by [list byte],
    [str] by [string].  A Python call either returns a value or raises an
    exception: this is the type [outcome].  Single precision floats are
    carried as the IEEE-754 value they denote ([spec_float]).

    The decoders are first given as functions of the contents of the
    buffer.  Module [Heap] then runs the same statements on a store of
    mutable objects, to show what they write to and that the objects
    they build stand for what the functions return. *)

From Stdlib Require Import ZArith List Lia Bool String Ascii.
From Stdlib Require Import Strings.Byte.
From Stdlib Require Import Floats.SpecFloat.
From Stdlib Require Import DecimalString DecimalPos DecimalZ.
Import ListNotations.
Local Open Scope Z_scope.

(** ** Python run-time primitives used by the importer *)

(** The exceptions the importer's primitives can raise:
    [struct.error] (from [struct.unpack] and [struct.unpack_from]),
    [UnicodeDecodeError] (from [bytes.decode('ascii')]) and the
    [ValueError] raised explicitly by [MdlxFile.__init__]. *)
Inductive exn : Type :=
| struct_error
| UnicodeDecodeError
| ValueError (msg : string).

(** Outcome of a Python call. *)
Inductive outcome (A : Type) : Type :=
| Returned (v : A)
| Raised (e : exn).
Arguments Returned {A} v.
Arguments Raised {A} e.

Definition bind {A B : Type} (c : outcome A) (k : A -> outcome B) : outcome B :=
  match c with
  | Returned v => k v
  | Raised e => Raised e
  end.

Notation "x <- c ;; k" := (bind c (fun x => k))
  (at level 61, c at next level, right associativity).
Notation "' p <- c ;; k" := (bind c (fun x => let 'p := x in k))
  (at level 61, p pattern, c at next level, right associativity).

Definition bytes : Type := list byte.

(** [len(b)] *)
Definition len {A : Type} (b : list A) : Z := Z.of_nat (List.length b).

(** Index normalisation of a slice bound, as [PySlice_AdjustIndices]
    does for step 1: negative bounds count from the end, and everything
    is clamped to [0, len]. *)
Definition clamp_index (n i : Z) : Z :=
  if i <? 0 then Z.max 0 (i + n) else Z.min i n.

(** [s[lo:hi]] *)
Definition slice {A : Type} (s : list A) (lo hi : Z) : list A :=
  let lo' := clamp_index (len s) lo in
  let hi' := clamp_index (len s) hi in
  firstn (Z.to_nat (hi' - lo')) (skipn (Z.to_nat lo') s).

Definition byte_val (b : byte) : Z := Z.of_N (Byte.to_N b).

(** Unsigned little-endian value of a byte string. *)
Fixpoint int_from_le (bs : bytes) : Z :=
  match bs with
  | [] => 0
  | b :: t => byte_val b + 256 * int_from_le t
  end.

(** Two's complement reading of a [bits]-bit unsigned value. *)
Definition to_signed (bits u : Z) : Z :=
  if u <? 2 ^ (bits - 1) then u else u - 2 ^ bits.

(** The value denoted by an IEEE-754 binary32 bit pattern. *)
Definition float32_of_bits (w : Z) : spec_float :=
  let s := Z.testbit w 31 in
  let e := Z.land (Z.shiftr w 23) 255 in
  let m := Z.land w (2 ^ 23 - 1) in
  if e =? 0 then
    match m with
    | Zpos p => S754_finite s p (-149)
    | _ => S754_zero s
    end
  else if e =? 255 then
    (if m =? 0 then S754_infinity s else S754_nan)
  else
    match m + 2 ^ 23 with
    | Zpos p => S754_finite s p (e - 150)
    | _ => S754_nan
    end.

(** [struct.unpack(fmt, b)] for a single little-endian field of [n]
    bytes: the buffer must have exactly the size of the format. *)
Definition unpack_uint (n : Z) (b : bytes) : outcome Z :=
  if len b =? n then Returned (int_from_le b) else Raised struct_error.

Definition unpack_H (b : bytes) : outcome Z := unpack_uint 2 b.
Definition unpack_I (b : bytes) : outcome Z := unpack_uint 4 b.
Definition unpack_h (b : bytes) : outcome Z :=
  u <- unpack_uint 2 b ;; Returned (to_signed 16 u).
Definition unpack_i (b : bytes) : outcome Z :=
  u <- unpack_uint 4 b ;; Returned (to_signed 32 u).
Definition unpack_f (b : bytes) : outcome spec_float :=
  u <- unpack_uint 4 b ;; Returned (float32_of_bits u).

(** [struct.unpack_from(fmt, buf, pos)] for a format of [n] bytes:
    a negative offset counts from the end; the buffer must hold [n]
    bytes from the offset on.  Returns the raw field bytes. *)
Definition unpack_from_raw (n : Z) (buf : bytes) (pos : Z) : outcome bytes :=
  let pos' := if pos <? 0 then pos + len buf else pos in
  if (pos' <? 0) || (len buf - pos' <? n) then Raised struct_error
  else Returned (slice buf pos' (pos' + n)).

Definition unpack_from_H (buf : bytes) (pos : Z) : outcome Z :=
  b <- unpack_from_raw 2 buf pos ;; Returned (int_from_le b).
Definition unpack_from_I (buf : bytes) (pos : Z) : outcome Z :=
  b <- unpack_from_raw 4 buf pos ;; Returned (int_from_le b).
Definition unpack_from_HH (buf : bytes) (pos : Z) : outcome (Z * Z) :=
  b <- unpack_from_raw 4 buf pos ;;
  Returned (int_from_le (slice b 0 2), int_from_le (slice b 2 4)).
Definition unpack_from_II (buf : bytes) (pos : Z) : outcome (Z * Z) :=
  b <- unpack_from_raw 8 buf pos ;;
  Returned (int_from_le (slice b 0 4), int_from_le (slice b 4 8)).

(** [b.decode('ascii')] *)
Definition decode_ascii (b : bytes) : outcome string :=
  if forallb (fun c => byte_val c <? 128) b
  then Returned (string_of_list_byte b)
  else Raised UnicodeDecodeError.

Fixpoint lstrip_nul (l : list ascii) : list ascii :=
  match l with
  | c :: t => if Ascii.eqb c zero then lstrip_nul t else l
  | [] => []
  end.

(** [s.rstrip('\0')] *)
Definition rstrip_nul (s : string) : string :=
  string_of_list_ascii (rev (lstrip_nul (rev (list_ascii_of_string s)))).

(** ** [io.BytesIO]: a byte buffer with a read cursor *)
Module BytesIO.
Record t : Type := mk { buf : bytes; pos : Z }.

Definition new (b : bytes) : t := {| buf := b; pos := 0 |}.

(** [f.read(n)]: at most [n] bytes, fewer at the end of the buffer;
    the cursor advances by what was read. *)
Definition read (n : Z) (f : t) : bytes * t :=
  let b := slice (buf f) (pos f) (pos f + n) in
  (b, {| buf := buf f; pos := pos f + len b |}).
End BytesIO.

(** Stream computations: the [BytesIO] object is threaded through. *)
Definition stream (A : Type) : Type := BytesIO.t -> outcome (A * BytesIO.t).

Definition sret {A : Type} (v : A) : stream A := fun f => Returned (v, f).

Definition sbind {A B : Type} (c : stream A) (k : A -> stream B) : stream B :=
  fun f => match c f with
           | Returned (v, f') => k v f'
           | Raised e => Raised e
           end.

Notation "x <~ c ;; k" := (sbind c (fun x => k))
  (at level 61, c at next level, right associativity).

Definition read_then {A : Type} (n : Z) (unpack : bytes -> outcome A) : stream A :=
  fun f => let '(b, f') := BytesIO.read n f in
           v <- unpack b ;; Returned (v, f').

Definition read_u16 : stream Z := read_then 2 unpack_H.
Definition read_u32 : stream Z := read_then 4 unpack_I.
Definition read_s16 : stream Z := read_then 2 unpack_h.
Definition read_s32 : stream Z := read_then 4 unpack_i.
Definition read_f32 : stream spec_float := read_then 4 unpack_f.

(** [f.read(n)] with the result dropped. *)
Definition skip (n : Z) : stream unit :=
  fun f => Returned (tt, snd (BytesIO.read n f)).

(** ** The BAR container *)

(** [class BarEntry] *)
Record BarEntry : Type := mkBarEntry {
  type : Z;
  duplicate : Z;
  name : string;
  offset : Z;
  size : Z
}.

Module BarFile.
Record t : Type := mk { entries : list BarEntry; data : bytes }.

(** The body of [for _ in range(count)], run [n] times from cursor
    [pos]; [acc] is [self.entries] so far. *)
Fixpoint read_entries (f : bytes) (n : nat) (pos : Z) (acc : list BarEntry)
  : outcome (list BarEntry) :=
  match n with
  | O => Returned acc
  | S n' =>
      ' (etype, dup) <- unpack_from_HH f pos ;;
      let pos := pos + 4 in
      s <- decode_ascii (slice f pos (pos + 4)) ;;
      let name := rstrip_nul s in
      let pos := pos + 4 in
      ' (off, size) <- unpack_from_II f pos ;;
      let pos := pos + 8 in
      read_entries f n' pos (acc ++ [mkBarEntry etype dup name off size])
  end.

(** [BarFile.__init__(self, data)] *)
Definition __init__ (data : bytes) : outcome t :=
  let f := data in
  let pos := 0 in
  let magic := slice f pos (pos + 4) in
  let pos := pos + 4 in
  count <- unpack_from_I f pos ;;
  let pos := pos + 4 in
  let pos := pos + 8 in
  entries <- read_entries f (Z.to_nat count) pos [] ;;
  Returned {| entries := entries; data := data |}.

(** The loop of [BarFile.entry] over a list of entries. *)
Fixpoint entry_in (data : bytes) (es : list BarEntry) (etype : Z) : option bytes :=
  match es with
  | [] => None
  | e :: es' =>
      if type e =? etype
      then Some (slice data (offset e) (offset e + size e))
      else entry_in data es' etype
  end.

(** [BarFile.entry(self, etype)]; [None] is Python's [None]. *)
Definition entry (self : t) (etype : Z) : option bytes :=
  entry_in (data self) (entries self) etype.
End BarFile.

(** ** The MDLX model *)

Module Bone.
Definition vec4 : Type := spec_float * spec_float * spec_float * spec_float.

Record t : Type := mk {
  index : Z;
  parent : Z;
  scale : vec4;
  rot : vec4;
  trans : vec4
}.

Definition read_vec4 : stream vec4 :=
  a <~ read_f32 ;; b <~ read_f32 ;; c <~ read_f32 ;; d <~ read_f32 ;;
  sret (a, b, c, d).

(** [MdlxModel.Bone.__init__(self, f)] *)
Definition __init__ : stream t :=
  index <~ read_u16 ;;
  _ <~ skip 2 ;;
  parent <~ read_s32 ;;
  _ <~ skip 8 ;;
  scale <~ read_vec4 ;;
  rot <~ read_vec4 ;;
  trans <~ read_vec4 ;;
  sret {| index := index; parent := parent;
          scale := scale; rot := rot; trans := trans |}.
End Bone.

Module MdlxModel.
(** The header fields, the local variables of [MdlxModel.__init__]. *)
Record header : Type := mkHeader {
  version : Z;
  next_hdr : Z;
  bone_count : Z;
  bone_offset : Z;
  unknown_offset : Z;
  subpart_count : Z
}.

Record t : Type := mk { bones : list Bone.t; meshes : list unit }.

(** Lines 83-92 of [MdlxModel.__init__]: the header reads. *)
Definition read_header (stream : bytes) : outcome header :=
  let pos := 0 in
  let pos := 0x90 in
  version <- unpack_from_I stream pos ;;
  let pos := pos + 4 in
  let pos := pos + 8 in
  next_hdr <- unpack_from_I stream pos ;;
  let pos := pos + 4 in
  bone_count <- unpack_from_H stream pos ;;
  let pos := pos + 2 in
  let pos := pos + 2 in
  bone_offset <- unpack_from_I stream pos ;;
  let pos := pos + 4 in
  unknown_offset <- unpack_from_I stream pos ;;
  let pos := pos + 4 in
  subpart_count <- unpack_from_H stream pos ;;
  let pos := pos + 2 in
  let pos := pos + 2 in
  Returned (mkHeader version next_hdr bone_count bone_offset
                     unknown_offset subpart_count).

(** The body of [for i in range(bone_count)], run [n] times from
    [p]; [acc] is [bones] so far. *)
Fixpoint read_bones (fobj : bytes) (n : nat) (p : Z) (acc : list Bone.t)
  : outcome (list Bone.t) :=
  match n with
  | O => Returned acc
  | S n' =>
      let bone_bytes := slice fobj p (p + 0x40) in
      r <- Bone.__init__ (BytesIO.new bone_bytes) ;;
      read_bones fobj n' (p + 0x40) (acc ++ [fst r])
  end.

(** [MdlxModel.__init__(self, data)] *)
Definition __init__ (data : bytes) : outcome t :=
  h <- read_header data ;;
  let fobj := data in
  let p := bone_offset h in
  bones <- read_bones fobj (Z.to_nat (bone_count h)) p [] ;;
  Returned {| bones := bones; meshes := [] |}.
End MdlxModel.

(** ** The decode pipeline *)

Module MdlxFile.
Record t : Type := mk { model : MdlxModel.t; textures : list unit }.

(** Truth value of [model_data]: [None] and [b''] are false. *)
Definition truthy (o : option bytes) : bool :=
  match o with
  | Some (_ :: _) => true
  | _ => false
  end.

(** [MdlxFile.__init__] from the file's contents on, with the model
    constructor as a parameter. *)
Definition init_with (decode : bytes -> outcome MdlxModel.t) (data : bytes)
  : outcome t :=
  bar <- BarFile.__init__ data ;;
  let model_data := BarFile.entry bar 4 in
  if truthy model_data then
    match model_data with
    | Some model_data =>
        m <- decode model_data ;;
        Returned {| model := m; textures := [] |}
    | None => Raised (ValueError "No model data in MDLX")
    end
  else Raised (ValueError "No model data in MDLX").

(** [MdlxFile.__init__(self, path)], after [data = fin.read()]. *)
Definition __init__ (data : bytes) : outcome t :=
  init_with MdlxModel.__init__ data.
End MdlxFile.

(** ** Building test inputs: what [struct.pack] writes *)

Definition byte_of_Z (z : Z) : byte :=
  match Byte.of_N (Z.to_N (z mod 256)) with
  | Some b => b
  | None => x00
  end.

(** [n] little-endian bytes of [z] (two's complement for negative [z]). *)
Fixpoint int_to_le (n : nat) (z : Z) : bytes :=
  match n with
  | O => []
  | S n' => byte_of_Z z :: int_to_le n' (z / 256)
  end.

Definition zeros (n : nat) : bytes := repeat x00 n.

(** A model header laid out as [MdlxModel.__init__] reads it. *)
Definition header_bytes (h : MdlxModel.header) : bytes :=
  int_to_le 4 (MdlxModel.version h) ++ zeros 8 ++
  int_to_le 4 (MdlxModel.next_hdr h) ++
  int_to_le 2 (MdlxModel.bone_count h) ++ zeros 2 ++
  int_to_le 4 (MdlxModel.bone_offset h) ++
  int_to_le 4 (MdlxModel.unknown_offset h) ++
  int_to_le 2 (MdlxModel.subpart_count h) ++ zeros 2.

(** A 16-byte archive header followed by nothing else. *)
Definition bar_header (count : Z) : bytes :=
  list_byte_of_string "BAR" ++ [x00] ++ int_to_le 4 count ++ zeros 8.

(** One 16-byte table-of-contents record; the name is padded with NUL
    bytes to 4 bytes. *)
Definition bar_entry_bytes (kind dup : Z) (nm : string) (off sz : Z) : bytes :=
  int_to_le 2 kind ++ int_to_le 2 dup ++
  firstn 4 (list_byte_of_string nm ++ zeros 4) ++
  int_to_le 4 off ++ int_to_le 4 sz.

(** The minimal model blob: 0x90 zero bytes, a header announcing one
    bone at the byte after the header, and one zeroed 64-byte record.
    The header fields the scenario leaves open are parameters. *)
Definition minimal_header (ver nh unk sub : Z) : MdlxModel.header :=
  MdlxModel.mkHeader ver nh 1 0xB0 unk sub.

Definition minimal_blob (ver nh unk sub : Z) : bytes :=
  zeros 0x90 ++ header_bytes (minimal_header ver nh unk sub) ++ zeros 64.

(** 16-byte archive header, one 16-byte entry of kind 4 named MODL at
    offset 32, then the blob. *)
Definition archive_of (blob : bytes) : bytes :=
  bar_header 1 ++ bar_entry_bytes 4 0 "MODL" 32 (len blob) ++ blob.

Definition minimal_archive (ver nh unk sub : Z) : bytes :=
  archive_of (minimal_blob ver nh unk sub).

(** [0.0] *)
Definition zero_f32 : spec_float := S754_zero false.

Definition zero_vec4 : Bone.vec4 := (zero_f32, zero_f32, zero_f32, zero_f32).

(** The bone a zeroed record decodes to. *)
Definition zero_bone : Bone.t :=
  {| Bone.index := 0; Bone.parent := 0;
     Bone.scale := zero_vec4; Bone.rot := zero_vec4; Bone.trans := zero_vec4 |}.

(** ** Reading a bone record without a stream *)

(** The fields of the 64-byte record that starts at offset [p] of
    [buf], read at their fixed offsets. *)
Definition f32_at (buf : bytes) (o : Z) : spec_float :=
  float32_of_bits (int_from_le (slice buf o (o + 4))).

Definition vec4_at (buf : bytes) (o : Z) : Bone.vec4 :=
  (f32_at buf o, f32_at buf (o + 4), f32_at buf (o + 8), f32_at buf (o + 12)).

Definition bone_at (buf : bytes) (p : Z) : Bone.t :=
  {| Bone.index := int_from_le (slice buf p (p + 2));
     Bone.parent := to_signed 32 (int_from_le (slice buf (p + 4) (p + 8)));
     Bone.scale := vec4_at buf (p + 16);
     Bone.rot := vec4_at buf (p + 32);
     Bone.trans := vec4_at buf (p + 48) |}.

(** The bones the table at [p] of [fobj] holds, in table order. *)
Definition table_bones (fobj : bytes) (p : Z) (n : nat) : list Bone.t :=
  map (fun i => bone_at fobj (p + 64 * Z.of_nat i)) (seq 0 n).

(** ** Reading the model header without a cursor *)

(** The unsigned little-endian field in bytes [lo, hi) of [data]. *)
Definition field (data : bytes) (lo hi : Z) : Z :=
  int_from_le (slice data lo hi).

(** The header fields at the offsets [MdlxModel.__init__] reaches them:
    the cursor starts at 0x90 and moves by 4, 8, 4, 2, 2, 4, 4, 2. *)
Definition header_at (data : bytes) : MdlxModel.header :=
  MdlxModel.mkHeader (field data 0x90 0x94) (field data 0x9C 0xA0)
                     (field data 0xA0 0xA2) (field data 0xA4 0xA8)
                     (field data 0xA8 0xAC) (field data 0xAC 0xAE).

(** ** Properties of archive entries *)

(** What the parser guarantees of an entry: its fields are unsigned. *)
Definition entry_unsigned (e : BarEntry) : Prop :=
  0 <= type e /\ 0 <= offset e /\ 0 <= size e.

(** The invariant of the data model: the byte range of the entry lies
    inside the archive buffer. *)
Definition entry_in_bounds (data : bytes) (e : BarEntry) : Prop :=
  offset e + size e <= len data.

(** [r] is the byte range [lo, hi) of [data]. *)
Definition is_byte_range (data : bytes) (lo hi : Z) (r : bytes) : Prop :=
  len r = hi - lo /\
  forall i, 0 <= i < hi - lo ->
            nth_error r (Z.to_nat i) = nth_error data (Z.to_nat (lo + i)) /\
            nth_error r (Z.to_nat i) <> None.

(** The first entry of kind [k] in table order, if any. *)
Definition first_of_kind (k : Z) (es : list BarEntry) : option BarEntry :=
  find (fun e => type e =? k) es.

(** What [raise] can carry out of each entry point. *)
Definition parse_error (e : exn) : Prop :=
  e = struct_error \/ e = UnicodeDecodeError.

Definition no_model_data : exn := ValueError "No model data in MDLX".

(** ** Test inputs *)

(** An archive of three entries: a texture, then two of kind 4. *)
Definition three_entry_archive : bytes :=
  bar_header 3 ++
  bar_entry_bytes 7 0 "TEX" 64 4 ++
  bar_entry_bytes 4 0 "MODL" 68 8 ++
  bar_entry_bytes 4 1 "MOD2" 76 4 ++
  int_to_le 4 0x11111111 ++ int_to_le 8 0x0807060504030201 ++
  int_to_le 4 0x22222222.

Definition three_entries : list BarEntry :=
  [mkBarEntry 7 0 "TEX" 64 4; mkBarEntry 4 0 "MODL" 68 8;
   mkBarEntry 4 1 "MOD2" 76 4].

(** One entry of kind 4 that announces 100 bytes at offset 38 of a
    40-byte archive. *)
Definition overlong_archive : bytes :=
  bar_header 1 ++ bar_entry_bytes 4 0 "MODL" 38 100 ++ int_to_le 8 0x0807060504030201.

(** One entry of kind 4 with size 0 and an offset past the end of the
    32-byte archive. *)
Definition empty_past_end_archive : bytes :=
  bar_header 1 ++ bar_entry_bytes 4 0 "MODL" 100 0.

(** One entry of kind 4 with size 0 inside the archive, followed by
    payload bytes. *)
Definition empty_model_archive : bytes :=
  bar_header 1 ++ bar_entry_bytes 4 0 "MODL" 32 0 ++ zeros 64.

(** A blob of header only: no bones, a bone table offset far past the
    end. *)
Definition no_bones_blob : bytes :=
  zeros 0x90 ++ header_bytes (MdlxModel.mkHeader 0 0 0 1000 0 0).

(** The minimal blob with its bone count overwritten by 100. *)
Definition hundred_bones_blob : bytes :=
  zeros 0x90 ++ header_bytes (MdlxModel.mkHeader 0 0 100 0xB0 0 0) ++ zeros 64.

(** A one-bone model header laid out by the offsets of the layout
    table of the specification: bone_count at 0x9C, bone_table_offset
    at 0xA0, 28 bytes in all. *)
Definition table_layout_header (next count off unk sub : Z) : bytes :=
  zeros 8 ++ int_to_le 4 next ++ int_to_le 2 count ++ zeros 2 ++
  int_to_le 4 off ++ int_to_le 4 unk ++ int_to_le 2 sub ++ zeros 2.

Definition table_layout_blob : bytes :=
  zeros 0x90 ++ table_layout_header 0 1 0xAC 0 0 ++ zeros 64.

(** A 64-byte bone record with the given in-file index and parent and
    zero vectors. *)
Definition bone_record (idx par : Z) : bytes :=
  int_to_le 2 idx ++ zeros 2 ++ int_to_le 4 par ++ zeros 56.

(** A well-formed blob of one bone. *)
Definition one_bone_blob (idx par : Z) : bytes :=
  zeros 0x90 ++ header_bytes (minimal_header 0 0 0 0) ++ bone_record idx par.

Definition bone_with (idx par : Z) : Bone.t :=
  {| Bone.index := idx; Bone.parent := par;
     Bone.scale := zero_vec4; Bone.rot := zero_vec4; Bone.trans := zero_vec4 |}.

(** A well-formed blob of two bones, with 1 in its next_hdr field. *)
Definition two_bone_blob (i0 p0 i1 p1 : Z) : bytes :=
  zeros 0x90 ++ header_bytes (MdlxModel.mkHeader 0 1 2 0xB0 0 0) ++
  bone_record i0 p0 ++ bone_record i1 p1.


(** ** The archive table read in place *)

(** Whether [b] can be decoded as ASCII. *)
Definition is_ascii (b : bytes) : bool :=
  forallb (fun c => byte_val c <? 128) b.

(** The entry count of the archive header. *)
Definition entry_count (data : bytes) : Z := field data 4 8.

(** The entry whose 16-byte record starts at byte [p] of [data]. *)
Definition entry_from (data : bytes) (p : Z) : BarEntry :=
  mkBarEntry (field data p (p + 2)) (field data (p + 2) (p + 4))
             (rstrip_nul (string_of_list_byte (slice data (p + 4) (p + 8))))
             (field data (p + 8) (p + 12)) (field data (p + 12) (p + 16)).

(** [n] consecutive records from byte [p] on. *)
Definition entries_from (data : bytes) (p : Z) (n : nat) : list BarEntry :=
  map (fun i => entry_from data (p + 16 * Z.of_nat i)) (seq 0 n).

(** Whether the names of these [n] records are all ASCII. *)
Definition names_ascii_from (data : bytes) (p : Z) (n : nat) : bool :=
  forallb (fun i => is_ascii (slice data (p + 16 * Z.of_nat i + 4)
                                    (p + 16 * Z.of_nat i + 8)))
          (seq 0 n).

(** Whether [s] ends with the character [c]. *)
Definition ends_with (c : ascii) (s : string) : bool :=
  match rev (list_ascii_of_string s) with
  | x :: _ => Ascii.eqb x c
  | [] => false
  end.

(** Whether every character of [s] is in the ASCII range. *)
Definition ascii_string (s : string) : Prop :=
  Forall (fun c => (N_of_ascii c < 128)%N) (list_ascii_of_string s).

(** A one-entry archive cut in the middle of the name of its record,
    the only name byte present being 0xFF. *)
Definition cut_name_archive : bytes :=
  bar_header 1 ++ [x04; x00; x00; x00; xff].

(** A bone record whose reserved bytes 2-3 and 8-15 are 0xFF. *)
Definition reserved_set_record (idx par : Z) : bytes :=
  int_to_le 2 idx ++ repeat xff 2 ++ int_to_le 4 par ++ repeat xff 8 ++
  zeros 48.

(** The one-bone blob moved behind 16 more preamble bytes, with other
    values in the header fields that are not used. *)
Definition shifted_one_bone_blob (idx par : Z) : bytes :=
  zeros 0x90 ++ header_bytes (MdlxModel.mkHeader 3 9 1 0xC0 5 2) ++
  repeat xff 16 ++ bone_record idx par.

(** An archive whose only entry is a texture. *)
Definition texture_only_archive : bytes :=
  bar_header 1 ++ bar_entry_bytes 7 0 "TEX" 32 4 ++ int_to_le 4 0x11111111.

(** ** The armature builder: what it asks of the host *)

(** The part of the host's scripting interface that
    [IMPORT_OT_mdlx._create_armature] uses and the importer does not
    define: the vector type of [mathutils], its constructor from three
    floats, its addition, the vector [Vector((0, 0.1, 0))], and the truth
    value of an edit bone object.  Edit bones are identified by their
    rank of creation: bone 0 is the object returned by the first call
    of [edit_bones.new]. *)
Record Host : Type := mkHost {
  Vec : Type;
  Vector : spec_float * spec_float * spec_float -> Vec;
  vec_add : Vec -> Vec -> Vec;
  up_tenth : Vec;
  bone_truth : nat -> bool
}.

(** The requests made to the host, in program order; every request is
    taken to return normally. *)
Inductive host_call (H : Host) : Type :=
| armatures_new (name : string)
| objects_new (name : string)
| objects_link
| set_active
| mode_set (mode : string)
| edit_bones_new (name : string)
| set_head (bone : nat) (v : Vec H)
| set_tail (bone : nat) (v : Vec H)
| set_parent (bone parent : nat).
Arguments armatures_new {H} name.
Arguments objects_new {H} name.
Arguments objects_link {H}.
Arguments set_active {H}.
Arguments mode_set {H} mode.
Arguments edit_bones_new {H} name.
Arguments set_head {H} bone v.
Arguments set_tail {H} bone v.
Arguments set_parent {H} bone parent.

(** [bone_map], a dict from stored bone index to edit bone. *)
Definition dict : Type := list (Z * nat).

(** [d[k] = v] *)
Definition dict_set (k : Z) (v : nat) (d : dict) : dict := (k, v) :: d.

(** [d.get(k)] *)
Fixpoint dict_get (k : Z) (d : dict) : option nat :=
  match d with
  | [] => None
  | (k', v) :: d' => if k' =? k then Some v else dict_get k d'
  end.

(** Outcome of the builder: the requests made, or the [KeyError] of a
    failed [bone_map[...]] with the requests made before it. *)
Inductive built (H : Host) : Type :=
| Built (calls : list (host_call H))
| KeyError (key : Z) (calls : list (host_call H)).
Arguments Built {H} calls.
Arguments KeyError {H} key calls.

(** [f"bone_{index}"] *)
Definition bone_name (index : Z) : string :=
  "bone_" ++ NilZero.string_of_int (Z.to_int index).

(** The first loop of [_create_armature]: [next] edit bones exist
    already. *)
Fixpoint create_bones (H : Host) (bones : list Bone.t) (next : nat)
         (bone_map : dict) : list (host_call H) * dict :=
  match bones with
  | [] => ([], bone_map)
  | b :: rest =>
      let bone := next in
      let '(t0, t1, t2, _) := Bone.trans b in
      let head := Vector H (t0, t1, t2) in
      let bone_map := dict_set (Bone.index b) bone bone_map in
      let '(calls, bone_map) := create_bones H rest (S next) bone_map in
      (edit_bones_new (bone_name (Bone.index b))
         :: set_head bone head
         :: set_tail bone (vec_add H head (up_tenth H))
         :: calls,
       bone_map)
  end.

(** The second loop of [_create_armature]. *)
Fixpoint wire_parents (H : Host) (bones : list Bone.t) (bone_map : dict)
         (done : list (host_call H)) : built H :=
  match bones with
  | [] => Built done
  | b :: rest =>
      if 0 <=? Bone.parent b then
        match dict_get (Bone.parent b) bone_map with
        | Some parent =>
            if bone_truth H parent then
              match dict_get (Bone.index b) bone_map with
              | Some child =>
                  wire_parents H rest bone_map
                               (done ++ [set_parent child parent])
              | None => KeyError (Bone.index b) done
              end
            else wire_parents H rest bone_map done
        | None => wire_parents H rest bone_map done
        end
      else wire_parents H rest bone_map done
  end.

(** [IMPORT_OT_mdlx._create_armature(self, context, model)] *)
Definition create_armature (H : Host) (bones : list Bone.t) : built H :=
  let prologue :=
      [armatures_new "MDLXArmature"; objects_new "MDLXArmature";
       objects_link; set_active; mode_set "EDIT"] in
  let '(calls, bone_map) := create_bones H bones 0 [] in
  match wire_parents H bones bone_map (prologue ++ calls) with
  | Built done => Built (done ++ [mode_set "OBJECT"])
  | KeyError k done => KeyError k done
  end.

(** The rank of the last bone of [bones] whose stored index is [k],
    the first bone having rank [start]. *)
Fixpoint last_rank (k : Z) (bones : list Bone.t) (start : nat) : option nat :=
  match bones with
  | [] => None
  | b :: rest =>
      match last_rank k rest (S start) with
      | Some j => Some j
      | None => if Bone.index b =? k then Some start else None
      end
  end.

(** The parent request the second loop makes for bone [b], if any. *)
Definition parent_request (H : Host) (bones : list Bone.t) (b : Bone.t)
  : list (host_call H) :=
  if 0 <=? Bone.parent b then
    match last_rank (Bone.parent b) bones 0, last_rank (Bone.index b) bones 0 with
    | Some parent, Some child =>
        if bone_truth H parent then [set_parent child parent] else []
    | _, _ => []
    end
  else [].

(** The three requests the first loop makes for the bone [b] that gets
    rank [rank]. *)
Definition bone_requests (H : Host) (rank : nat) (b : Bone.t)
  : list (host_call H) :=
  let '(t0, t1, t2, _) := Bone.trans b in
  let head := Vector H (t0, t1, t2) in
  [edit_bones_new (bone_name (Bone.index b));
   set_head rank head;
   set_tail rank (vec_add H head (up_tenth H))].

(** The bones with their ranks, the first having rank [start]. *)
Definition ranked (start : nat) (bones : list Bone.t) : list (nat * Bone.t) :=
  combine (seq start (List.length bones)) bones.

(** A host for examples: vectors are triples, addition keeps the
    first argument, every edit bone is true. *)
Definition example_host : Host :=
  {| Vec := spec_float * spec_float * spec_float;
     Vector := fun v => v;
     vec_add := fun a _ => a;
     up_tenth := (zero_f32, zero_f32, zero_f32);
     bone_truth := fun _ => true |}.

Definition example_origin : Vec example_host := (zero_f32, zero_f32, zero_f32).

(** ** The decode pipeline from the path on *)

(** [MdlxFile.__init__(self, path)] with its first two lines:
    [with open(path, 'rb') as fin: data = fin.read()].  What the host's
    file system does for [path] is a parameter: it gives the contents of
    the file or raises an exception of its own ([OSError] and its
    subclasses, [MemoryError], ...), of a type [E] the importer does
    not define.  The importer has no [try], so that exception leaves
    [__init__] as it is. *)
Definition MdlxFile_from_path {E : Type} (open_read : string -> E + bytes)
           (path : string) : E + outcome MdlxFile.t :=
  match open_read path with
  | inl e => inl e
  | inr data => inr (MdlxFile.__init__ data)
  end.

(** ** What the armature builder asks for, by kind of request *)

(** The names asked of [edit_bones.new], in the order of the requests. *)
Definition requested_names {H : Host} (calls : list (host_call H))
  : list string :=
  flat_map (fun c => match c with
                     | edit_bones_new name => [name]
                     | _ => []
                     end) calls.

(** ** Objects, references and mutation *)

(** The functions above take the contents of a buffer and give the
    decoded data.  The Python code works on objects: [BarFile(data)]
    makes a new instance and a new list, appends a new [BarEntry]
    instance per table record and keeps a reference to [data] itself;
    [MdlxModel(data)] makes a list, and per bone a [BytesIO] whose
    cursor every read moves, and a [Bone] instance filled attribute by
    attribute.  This module models the same statements over a store of
    mutable objects, where writing to an object is possible and visible
    through every reference to it. *)
Module Heap.

Definition ref : Type := nat.

(** What a variable, an attribute or a list item holds: an immutable
    value or a reference to an object of the store. *)
Inductive value : Type :=
| VInt (z : Z)
| VStr (s : string)
| VFloat (x : spec_float)
| VTuple4 (a b c d : value)
| VRef (r : ref).

(** The objects of the store: a byte buffer ([bytes] or [bytearray]),
    a [memoryview] of another object, a [list], an [io.BytesIO], and an
    instance of a class of the importer with its attributes in order of
    first assignment. *)
Inductive obj : Type :=
| OBuffer (contents : bytes)
| OView (target : ref)
| OList (items : list value)
| OBytesIO (f : BytesIO.t)
| OInstance (cls : string) (attrs : list (string * value)).

(** The store: the object of reference [r] is at position [r]. *)
Definition store : Type := list obj.

(** Result of running statements: a value, an exception of the
    importer's primitives, or [Wrong] when a reference dangles or the
    object has another kind than the statement needs. *)
Inductive res (A : Type) : Type :=
| Done (v : A)
| Fail (e : exn)
| Wrong.
Arguments Done {A} v.
Arguments Fail {A} e.
Arguments Wrong {A}.

(** Statements take a store and leave a store, also when they raise. *)
Definition run (A : Type) : Type := store -> res A * store.

Definition ret {A : Type} (v : A) : run A := fun st => (Done v, st).

Definition wrong {A : Type} : run A := fun st => (Wrong, st).

Definition hbind {A B : Type} (c : run A) (k : A -> run B) : run B :=
  fun st => match c st with
            | (Done v, st') => k v st'
            | (Fail e, st') => (Fail e, st')
            | (Wrong, st') => (Wrong, st')
            end.

Notation "x <<- c ;; k" := (hbind c (fun x => k))
  (at level 61, c at next level, right associativity).

(** A primitive that touches no object. *)
Definition lift {A : Type} (c : outcome A) : run A :=
  fun st => (match c with
             | Returned v => Done v
             | Raised e => Fail e
             end, st).

(** Overwrite the object at [r]. *)
Fixpoint update (st : store) (r : ref) (o : obj) : store :=
  match st, r with
  | [], _ => []
  | _ :: rest, O => o :: rest
  | x :: rest, S r' => x :: update rest r' o
  end.

(** A new object gets the next reference. *)
Definition alloc (o : obj) : run ref :=
  fun st => (Done (List.length st), st ++ [o]).

Definition get (r : ref) : run obj :=
  fun st => match nth_error st r with
            | Some o => (Done o, st)
            | None => (Wrong, st)
            end.

Definition put (r : ref) (o : obj) : run unit :=
  fun st => (Done tt, update st r o).

Fixpoint attr_get (name : string) (attrs : list (string * value))
  : option value :=
  match attrs with
  | [] => None
  | (n, v) :: rest => if String.eqb n name then Some v else attr_get name rest
  end.

Fixpoint attr_set (name : string) (v : value) (attrs : list (string * value))
  : list (string * value) :=
  match attrs with
  | [] => [(name, v)]
  | (n, x) :: rest =>
      if String.eqb n name then (n, v) :: rest
      else (n, x) :: attr_set name v rest
  end.

(** [self.name = v] *)
Definition setattr (self : ref) (name : string) (v : value) : run unit :=
  o <<- get self ;;
  match o with
  | OInstance cls attrs => put self (OInstance cls (attr_set name v attrs))
  | _ => wrong
  end.

(** [self.name] *)
Definition getattr (self : ref) (name : string) : run value :=
  o <<- get self ;;
  match o with
  | OInstance _ attrs =>
      match attr_get name attrs with
      | Some v => ret v
      | None => wrong
      end
  | _ => wrong
  end.

(** [cls(...)]: a new instance without attributes, then [__init__]. *)
Definition instantiate (cls : string) (init : ref -> run unit) : run ref :=
  self <<- alloc (OInstance cls []) ;;
  _ <<- init self ;;
  ret self.

(** [memoryview(data)]: a new view object on the buffer [data]. *)
Definition memoryview (data : ref) : run ref :=
  o <<- get data ;;
  match o with
  | OBuffer _ => alloc (OView data)
  | _ => wrong
  end.

(** What a view shows when it is read: the contents its buffer has at
    that moment. *)
Definition view_bytes (f : ref) : run bytes :=
  o <<- get f ;;
  match o with
  | OView data =>
      o' <<- get data ;;
      match o' with
      | OBuffer b => ret b
      | _ => wrong
      end
  | _ => wrong
  end.

(** [l.append(x)] *)
Definition list_append (l : ref) (x : value) : run unit :=
  o <<- get l ;;
  match o with
  | OList items => put l (OList (items ++ [x]))
  | _ => wrong
  end.

(** [f.read(n)] on a [BytesIO]: the cursor of the object moves. *)
Definition f_read (f : ref) (n : Z) : run bytes :=
  o <<- get f ;;
  match o with
  | OBytesIO s =>
      _ <<- put f (OBytesIO (snd (BytesIO.read n s))) ;;
      ret (fst (BytesIO.read n s))
  | _ => wrong
  end.

Definition read_then {A : Type} (f : ref) (n : Z)
           (unpack : bytes -> outcome A) : run A :=
  b <<- f_read f n ;; lift (unpack b).

Definition read_u16 (f : ref) : run Z := read_then f 2 unpack_H.
Definition read_s32 (f : ref) : run Z := read_then f 4 unpack_i.
Definition read_f32 (f : ref) : run spec_float := read_then f 4 unpack_f.

(** [BarEntry.__init__(self, etype, duplicate, name, offset, size)] *)
Definition BarEntry_init (self : ref) (etype duplicate : Z) (name : string)
           (offset size : Z) : run unit :=
  _ <<- setattr self "type" (VInt etype) ;;
  _ <<- setattr self "duplicate" (VInt duplicate) ;;
  _ <<- setattr self "name" (VStr name) ;;
  _ <<- setattr self "offset" (VInt offset) ;;
  setattr self "size" (VInt size).

(** The loop of [BarFile.__init__], [n] rounds from cursor [pos]. *)
Fixpoint BarFile_loop (self f : ref) (n : nat) (pos : Z) : run unit :=
  match n with
  | O => ret tt
  | S n' =>
      b <<- view_bytes f ;;
      fields <<- lift (unpack_from_HH b pos) ;;
      let '(etype, dup) := fields in
      let pos := pos + 4 in
      b <<- view_bytes f ;;
      s <<- lift (decode_ascii (slice b pos (pos + 4))) ;;
      let name := rstrip_nul s in
      let pos := pos + 4 in
      b <<- view_bytes f ;;
      fields <<- lift (unpack_from_II b pos) ;;
      let '(off, size) := fields in
      let pos := pos + 8 in
      entries <<- getattr self "entries" ;;
      match entries with
      | VRef l =>
          e <<- instantiate "BarEntry"
                (fun e => BarEntry_init e etype dup name off size) ;;
          _ <<- list_append l (VRef e) ;;
          BarFile_loop self f n' pos
      | _ => wrong
      end
  end.

(** [BarFile.__init__(self, data)] *)
Definition BarFile_init (self data : ref) : run unit :=
  l <<- alloc (OList []) ;;
  _ <<- setattr self "entries" (VRef l) ;;
  f <<- memoryview data ;;
  let pos := 0 in
  b <<- view_bytes f ;;
  let magic := slice b pos (pos + 4) in
  let pos := pos + 4 in
  b <<- view_bytes f ;;
  count <<- lift (unpack_from_I b pos) ;;
  let pos := pos + 4 in
  let pos := pos + 8 in
  _ <<- BarFile_loop self f (Z.to_nat count) pos ;;
  setattr self "data" (VRef data).

(** [BarFile(data)] *)
Definition BarFile_new (data : ref) : run ref :=
  instantiate "BarFile" (fun self => BarFile_init self data).

(** [(read_f32(f), read_f32(f), read_f32(f), read_f32(f))] *)
Definition read_tuple4 (f : ref) : run value :=
  a <<- read_f32 f ;;
  b <<- read_f32 f ;;
  c <<- read_f32 f ;;
  d <<- read_f32 f ;;
  ret (VTuple4 (VFloat a) (VFloat b) (VFloat c) (VFloat d)).

(** [MdlxModel.Bone.__init__(self, f)] *)
Definition Bone_init (self f : ref) : run unit :=
  index <<- read_u16 f ;;
  _ <<- setattr self "index" (VInt index) ;;
  _ <<- f_read f 2 ;;
  parent <<- read_s32 f ;;
  _ <<- setattr self "parent" (VInt parent) ;;
  _ <<- f_read f 8 ;;
  scale <<- read_tuple4 f ;;
  _ <<- setattr self "scale" scale ;;
  rot <<- read_tuple4 f ;;
  _ <<- setattr self "rot" rot ;;
  trans <<- read_tuple4 f ;;
  setattr self "trans" trans.

(** Lines 83-92 of [MdlxModel.__init__]: the header reads. *)
Definition read_header (stream : ref) : run MdlxModel.header :=
  let pos := 0 in
  let pos := 0x90 in
  b <<- view_bytes stream ;;
  version <<- lift (unpack_from_I b pos) ;;
  let pos := pos + 4 in
  let pos := pos + 8 in
  b <<- view_bytes stream ;;
  next_hdr <<- lift (unpack_from_I b pos) ;;
  let pos := pos + 4 in
  b <<- view_bytes stream ;;
  bone_count <<- lift (unpack_from_H b pos) ;;
  let pos := pos + 2 in
  let pos := pos + 2 in
  b <<- view_bytes stream ;;
  bone_offset <<- lift (unpack_from_I b pos) ;;
  let pos := pos + 4 in
  b <<- view_bytes stream ;;
  unknown_offset <<- lift (unpack_from_I b pos) ;;
  let pos := pos + 4 in
  b <<- view_bytes stream ;;
  subpart_count <<- lift (unpack_from_H b pos) ;;
  let pos := pos + 2 in
  let pos := pos + 2 in
  ret (MdlxModel.mkHeader version next_hdr bone_count bone_offset
                          unknown_offset subpart_count).

(** The loop of [MdlxModel.__init__], [n] rounds from [p]. *)
Fixpoint MdlxModel_loop (bones fobj : ref) (n : nat) (p : Z) : run unit :=
  match n with
  | O => ret tt
  | S n' =>
      b <<- view_bytes fobj ;;
      let bone_bytes := slice b p (p + 0x40) in
      s <<- alloc (OBytesIO (BytesIO.new bone_bytes)) ;;
      bone <<- instantiate "Bone" (fun self => Bone_init self s) ;;
      _ <<- list_append bones (VRef bone) ;;
      MdlxModel_loop bones fobj n' (p + 0x40)
  end.

(** [MdlxModel.__init__(self, data)] *)
Definition MdlxModel_init (self data : ref) : run unit :=
  f <<- memoryview data ;;
  stream <<- memoryview data ;;
  h <<- read_header stream ;;
  fobj <<- memoryview data ;;
  bones <<- alloc (OList []) ;;
  let p := MdlxModel.bone_offset h in
  _ <<- MdlxModel_loop bones fobj (Z.to_nat (MdlxModel.bone_count h)) p ;;
  _ <<- setattr self "bones" (VRef bones) ;;
  meshes <<- alloc (OList []) ;;
  setattr self "meshes" (VRef meshes).

(** [MdlxModel(data)] *)
Definition MdlxModel_new (data : ref) : run ref :=
  instantiate "MdlxModel" (fun self => MdlxModel_init self data).

(** *** Reading the decoded data back from the store *)

Definition view_instance (st : store) (cls : string) (v : value)
  : option (list (string * value)) :=
  match v with
  | VRef r =>
      match nth_error st r with
      | Some (OInstance c attrs) =>
          if String.eqb c cls then Some attrs else None
      | _ => None
      end
  | _ => None
  end.

Definition int_attr (name : string) (attrs : list (string * value))
  : option Z :=
  match attr_get name attrs with
  | Some (VInt z) => Some z
  | _ => None
  end.

Definition str_attr (name : string) (attrs : list (string * value))
  : option string :=
  match attr_get name attrs with
  | Some (VStr s) => Some s
  | _ => None
  end.

Definition vec4_attr (name : string) (attrs : list (string * value))
  : option Bone.vec4 :=
  match attr_get name attrs with
  | Some (VTuple4 (VFloat a) (VFloat b) (VFloat c) (VFloat d)) =>
      Some (a, b, c, d)
  | _ => None
  end.

Fixpoint view_all {A : Type} (view : value -> option A) (items : list value)
  : option (list A) :=
  match items with
  | [] => Some []
  | x :: rest =>
      match view x, view_all view rest with
      | Some a, Some l => Some (a :: l)
      | _, _ => None
      end
  end.

Definition view_list {A : Type} (st : store) (view : value -> option A)
           (v : value) : option (list A) :=
  match v with
  | VRef r =>
      match nth_error st r with
      | Some (OList items) => view_all view items
      | _ => None
      end
  | _ => None
  end.

Definition view_buffer (st : store) (v : value) : option bytes :=
  match v with
  | VRef r =>
      match nth_error st r with
      | Some (OBuffer b) => Some b
      | _ => None
      end
  | _ => None
  end.

Definition view_BarEntry (st : store) (v : value) : option BarEntry :=
  match view_instance st "BarEntry" v with
  | Some attrs =>
      match int_attr "type" attrs, int_attr "duplicate" attrs,
            str_attr "name" attrs, int_attr "offset" attrs,
            int_attr "size" attrs with
      | Some t, Some d, Some n, Some o, Some s => Some (mkBarEntry t d n o s)
      | _, _, _, _, _ => None
      end
  | None => None
  end.

(** The archive an instance of [BarFile] stands for: its entries, and
    the contents of the buffer its [data] attribute refers to. *)
Definition view_BarFile (st : store) (r : ref) : option BarFile.t :=
  match view_instance st "BarFile" (VRef r) with
  | Some attrs =>
      match attr_get "entries" attrs, attr_get "data" attrs with
      | Some l, Some d =>
          match view_list st (view_BarEntry st) l, view_buffer st d with
          | Some es, Some b => Some (BarFile.mk es b)
          | _, _ => None
          end
      | _, _ => None
      end
  | None => None
  end.

Definition view_Bone (st : store) (v : value) : option Bone.t :=
  match view_instance st "Bone" v with
  | Some attrs =>
      match int_attr "index" attrs, int_attr "parent" attrs,
            vec4_attr "scale" attrs, vec4_attr "rot" attrs,
            vec4_attr "trans" attrs with
      | Some i, Some p, Some s, Some r, Some t => Some (Bone.mk i p s r t)
      | _, _, _, _, _ => None
      end
  | None => None
  end.

(** The model an instance of [MdlxModel] stands for. *)
Definition view_MdlxModel (st : store) (r : ref) : option MdlxModel.t :=
  match view_instance st "MdlxModel" (VRef r) with
  | Some attrs =>
      match attr_get "bones" attrs, attr_get "meshes" attrs with
      | Some l, Some m =>
          match view_list st (view_Bone st) l,
                view_list st (fun _ => @None unit) m with
          | Some bs, Some ms => Some (MdlxModel.mk bs ms)
          | _, _ => None
          end
      | _, _ => None
      end
  | None => None
  end.

(** What a caller sees of a constructor call: the data the new object
    stands for, or the exception. *)
Definition observe {A : Type} (view : store -> ref -> option A)
           (out : res ref * store) : option (outcome A) :=
  match out with
  | (Done r, st) => option_map (@Returned A) (view st r)
  | (Fail e, _) => Some (Raised e)
  | (Wrong, _) => None
  end.

(** *** The objects a call leaves behind *)

Definition BarEntry_obj (e : BarEntry) : obj :=
  OInstance "BarEntry"
            [("type"%string, VInt (type e));
             ("duplicate"%string, VInt (duplicate e));
             ("name"%string, VStr (name e));
             ("offset"%string, VInt (offset e));
             ("size"%string, VInt (size e))].

(** References [start], [start + 1], ... *)
Definition refs_from (start n : nat) : list value := map VRef (seq start n).

(** The new objects while [BarFile.__init__] runs, after [es] has been
    read: the instance, its list, the view, and one object per entry.
    [base] is the reference of the instance. *)
Definition BarFile_objects (base : nat) (data : ref) (es : list BarEntry)
  : list obj :=
  [OInstance "BarFile" [("entries"%string, VRef (base + 1)%nat)];
   OList (refs_from (base + 3) (List.length es));
   OView data]
  ++ map BarEntry_obj es.

Definition vec4_value (v : Bone.vec4) : value :=
  let '(a, b, c, d) := v in VTuple4 (VFloat a) (VFloat b) (VFloat c) (VFloat d).

Definition Bone_obj (b : Bone.t) : obj :=
  OInstance "Bone"
            [("index"%string, VInt (Bone.index b));
             ("parent"%string, VInt (Bone.parent b));
             ("scale"%string, vec4_value (Bone.scale b));
             ("rot"%string, vec4_value (Bone.rot b));
             ("trans"%string, vec4_value (Bone.trans b))].

(** References of the [Bone] instances when each follows its stream:
    [start + 1], [start + 3], ... *)
Fixpoint bone_refs (start n : nat) : list value :=
  match n with
  | O => []
  | S n' => VRef (S start) :: bone_refs (S (S start)) n'
  end.

(** Per decoded bone, its stream as the reads left it and its instance. *)
Definition Bone_objects (rs : list (Bone.t * BytesIO.t)) : list obj :=
  flat_map (fun r => [OBytesIO (snd r); Bone_obj (fst r)]) rs.

(** The new objects while the loop of [MdlxModel.__init__] runs. *)
Definition MdlxModel_objects (base : nat) (data : ref)
           (rs : list (Bone.t * BytesIO.t)) : list obj :=
  [OInstance "MdlxModel" []; OView data; OView data; OView data;
   OList (bone_refs (base + 5) (List.length rs))]
  ++ Bone_objects rs.

End Heap.

(** A buffer, alone in the store and beside another object. *)
Definition store_with_archive : Heap.store :=
  [Heap.OBuffer (minimal_archive 0 0 0 0)].

Definition store_with_more : Heap.store :=
  [Heap.OList [Heap.VRef 1%nat]; Heap.OBuffer (minimal_archive 0 0 0 0);
   Heap.OBytesIO (BytesIO.mk [] 0)].

(** ** Facts about slices *)

Lemma len_nonneg {A : Type} (s : list A) : 0 <= len s.
Proof. unfold len. lia. Qed.

Lemma len_app {A : Type} (s t : list A) : len (s ++ t) = len s + len t.
Proof. unfold len. rewrite length_app. lia. Qed.

Lemma clamp_index_nonneg (n i : Z) : 0 <= n -> 0 <= i -> clamp_index n i = Z.min i n.
Proof.
  intros Hn Hi. unfold clamp_index.
  destruct (Z.ltb_spec i 0); [lia | reflexivity].
Qed.

(** A slice with non-negative bounds, in terms of [firstn] and [skipn]. *)
Lemma slice_nonneg {A : Type} (s : list A) (lo hi : Z) :
  0 <= lo -> 0 <= hi ->
  slice s lo hi =
  firstn (Z.to_nat (Z.min hi (len s) - Z.min lo (len s)))
         (skipn (Z.to_nat (Z.min lo (len s))) s).
Proof.
  intros Hlo Hhi. unfold slice.
  rewrite !clamp_index_nonneg by (auto using len_nonneg). reflexivity.
Qed.

Lemma len_slice {A : Type} (s : list A) (lo hi : Z) :
  0 <= lo -> 0 <= hi ->
  len (slice s lo hi) = Z.max 0 (Z.min hi (len s) - Z.min lo (len s)).
Proof.
  intros Hlo Hhi. rewrite slice_nonneg by assumption.
  unfold len. rewrite length_firstn, length_skipn.
  pose proof (len_nonneg s) as Hs. unfold len in *. lia.
Qed.

(** Inside the buffer a slice has the length its bounds announce. *)
Lemma len_slice_inside {A : Type} (s : list A) (lo hi : Z) :
  0 <= lo -> lo <= hi -> hi <= len s -> len (slice s lo hi) = hi - lo.
Proof. intros. rewrite len_slice by lia. lia. Qed.

Lemma nth_error_slice {A : Type} (s : list A) (lo hi i : Z) :
  0 <= lo -> 0 <= hi -> 0 <= i -> i < len (slice s lo hi) ->
  nth_error (slice s lo hi) (Z.to_nat i) = nth_error s (Z.to_nat (lo + i)).
Proof.
  intros Hlo Hhi Hi Hlt.
  rewrite len_slice in Hlt by assumption.
  rewrite slice_nonneg by assumption.
  rewrite nth_error_firstn.
  destruct (Nat.ltb_spec (Z.to_nat i) (Z.to_nat (Z.min hi (len s) - Z.min lo (len s))));
    [| lia].
  rewrite nth_error_skipn. f_equal. lia.
Qed.

Lemma slice_full {A : Type} (s : list A) (hi : Z) :
  len s <= hi -> slice s 0 hi = s.
Proof.
  intros H. pose proof (len_nonneg s). rewrite slice_nonneg by lia.
  rewrite Z.min_r, Z.min_l by lia. simpl.
  apply firstn_all2. unfold len in *. lia.
Qed.

(** A slice of a slice is a slice of the buffer. *)
Lemma slice_slice {A : Type} (s : list A) (a b c d : Z) :
  0 <= a -> 0 <= c -> c <= d -> a + d <= b -> a + d <= len s ->
  slice (slice s a b) c d = slice s (a + c) (a + d).
Proof.
  intros Ha Hc Hcd Hb Hs.
  rewrite (slice_nonneg (slice s a b)) by lia.
  rewrite (len_slice s a b) by lia.
  rewrite (slice_nonneg s a b) by lia.
  rewrite (slice_nonneg s (a + c) (a + d)) by lia.
  rewrite skipn_firstn_comm, firstn_firstn, skipn_skipn.
  f_equal; [lia |]. f_equal. lia.
Qed.

(** Past the end of the buffer a slice is empty. *)
Lemma slice_past_end {A : Type} (s : list A) (lo hi : Z) :
  len s <= lo -> 0 <= hi -> slice s lo hi = [].
Proof.
  intros Hlo Hhi. pose proof (len_nonneg s).
  rewrite slice_nonneg by lia.
  replace (Z.to_nat (Z.min hi (len s) - Z.min lo (len s))) with O by lia.
  reflexivity.
Qed.

(** ** Little-endian integers *)

Lemma byte_val_range (b : byte) : 0 <= byte_val b < 256.
Proof.
  unfold byte_val. pose proof (Byte.to_N_bounded b). lia.
Qed.

Lemma int_from_le_range (bs : bytes) :
  0 <= int_from_le bs < 256 ^ len bs.
Proof.
  induction bs as [|b t IH].
  - simpl. lia.
  - change (int_from_le (b :: t)) with (byte_val b + 256 * int_from_le t).
    replace (len (b :: t)) with (Z.succ (len t)) by (unfold len; simpl; lia).
    rewrite Z.pow_succ_r by apply len_nonneg.
    pose proof (byte_val_range b). lia.
Qed.

Lemma byte_val_of_Z (z : Z) : byte_val (byte_of_Z z) = z mod 256.
Proof.
  unfold byte_val, byte_of_Z.
  pose proof (Z.mod_pos_bound z 256 ltac:(lia)) as Hm.
  destruct (Byte.of_N (Z.to_N (z mod 256))) as [b|] eqn:E.
  - apply Byte.to_of_N in E. rewrite E. lia.
  - apply Byte.of_N_None_iff in E. lia.
Qed.

Lemma int_from_to_le (n : nat) (z : Z) :
  int_from_le (int_to_le n z) = z mod 256 ^ Z.of_nat n.
Proof.
  revert z. induction n as [|n IH]; intros z.
  - simpl. rewrite Z.mod_1_r. reflexivity.
  - change (int_from_le (int_to_le (S n) z))
      with (byte_val (byte_of_Z z) + 256 * int_from_le (int_to_le n (z / 256))).
    rewrite IH, byte_val_of_Z, Nat2Z.inj_succ, Z.pow_succ_r by lia.
    rewrite Z.rem_mul_r by lia. reflexivity.
Qed.

Lemma length_int_to_le (n : nat) (z : Z) : List.length (int_to_le n z) = n.
Proof. revert z. induction n; intros; simpl; auto. Qed.

(** A signed 32-bit value survives packing and unpacking. *)
Lemma to_signed_32_roundtrip (v : Z) :
  - 2 ^ 31 <= v < 2 ^ 31 ->
  to_signed 32 (int_from_le (int_to_le 4 v)) = v.
Proof.
  intros Hv. rewrite int_from_to_le.
  change (256 ^ Z.of_nat 4) with (2 ^ 32). unfold to_signed.
  change (32 - 1) with 31.
  destruct (Z.ltb_spec (v mod 2 ^ 32) (2 ^ 31)) as [H|H].
  - destruct (Z_lt_le_dec v 0) as [Hn|Hp].
    + rewrite <- (Z.mod_add v 1 (2 ^ 32)) in H by lia.
      rewrite Z.mod_small in H by lia. lia.
    + apply Z.mod_small. lia.
  - destruct (Z_lt_le_dec v 0) as [Hn|Hp].
    + rewrite <- (Z.mod_add v 1 (2 ^ 32)) by lia.
      rewrite Z.mod_small by lia. lia.
    + rewrite Z.mod_small in H by lia. lia.
Qed.

(** ** [struct.unpack_from] on a buffer *)

Lemma unpack_from_raw_ok (n : Z) (buf : bytes) (pos : Z) :
  0 <= pos -> pos + n <= len buf ->
  unpack_from_raw n buf pos = Returned (slice buf pos (pos + n)).
Proof.
  intros Hp Hn. unfold unpack_from_raw.
  rewrite (proj2 (Z.ltb_ge pos 0)) by lia. cbv zeta iota.
  rewrite (proj2 (Z.ltb_ge pos 0)) by lia.
  rewrite (proj2 (Z.ltb_ge (len buf - pos) n)) by lia. reflexivity.
Qed.

Lemma unpack_from_raw_short (n : Z) (buf : bytes) (pos : Z) :
  0 <= pos -> len buf < pos + n ->
  unpack_from_raw n buf pos = Raised struct_error.
Proof.
  intros Hp Hn. unfold unpack_from_raw.
  rewrite (proj2 (Z.ltb_ge pos 0)) by lia. cbv zeta iota.
  rewrite (proj2 (Z.ltb_ge pos 0)) by lia.
  rewrite (proj2 (Z.ltb_lt (len buf - pos) n)) by lia. reflexivity.
Qed.

Lemma unpack_from_raw_raises (n : Z) (buf : bytes) (pos : Z) (e : exn) :
  unpack_from_raw n buf pos = Raised e -> e = struct_error.
Proof.
  unfold unpack_from_raw.
  destruct (_ || _); intros H; [congruence | discriminate].
Qed.

Lemma unpack_from_raw_inv (n : Z) (buf : bytes) (pos : Z) (b : bytes) :
  0 <= pos -> unpack_from_raw n buf pos = Returned b ->
  pos + n <= len buf /\ b = slice buf pos (pos + n).
Proof.
  intros Hp H.
  destruct (Z_le_gt_dec (pos + n) (len buf)) as [Hle|Hgt].
  - rewrite unpack_from_raw_ok in H by assumption. split; congruence.
  - rewrite unpack_from_raw_short in H by lia. discriminate.
Qed.


(** ** Reading from a [BytesIO] *)

Lemma unpack_uint_slice (n : Z) (buf : bytes) (p : Z) :
  0 < n -> 0 <= p ->
  unpack_uint n (slice buf p (p + n)) =
  if p + n <=? len buf
  then Returned (int_from_le (slice buf p (p + n)))
  else Raised struct_error.
Proof.
  intros Hn Hp. unfold unpack_uint. rewrite len_slice by lia.
  pose proof (len_nonneg buf).
  destruct (Z.leb_spec (p + n) (len buf));
    destruct (Z.eqb_spec (Z.max 0 (Z.min (p + n) (len buf) - Z.min p (len buf))) n);
    try reflexivity; lia.
Qed.

Lemma read_pos (n : Z) (buf : bytes) (p : Z) :
  0 <= n -> 0 <= p -> p + n <= len buf ->
  p + len (slice buf p (p + n)) = p + n.
Proof. intros. rewrite len_slice_inside by lia. lia. Qed.

Ltac read_run :=
  intros;
  cbv [read_u16 read_s32 read_f32 read_then BytesIO.read unpack_H unpack_i
       unpack_f BytesIO.buf BytesIO.pos];
  rewrite unpack_uint_slice by lia;
  match goal with
  | |- context [?a <=? ?b] => destruct (Z.leb_spec a b)
  end;
  [ cbn [bind]; rewrite read_pos by lia; reflexivity | reflexivity ].

Lemma read_u16_run (buf : bytes) (p : Z) :
  0 <= p ->
  read_u16 (BytesIO.mk buf p) =
  if p + 2 <=? len buf
  then Returned (int_from_le (slice buf p (p + 2)), BytesIO.mk buf (p + 2))
  else Raised struct_error.
Proof. read_run. Qed.

Lemma read_s32_run (buf : bytes) (p : Z) :
  0 <= p ->
  read_s32 (BytesIO.mk buf p) =
  if p + 4 <=? len buf
  then Returned (to_signed 32 (int_from_le (slice buf p (p + 4))),
                 BytesIO.mk buf (p + 4))
  else Raised struct_error.
Proof. read_run. Qed.

Lemma read_f32_run (buf : bytes) (p : Z) :
  0 <= p ->
  read_f32 (BytesIO.mk buf p) =
  if p + 4 <=? len buf
  then Returned (f32_at buf p, BytesIO.mk buf (p + 4))
  else Raised struct_error.
Proof. unfold f32_at. read_run. Qed.

(** A skip inside the buffer moves the cursor by its size; one that
    runs into the end leaves the cursor at or past the end. *)
Lemma skip_run (n : Z) (buf : bytes) (p : Z) :
  0 <= n -> 0 <= p ->
  exists p', skip n (BytesIO.mk buf p) = Returned (tt, BytesIO.mk buf p') /\
             (p + n <= len buf -> p' = p + n) /\
             (len buf < p + n -> len buf <= p').
Proof.
  intros Hn Hp. eexists. split; [reflexivity |].
  cbv [BytesIO.buf BytesIO.pos]. rewrite len_slice by lia.
  pose proof (len_nonneg buf). lia.
Qed.

(** ** Decoding one bone record *)

Ltac skip_step :=
  match goal with
  | |- context [skip ?n (BytesIO.mk ?b ?q)] =>
      let p' := fresh "p'" in
      let E := fresh "E" in
      let Hin := fresh "Hin" in
      let Hout := fresh "Hout" in
      destruct (skip_run n b q) as (p' & E & Hin & Hout); [lia | lia |];
      rewrite E; cbv beta iota
  end.

Ltac read_step :=
  first [ rewrite read_u16_run by lia
        | rewrite read_s32_run by lia
        | rewrite read_f32_run by lia ];
  match goal with
  | |- context [?a <=? ?b] =>
      destruct (Z.leb_spec a b); [cbv beta iota | try reflexivity; try (exfalso; lia)]
  end.

Ltac norm_pos :=
  repeat match goal with
  | |- context [?p + Zpos ?a + Zpos ?b] =>
      let c := eval compute in (Zpos a + Zpos b) in
      replace (p + Zpos a + Zpos b) with (p + c) by lia
  end.

Lemma Bone_init_short (buf : bytes) (p : Z) :
  0 <= p -> len buf < p + 64 ->
  Bone.__init__ (BytesIO.mk buf p) = Raised struct_error.
Proof.
  intros Hp Hlen. pose proof (len_nonneg buf) as Hb.
  cbv [Bone.__init__ Bone.read_vec4 sbind sret].
  read_step. skip_step. read_step. skip_step.
  do 12 read_step.
  exfalso. lia.
Qed.

Lemma Bone_init_ok (buf : bytes) (p : Z) :
  0 <= p -> p + 64 <= len buf ->
  Bone.__init__ (BytesIO.mk buf p) =
  Returned (bone_at buf p, BytesIO.mk buf (p + 64)).
Proof.
  intros Hp Hlen.
  cbv [Bone.__init__ Bone.read_vec4 sbind sret].
  read_step. skip_step. rewrite Hin by lia. clear Hin Hout. norm_pos.
  read_step. skip_step. rewrite Hin by lia. clear Hin Hout. norm_pos.
  do 12 (read_step; norm_pos).
  unfold bone_at, vec4_at. norm_pos. reflexivity.
Qed.

(** Whatever the stream holds, a bone is read or [struct.error] is
    raised. *)
Lemma Bone_init_run (buf : bytes) (p : Z) :
  0 <= p ->
  Bone.__init__ (BytesIO.mk buf p) =
  if p + 64 <=? len buf
  then Returned (bone_at buf p, BytesIO.mk buf (p + 64))
  else Raised struct_error.
Proof.
  intros Hp. destruct (Z.leb_spec (p + 64) (len buf)).
  - apply Bone_init_ok; assumption.
  - apply Bone_init_short; assumption.
Qed.

(** ** The bone table loop *)

Lemma Bone_init_slice (fobj : bytes) (p : Z) :
  0 <= p ->
  Bone.__init__ (BytesIO.new (slice fobj p (p + 0x40))) =
  if p + 64 <=? len fobj
  then Returned (bone_at (slice fobj p (p + 64)) 0,
                 BytesIO.mk (slice fobj p (p + 64)) 64)
  else Raised struct_error.
Proof.
  intros Hp. unfold BytesIO.new. rewrite Bone_init_run by lia.
  rewrite len_slice by lia. pose proof (len_nonneg fobj).
  change 0x40 with 64.
  destruct (Z.leb_spec (p + 64) (len fobj));
    destruct (Z.leb_spec (0 + 64)
                (Z.max 0 (Z.min (p + 64) (len fobj) - Z.min p (len fobj))));
    try reflexivity; exfalso; lia.
Qed.

(** A record read through its own 64-byte copy is the record read in
    place. *)
Lemma bone_at_slice (fobj : bytes) (p : Z) :
  0 <= p -> p + 64 <= len fobj ->
  bone_at (slice fobj p (p + 64)) 0 = bone_at fobj p.
Proof.
  intros Hp Hlen. unfold bone_at, vec4_at, f32_at.
  repeat rewrite slice_slice by lia.
  norm_pos. cbn [Z.add Pos.add Pos.succ]. rewrite Z.add_0_r. reflexivity.
Qed.

Lemma read_bones_ok (fobj : bytes) (n : nat) (p : Z) (acc : list Bone.t) :
  0 <= p -> p + 64 * Z.of_nat n <= len fobj ->
  MdlxModel.read_bones fobj n p acc = Returned (acc ++ table_bones fobj p n).
Proof.
  revert p acc. induction n as [|n IH]; intros p acc Hp Hlen.
  - simpl. rewrite app_nil_r. reflexivity.
  - cbn [MdlxModel.read_bones].
    rewrite Bone_init_slice by lia.
    rewrite (proj2 (Z.leb_le (p + 64) (len fobj))) by lia.
    cbn [bind fst]. rewrite bone_at_slice by lia.
    change 0x40 with 64. rewrite IH by lia.
    rewrite <- app_assoc. f_equal.
    unfold table_bones. cbn [seq map app].
    rewrite Z.mul_0_r, Z.add_0_r.
    rewrite <- seq_shift, map_map.
    apply (f_equal (fun l => acc ++ bone_at fobj p :: l)).
    apply map_ext. intros i. f_equal. lia.
Qed.

(** With at least one record to read and a table that runs past the
    end of the blob, some record is short and [struct.error] comes
    out of the loop. *)
Lemma read_bones_short (fobj : bytes) (n : nat) (p : Z) (acc : list Bone.t) :
  0 <= p -> (0 < n)%nat -> len fobj < p + 64 * Z.of_nat n ->
  MdlxModel.read_bones fobj n p acc = Raised struct_error.
Proof.
  revert p acc. induction n as [|n IH]; intros p acc Hp Hn Hlen; [lia |].
  cbn [MdlxModel.read_bones].
  rewrite Bone_init_slice by lia.
  destruct (Z.leb_spec (p + 64) (len fobj)) as [Hfit|Hcut].
  - cbn [bind fst]. change 0x40 with 64.
    apply IH; lia.
  - reflexivity.
Qed.

Lemma read_bones_raises (fobj : bytes) (n : nat) (p : Z) (acc : list Bone.t)
      (e : exn) :
  0 <= p -> MdlxModel.read_bones fobj n p acc = Raised e -> e = struct_error.
Proof.
  intros Hp H.
  destruct (Z_le_gt_dec (p + 64 * Z.of_nat n) (len fobj)).
  - rewrite read_bones_ok in H by assumption. discriminate.
  - destruct n as [|n].
    + simpl in H. discriminate.
    + rewrite read_bones_short in H by lia. congruence.
Qed.

Lemma length_table_bones (fobj : bytes) (p : Z) (n : nat) :
  List.length (table_bones fobj p n) = n.
Proof. unfold table_bones. rewrite length_map, length_seq. reflexivity. Qed.

Lemma nth_error_table_bones (fobj : bytes) (p : Z) (n i : nat) :
  (i < n)%nat ->
  nth_error (table_bones fobj p n) i = Some (bone_at fobj (p + 64 * Z.of_nat i)).
Proof.
  intros Hi. unfold table_bones.
  rewrite nth_error_map, nth_error_seq.
  destruct (Nat.ltb_spec i n); [reflexivity | lia].
Qed.

(** ** The model header *)

Lemma field_range (data : bytes) (lo hi : Z) : 0 <= field data lo hi.
Proof. unfold field. apply int_from_le_range. Qed.

Ltac norm_const :=
  repeat match goal with
  | |- context [Zpos ?a + Zpos ?b] =>
      let c := eval compute in (Zpos a + Zpos b) in
      change (Zpos a + Zpos b) with c
  end.

Ltac unpack_step :=
  match goal with
  | |- context [unpack_from_raw ?n ?b ?q] =>
      destruct (Z_le_gt_dec (q + n) (len b));
      [ rewrite (unpack_from_raw_ok n b q) by lia; cbn [bind]; norm_const
      | rewrite (unpack_from_raw_short n b q) by lia; try reflexivity ]
  end.

Lemma read_header_run (data : bytes) :
  MdlxModel.read_header data =
  if 0xAE <=? len data then Returned (header_at data) else Raised struct_error.
Proof.
  unfold MdlxModel.read_header, unpack_from_I, unpack_from_H.
  cbv zeta. norm_const.
  destruct (Z.leb_spec 0xAE (len data)) as [Hfit|Hcut].
  - do 6 (unpack_step; [| exfalso; lia]). reflexivity.
  - do 6 (unpack_step; []). exfalso. lia.
Qed.

Lemma read_header_inv (data : bytes) (h : MdlxModel.header) :
  MdlxModel.read_header data = Returned h ->
  0xAE <= len data /\ h = header_at data.
Proof.
  rewrite read_header_run.
  destruct (Z.leb_spec 0xAE (len data)); intros Hr; [| discriminate].
  split; [assumption | congruence].
Qed.

Lemma header_fields_nonneg (data : bytes) (h : MdlxModel.header) :
  MdlxModel.read_header data = Returned h ->
  0 <= MdlxModel.bone_count h /\ 0 <= MdlxModel.bone_offset h.
Proof.
  intros H. apply read_header_inv in H. destruct H as [_ ->].
  split; apply field_range.
Qed.

(** ** The model constructor, case by case *)

Lemma MdlxModel_init_ok (data : bytes) (h : MdlxModel.header) :
  MdlxModel.read_header data = Returned h ->
  MdlxModel.bone_offset h + 64 * MdlxModel.bone_count h <= len data ->
  MdlxModel.__init__ data =
  Returned {| MdlxModel.bones :=
                table_bones data (MdlxModel.bone_offset h)
                            (Z.to_nat (MdlxModel.bone_count h));
              MdlxModel.meshes := [] |}.
Proof.
  intros Hh Hfit. destruct (header_fields_nonneg _ _ Hh) as [Hc Ho].
  unfold MdlxModel.__init__. rewrite Hh. cbn [bind].
  rewrite read_bones_ok by lia. reflexivity.
Qed.

Lemma MdlxModel_init_no_bones (data : bytes) (h : MdlxModel.header) :
  MdlxModel.read_header data = Returned h ->
  MdlxModel.bone_count h = 0 ->
  MdlxModel.__init__ data =
  Returned {| MdlxModel.bones := []; MdlxModel.meshes := [] |}.
Proof.
  intros Hh Hz. unfold MdlxModel.__init__. rewrite Hh. cbn [bind].
  rewrite Hz. reflexivity.
Qed.

Lemma MdlxModel_init_short (data : bytes) (h : MdlxModel.header) :
  MdlxModel.read_header data = Returned h ->
  1 <= MdlxModel.bone_count h ->
  len data < MdlxModel.bone_offset h + 64 * MdlxModel.bone_count h ->
  MdlxModel.__init__ data = Raised struct_error.
Proof.
  intros Hh Hc Hcut. destruct (header_fields_nonneg _ _ Hh) as [_ Ho].
  unfold MdlxModel.__init__. rewrite Hh. cbn [bind].
  rewrite read_bones_short by lia. reflexivity.
Qed.

Lemma MdlxModel_init_raises (data : bytes) (e : exn) :
  MdlxModel.__init__ data = Raised e -> e = struct_error.
Proof.
  unfold MdlxModel.__init__. rewrite read_header_run.
  destruct (Z.leb_spec 0xAE (len data)); cbn [bind]; [| congruence].
  destruct (MdlxModel.read_bones _ _ _ _) eqn:E; cbn [bind]; [discriminate |].
  intros Hr. injection Hr as <-.
  apply read_bones_raises in E; [assumption | apply field_range].
Qed.

(** A successful decode pins down the header and the table. *)
Lemma MdlxModel_init_inv (data : bytes) (m : MdlxModel.t) :
  MdlxModel.__init__ data = Returned m ->
  let h := header_at data in
  MdlxModel.read_header data = Returned h /\
  (MdlxModel.bone_count h = 0 \/
   MdlxModel.bone_offset h + 64 * MdlxModel.bone_count h <= len data) /\
  MdlxModel.bones m =
    table_bones data (MdlxModel.bone_offset h)
                (Z.to_nat (MdlxModel.bone_count h)).
Proof.
  intros H h.
  destruct (MdlxModel.read_header data) as [h'|e] eqn:Hh.
  2:{ unfold MdlxModel.__init__ in H. rewrite Hh in H. discriminate. }
  destruct (read_header_inv _ _ Hh) as [Hlen ->]. fold h in Hh.
  split; [reflexivity |].
  destruct (header_fields_nonneg _ _ Hh) as [Hc Ho].
  destruct (Z.eq_dec (MdlxModel.bone_count h) 0) as [Hz|Hnz].
  - split; [left; assumption |].
    rewrite (MdlxModel_init_no_bones _ _ Hh Hz) in H.
    injection H as <-. rewrite Hz. reflexivity.
  - destruct (Z_le_gt_dec
                (MdlxModel.bone_offset h + 64 * MdlxModel.bone_count h)
                (len data)) as [Hfit|Hcut].
    + split; [right; assumption |].
      rewrite (MdlxModel_init_ok _ _ Hh Hfit) in H.
      injection H as <-. reflexivity.
    + rewrite (MdlxModel_init_short _ _ Hh) in H by lia. discriminate.
Qed.

(** ** The archive table of contents *)

Lemma unpack_from_pair_unsigned (b : bytes) (a c d : Z) :
  0 <= int_from_le (slice b a c) /\ 0 <= int_from_le (slice b c d).
Proof. split; apply int_from_le_range. Qed.

Lemma read_entries_inv (f : bytes) (n : nat) :
  forall (pos : Z) (acc es : list BarEntry),
    BarFile.read_entries f n pos acc = Returned es ->
    Forall entry_unsigned acc -> Forall entry_unsigned es.
Proof.
  induction n as [|n IH]; intros pos acc es H Hacc.
  - simpl in H. injection H as <-. assumption.
  - cbn [BarFile.read_entries] in H.
    unfold unpack_from_HH, unpack_from_II in H.
    destruct (unpack_from_raw 4 f pos) as [b1|] eqn:E1; [| discriminate].
    cbn [bind] in H.
    destruct (decode_ascii _) as [s|] eqn:E2; [| discriminate].
    cbn [bind] in H.
    destruct (unpack_from_raw 8 f _) as [b2|] eqn:E3; [| discriminate].
    cbn [bind] in H.
    apply IH in H; [assumption |].
    apply Forall_app. split; [assumption |].
    constructor; [| constructor].
    unfold entry_unsigned. cbn [type offset size].
    repeat split; apply int_from_le_range.
Qed.

Lemma decode_ascii_raises (b : bytes) (e : exn) :
  decode_ascii b = Raised e -> e = UnicodeDecodeError.
Proof.
  unfold decode_ascii. destruct (forallb _ b); intros H; congruence.
Qed.

Lemma read_entries_raises (f : bytes) (n : nat) :
  forall (pos : Z) (acc : list BarEntry) (e : exn),
    BarFile.read_entries f n pos acc = Raised e -> parse_error e.
Proof.
  induction n as [|n IH]; intros pos acc e H.
  - simpl in H. discriminate.
  - cbn [BarFile.read_entries] in H.
    unfold unpack_from_HH, unpack_from_II in H.
    destruct (unpack_from_raw 4 f pos) as [b1|e1] eqn:E1; cbn [bind] in H.
    2:{ injection H as <-. left. eapply unpack_from_raw_raises; eassumption. }
    destruct (decode_ascii _) as [s|e2] eqn:E2; cbn [bind] in H.
    2:{ injection H as <-. right. eapply decode_ascii_raises; eassumption. }
    destruct (unpack_from_raw 8 f _) as [b2|e3] eqn:E3; cbn [bind] in H.
    2:{ injection H as <-. left. eapply unpack_from_raw_raises; eassumption. }
    eapply IH; eassumption.
Qed.

(** A parsed archive keeps the buffer it was parsed from, and its
    entries carry unsigned fields. *)
Lemma BarFile_init_inv (data : bytes) (bar : BarFile.t) :
  BarFile.__init__ data = Returned bar ->
  BarFile.data bar = data /\ Forall entry_unsigned (BarFile.entries bar).
Proof.
  unfold BarFile.__init__, unpack_from_I. cbv zeta.
  destruct (unpack_from_raw 4 data _) as [b|]; cbn [bind]; [| discriminate].
  destruct (BarFile.read_entries _ _ _ _) as [es|] eqn:E; cbn [bind];
    [| discriminate].
  intros H. injection H as <-. cbn [BarFile.data BarFile.entries].
  split; [reflexivity |].
  eapply read_entries_inv; [eassumption | constructor].
Qed.

Lemma BarFile_init_raises (data : bytes) (e : exn) :
  BarFile.__init__ data = Raised e -> parse_error e.
Proof.
  unfold BarFile.__init__, unpack_from_I. cbv zeta.
  destruct (unpack_from_raw 4 data _) as [b|e1] eqn:E1; cbn [bind].
  2:{ intros H. injection H as <-. left.
      eapply unpack_from_raw_raises; eassumption. }
  destruct (BarFile.read_entries _ _ _ _) as [es|e2] eqn:E; cbn [bind];
    [discriminate |].
  intros H. injection H as <-. eapply read_entries_raises; eassumption.
Qed.

(** ** Lookup by kind *)

Lemma entry_in_first (data : bytes) (k : Z) (pre post : list BarEntry)
      (e : BarEntry) :
  Forall (fun x => type x <> k) pre -> type e = k ->
  BarFile.entry_in data (pre ++ e :: post) k =
  Some (slice data (offset e) (offset e + size e)).
Proof.
  intros Hpre He. induction Hpre as [|x pre Hx Hpre IH].
  - simpl. rewrite (proj2 (Z.eqb_eq _ _) He). reflexivity.
  - simpl. rewrite (proj2 (Z.eqb_neq _ _) Hx). exact IH.
Qed.

Lemma entry_in_none (data : bytes) (k : Z) (es : list BarEntry) :
  Forall (fun x => type x <> k) es -> BarFile.entry_in data es k = None.
Proof.
  intros H. induction H as [|x es Hx Hes IH].
  - reflexivity.
  - simpl. rewrite (proj2 (Z.eqb_neq _ _) Hx). exact IH.
Qed.

(** The lookup is the slice of the first entry of the kind. *)
Lemma entry_in_find (data : bytes) (k : Z) (es : list BarEntry) :
  BarFile.entry_in data es k =
  match first_of_kind k es with
  | Some e => Some (slice data (offset e) (offset e + size e))
  | None => None
  end.
Proof.
  unfold first_of_kind. induction es as [|x es IH].
  - reflexivity.
  - simpl. destruct (type x =? k); [reflexivity | exact IH].
Qed.

(** A slice inside the buffer is the announced byte range. *)
Lemma slice_is_byte_range (data : bytes) (lo hi : Z) :
  0 <= lo -> lo <= hi -> hi <= len data ->
  is_byte_range data lo hi (slice data lo hi).
Proof.
  intros Hlo Hle Hhi. split.
  - apply len_slice_inside; assumption.
  - intros i Hi.
    assert (Hin : i < len (slice data lo hi))
      by (rewrite len_slice_inside by lia; lia).
    split.
    + apply nth_error_slice; lia.
    + apply nth_error_Some. unfold len in Hin. lia.
Qed.

(** * The claims *)

(** ** C1: the minimal archive decodes to one zero bone *)

(** C1.  For the hand-built minimal input (16-byte archive header with
    magic BAR\0 and count 1, one entry kind=4 dup=0 name MODL offset=32
    size=N, then the N-byte blob: 0x90 zero bytes, a header with
    bone_count=1 whose bone table offset points at one zeroed 64-byte
    record), parsing the archive, looking up kind 4 and decoding the
    model yields exactly one bone with parent 0 and scale, rotation and
    translation all 0.0.  The header is laid out as the decoder reads it
    and its remaining fields are arbitrary. *)
Theorem C1_minimal_archive_decodes_to_one_zero_bone (ver nh unk sub : Z) :
  let blob := minimal_blob ver nh unk sub in
  let archive := minimal_archive ver nh unk sub in
  (exists bar,
      BarFile.__init__ archive = Returned bar /\
      BarFile.entries bar = [mkBarEntry 4 0 "MODL" 32 (len blob)] /\
      BarFile.entry bar 4 = Some blob) /\
  MdlxModel.__init__ blob =
    Returned {| MdlxModel.bones := [zero_bone]; MdlxModel.meshes := [] |} /\
  MdlxFile.__init__ archive =
    Returned {| MdlxFile.model :=
                  {| MdlxModel.bones := [zero_bone]; MdlxModel.meshes := [] |};
                MdlxFile.textures := [] |}.
Proof.
  intros blob archive.
  assert (Hbar : BarFile.__init__ archive =
                 Returned {| BarFile.entries := [mkBarEntry 4 0 "MODL" 32 (len blob)];
                             BarFile.data := archive |}).
  { vm_compute. reflexivity. }
  assert (Hentry : BarFile.entry_in archive [mkBarEntry 4 0 "MODL" 32 (len blob)] 4
                   = Some blob).
  { vm_compute. reflexivity. }
  assert (Hmodel : MdlxModel.__init__ blob =
                   Returned {| MdlxModel.bones := [zero_bone];
                               MdlxModel.meshes := [] |}).
  { vm_compute. reflexivity. }
  split; [| split].
  - eexists. split; [exact Hbar |]. split; [reflexivity | exact Hentry].
  - exact Hmodel.
  - unfold MdlxFile.__init__, MdlxFile.init_with. rewrite Hbar. cbn [bind].
    unfold BarFile.entry. cbn [BarFile.data BarFile.entries].
    rewrite Hentry. rewrite Hmodel. reflexivity.
Qed.

(** ** C2: lookup by kind returns the range of the first match *)

(** C2.  For every parsed archive whose entries all satisfy
    offset + size <= len(buffer), the lookup by kind returns exactly
    the byte range [offset, offset+size) of the first entry, in table
    order, whose kind is the requested one, whatever non-matching
    entries precede it and whatever entries follow it; when no entry
    has the kind, it returns nothing. *)
Theorem C2_entry_is_range_of_first_match
        (data : bytes) (bar : BarFile.t) (k : Z) :
  BarFile.__init__ data = Returned bar ->
  Forall (entry_in_bounds data) (BarFile.entries bar) ->
  (forall pre e post,
      BarFile.entries bar = pre ++ e :: post ->
      Forall (fun x => type x <> k) pre -> type e = k ->
      exists r, BarFile.entry bar k = Some r /\
                is_byte_range data (offset e) (offset e + size e) r) /\
  (Forall (fun x => type x <> k) (BarFile.entries bar) ->
   BarFile.entry bar k = None).
Proof.
  intros Hparse Hbounds.
  destruct (BarFile_init_inv _ _ Hparse) as [Hdata Huns].
  unfold BarFile.entry. rewrite Hdata. split.
  - intros pre e post Hes Hpre He. rewrite Hes.
    rewrite (entry_in_first data k pre post e Hpre He).
    eexists. split; [reflexivity |].
    rewrite Hes in Hbounds, Huns.
    apply Forall_app in Hbounds. destruct Hbounds as [_ Hb].
    apply Forall_app in Huns. destruct Huns as [_ Hu].
    inversion Hb as [|? ? Hbe _]. inversion Hu as [|? ? Hue _]. subst.
    destruct Hue as (_ & Ho & Hs). unfold entry_in_bounds in Hbe.
    apply slice_is_byte_range; lia.
  - intros Hnone. apply entry_in_none. assumption.
Qed.

Lemma C2_entry_is_range_of_first_match_witness :
  (exists r,
      BarFile.entry (BarFile.mk three_entries three_entry_archive) 4 = Some r /\
      is_byte_range three_entry_archive 68 (68 + 8) r) /\
  BarFile.entry (BarFile.mk three_entries three_entry_archive) 9 = None.
Proof.
  split.
  - apply (proj1 (C2_entry_is_range_of_first_match
                    three_entry_archive
                    (BarFile.mk three_entries three_entry_archive) 4
                    ltac:(vm_compute; reflexivity)
                    ltac:(repeat constructor; unfold entry_in_bounds;
                          vm_compute; discriminate))
                 [mkBarEntry 7 0 "TEX" 64 4]
                 (mkBarEntry 4 0 "MODL" 68 8)
                 [mkBarEntry 4 1 "MOD2" 76 4]).
    + reflexivity.
    + repeat constructor. vm_compute. discriminate.
    + reflexivity.
  - apply (proj2 (C2_entry_is_range_of_first_match
                    three_entry_archive
                    (BarFile.mk three_entries three_entry_archive) 9
                    ltac:(vm_compute; reflexivity)
                    ltac:(repeat constructor; unfold entry_in_bounds;
                          vm_compute; discriminate))).
    repeat constructor; vm_compute; discriminate.
Defined.

(** The lookup on the three-entry archive: the second entry wins over
    the third, the first is skipped. *)
Example entry_three_entry_archive :
  BarFile.entry (BarFile.mk three_entries three_entry_archive) 4 =
    Some (int_to_le 8 0x0807060504030201) /\
  BarFile.entry (BarFile.mk three_entries three_entry_archive) 9 = None.
Proof. split; vm_compute; reflexivity. Qed.

(** ** C9: a range that runs past the buffer is clamped, not refused *)

(** C9 as stated fails when the declared size is 0 and the offset lies
    past the end: the range exceeds the buffer, and the slice returned
    is empty, which is not shorter than the declared size 0. *)
Lemma C9_counterexample_empty_entry_past_end :
  exists bar e r,
    BarFile.__init__ empty_past_end_archive = Returned bar /\
    first_of_kind 4 (BarFile.entries bar) = Some e /\
    len empty_past_end_archive < offset e + size e /\
    BarFile.entry bar 4 = Some r /\
    ~ len r < size e.
Proof.
  exists (BarFile.mk [mkBarEntry 4 0 "MODL" 100 0] empty_past_end_archive),
         (mkBarEntry 4 0 "MODL" 100 0), [].
  repeat split; try (vm_compute; reflexivity).
  vm_compute. discriminate.
Qed.

(** C9, amended.  For every parsed archive whose first entry of the
    requested kind has offset + size > len(buffer), the lookup signals
    nothing: it returns the buffer's bytes from the entry's offset to
    the buffer's end (none when the offset is at or past the end), that
    is max(0, len - offset) bytes, which is fewer than the declared size
    whenever that size is not 0. *)
Theorem C9_entry_past_end_is_clamped
        (data : bytes) (bar : BarFile.t) (k : Z) (e : BarEntry) :
  BarFile.__init__ data = Returned bar ->
  first_of_kind k (BarFile.entries bar) = Some e ->
  len data < offset e + size e ->
  exists r, BarFile.entry bar k = Some r /\
            r = skipn (Z.to_nat (offset e)) data /\
            len r = Z.max 0 (len data - offset e) /\
            (0 < size e -> len r < size e).
Proof.
  intros Hparse Hfirst Hpast.
  destruct (BarFile_init_inv _ _ Hparse) as [Hdata Huns].
  unfold BarFile.entry. rewrite Hdata, entry_in_find, Hfirst.
  apply find_some in Hfirst. destruct Hfirst as [Hin _].
  rewrite Forall_forall in Huns. destruct (Huns e Hin) as (_ & Ho & Hs).
  pose proof (len_nonneg data) as Hl.
  eexists. split; [reflexivity |].
  assert (Hr : slice data (offset e) (offset e + size e)
               = skipn (Z.to_nat (offset e)) data).
  { rewrite slice_nonneg by lia.
    rewrite (Z.min_r (offset e + size e)) by lia.
    destruct (Z_le_gt_dec (offset e) (len data)).
    - rewrite Z.min_l by lia. apply firstn_all2.
      rewrite length_skipn. unfold len in *. lia.
    - rewrite Z.min_r by lia.
      replace (Z.to_nat (len data - len data)) with O by lia.
      rewrite firstn_O. symmetry. apply skipn_all2. unfold len in *. lia.
      }
  split; [exact Hr |].
  assert (Hlen : len (slice data (offset e) (offset e + size e))
                 = Z.max 0 (len data - offset e)).
  { rewrite len_slice by lia. lia. }
  split; [exact Hlen | intros Hpos; rewrite Hlen; lia].
Qed.

Lemma C9_entry_past_end_is_clamped_witness :
  exists r,
    BarFile.entry
      (BarFile.mk [mkBarEntry 4 0 "MODL" 38 100] overlong_archive) 4 = Some r /\
    r = skipn (Z.to_nat 38) overlong_archive /\
    len r = Z.max 0 (len overlong_archive - 38) /\
    (0 < 100 -> len r < 100).
Proof.
  apply (C9_entry_past_end_is_clamped
           overlong_archive
           (BarFile.mk [mkBarEntry 4 0 "MODL" 38 100] overlong_archive)
           4 (mkBarEntry 4 0 "MODL" 38 100)).
  - vm_compute. reflexivity.
  - vm_compute. reflexivity.
  - vm_compute. reflexivity.
Defined.

(** ** C10: an empty model entry counts as no model *)

(** C10.  When the first archive entry of kind 4 has size 0, the
    pipeline raises the no-model-data error although an entry of the
    model kind exists; the outcome is the same whatever the model
    decoder is, so the decoder is not run on the empty blob. *)
Theorem C10_empty_model_entry_is_no_model
        (data : bytes) (bar : BarFile.t) (e : BarEntry) :
  BarFile.__init__ data = Returned bar ->
  first_of_kind 4 (BarFile.entries bar) = Some e ->
  size e = 0 ->
  BarFile.entry bar 4 = Some [] /\
  MdlxFile.__init__ data = Raised no_model_data /\
  forall decode, MdlxFile.init_with decode data = Raised no_model_data.
Proof.
  intros Hparse Hfirst Hsize.
  assert (Hentry : BarFile.entry bar 4 = Some []).
  { unfold BarFile.entry. rewrite entry_in_find, Hfirst, Hsize, Z.add_0_r.
    unfold slice. rewrite Z.sub_diag. reflexivity. }
  assert (Hany : forall decode,
             MdlxFile.init_with decode data = Raised no_model_data).
  { intros decode. unfold MdlxFile.init_with. rewrite Hparse. cbn [bind].
    rewrite Hentry. reflexivity. }
  split; [exact Hentry |]. split; [apply Hany | exact Hany].
Qed.

Lemma C10_empty_model_entry_is_no_model_witness :
  BarFile.entry (BarFile.mk [mkBarEntry 4 0 "MODL" 32 0] empty_model_archive) 4
    = Some [] /\
  MdlxFile.__init__ empty_model_archive = Raised no_model_data /\
  forall decode,
    MdlxFile.init_with decode empty_model_archive = Raised no_model_data.
Proof.
  apply (C10_empty_model_entry_is_no_model
           empty_model_archive
           (BarFile.mk [mkBarEntry 4 0 "MODL" 32 0] empty_model_archive)
           (mkBarEntry 4 0 "MODL" 32 0)).
  - vm_compute. reflexivity.
  - vm_compute. reflexivity.
  - reflexivity.
Defined.

(** Run on the empty blob, the decoder would have raised
    [struct.error] instead. *)
Example MdlxModel_init_empty : MdlxModel.__init__ [] = Raised struct_error.
Proof. vm_compute. reflexivity. Qed.

(** ** C3: a bone table that runs past the blob *)

(** C3 as stated fails for a header that announces no bones: with
    bone_count = 0 and a bone table offset of 1000 in a 176-byte blob,
    offset + count * 64 exceeds the blob length and the decode returns
    an empty skeleton. *)
Lemma C3_counterexample_no_bones :
  exists h,
    MdlxModel.read_header no_bones_blob = Returned h /\
    len no_bones_blob <
      MdlxModel.bone_offset h + MdlxModel.bone_count h * 64 /\
    MdlxModel.__init__ no_bones_blob =
      Returned {| MdlxModel.bones := []; MdlxModel.meshes := [] |}.
Proof.
  exists (MdlxModel.mkHeader 0 0 0 1000 0 0).
  repeat split; vm_compute; reflexivity.
Qed.

(** C3, amended.  For every model blob whose header can be read, if
    bone_table_offset + bone_count * 64 exceeds the blob length then the
    decode raises [struct.error] (the code's form of a truncation error)
    and returns no skeleton whenever the header announces at least one
    bone; a header that announces no bones decodes to the empty skeleton
    wherever its bone table offset points. *)
Theorem C3_overlong_bone_table_raises (data : bytes) (h : MdlxModel.header) :
  MdlxModel.read_header data = Returned h ->
  len data < MdlxModel.bone_offset h + MdlxModel.bone_count h * 64 ->
  MdlxModel.__init__ data =
  if MdlxModel.bone_count h =? 0
  then Returned {| MdlxModel.bones := []; MdlxModel.meshes := [] |}
  else Raised struct_error.
Proof.
  intros Hh Hcut. destruct (header_fields_nonneg _ _ Hh) as [Hc _].
  destruct (Z.eqb_spec (MdlxModel.bone_count h) 0) as [Hz|Hnz].
  - apply (MdlxModel_init_no_bones data h Hh Hz).
  - apply (MdlxModel_init_short data h Hh); lia.
Qed.

Lemma C3_overlong_bone_table_raises_witness :
  MdlxModel.__init__ hundred_bones_blob = Raised struct_error.
Proof.
  apply (C3_overlong_bone_table_raises
           hundred_bones_blob (MdlxModel.mkHeader 0 0 100 0xB0 0 0)).
  - vm_compute. reflexivity.
  - vm_compute. reflexivity.
Defined.

(** ** C4: how failures leave the entry points *)

(** C4 as stated fails: on an empty buffer the archive parser and the
    model decoder do not return, they raise [struct.error]; on an
    archive without entries the pipeline raises [ValueError]. *)
Lemma C4_counterexample_entry_points_raise :
  BarFile.__init__ [] = Raised struct_error /\
  MdlxModel.__init__ [] = Raised struct_error /\
  MdlxFile.__init__ [] = Raised struct_error /\
  MdlxFile.__init__ (bar_header 0) = Raised no_model_data.
Proof. repeat split; vm_compute; reflexivity. Qed.

(** C4, amended.  For every input buffer (for [MdlxFile.__init__], the
    contents of the file that [open] and [read] gave) each entry point
    either returns its object or raises an exception to its caller;
    nothing is returned as an error value.  The archive parser raises
    only [struct.error] or [UnicodeDecodeError], the model decoder
    raises only [struct.error], and the pipeline raises one of these or
    the [ValueError] of the missing model.  An exception of the parser
    goes through the pipeline unchanged, and the pipeline raises the
    [ValueError] exactly when the archive was parsed and the lookup of
    kind 4 gave nothing or an empty byte string.  From the path on, the
    pipeline either lets the exception of the file system through, and
    then decodes nothing, or is the pipeline on the contents read. *)
Theorem C4_failures_are_raised_exceptions (data : bytes) :
  ((exists bar, BarFile.__init__ data = Returned bar) \/
   BarFile.__init__ data = Raised struct_error \/
   BarFile.__init__ data = Raised UnicodeDecodeError) /\
  ((exists m, MdlxModel.__init__ data = Returned m) \/
   MdlxModel.__init__ data = Raised struct_error) /\
  ((exists f, MdlxFile.__init__ data = Returned f) \/
   MdlxFile.__init__ data = Raised struct_error \/
   MdlxFile.__init__ data = Raised UnicodeDecodeError \/
   MdlxFile.__init__ data = Raised no_model_data) /\
  (forall e, BarFile.__init__ data = Raised e ->
             MdlxFile.__init__ data = Raised e) /\
  (MdlxFile.__init__ data = Raised no_model_data <->
   exists bar, BarFile.__init__ data = Returned bar /\
               MdlxFile.truthy (BarFile.entry bar 4) = false) /\
  (forall (E : Type) (open_read : string -> E + bytes) (path : string),
      (exists e, open_read path = inl e /\
                 MdlxFile_from_path open_read path = inl e) \/
      (exists contents,
          open_read path = inr contents /\
          MdlxFile_from_path open_read path =
          inr (MdlxFile.__init__ contents))).
Proof.
  assert (Hbar : (exists bar, BarFile.__init__ data = Returned bar) \/
                 BarFile.__init__ data = Raised struct_error \/
                 BarFile.__init__ data = Raised UnicodeDecodeError).
  { destruct (BarFile.__init__ data) as [bar|e] eqn:E.
    - left. eexists. reflexivity.
    - right. destruct (BarFile_init_raises _ _ E) as [-> | ->]; auto. }
  assert (Hmodel : forall blob,
             (exists m, MdlxModel.__init__ blob = Returned m) \/
             MdlxModel.__init__ blob = Raised struct_error).
  { intros blob. destruct (MdlxModel.__init__ blob) as [m|e] eqn:E.
    - left. eexists. reflexivity.
    - right. rewrite (MdlxModel_init_raises _ _ E). reflexivity. }
  assert (Hfalsy : forall bar,
             BarFile.__init__ data = Returned bar ->
             MdlxFile.truthy (BarFile.entry bar 4) = false ->
             MdlxFile.__init__ data = Raised no_model_data).
  { intros bar Hb Hf. unfold MdlxFile.__init__, MdlxFile.init_with.
    rewrite Hb. cbn [bind]. rewrite Hf. reflexivity. }
  assert (Htruthy : forall bar,
             BarFile.__init__ data = Returned bar ->
             MdlxFile.truthy (BarFile.entry bar 4) = true ->
             (exists f, MdlxFile.__init__ data = Returned f) \/
             MdlxFile.__init__ data = Raised struct_error).
  { intros bar Hb Ht. unfold MdlxFile.__init__, MdlxFile.init_with.
    rewrite Hb. cbn [bind]. rewrite Ht.
    destruct (BarFile.entry bar 4) as [blob|]; [| discriminate].
    destruct (Hmodel blob) as [[m Hm] | Hm]; rewrite Hm; cbn [bind].
    - left. eexists. reflexivity.
    - right. reflexivity. }
  assert (Hprop : forall e, BarFile.__init__ data = Raised e ->
                            MdlxFile.__init__ data = Raised e).
  { intros e He. unfold MdlxFile.__init__, MdlxFile.init_with.
    rewrite He. reflexivity. }
  split; [exact Hbar |]. split; [apply Hmodel |].
  split; [| split; [| split]].
  - destruct Hbar as [[bar Hb] | [Hb | Hb]].
    + destruct (MdlxFile.truthy (BarFile.entry bar 4)) eqn:Ht.
      * destruct (Htruthy bar Hb Ht) as [Hr | Hr]; auto.
      * right. right. right. apply (Hfalsy bar Hb Ht).
    + right. left. apply Hprop. exact Hb.
    + right. right. left. apply Hprop. exact Hb.
  - exact Hprop.
  - split.
    + intros Hraise. destruct Hbar as [[bar Hb] | [Hb | Hb]].
      * exists bar. split; [exact Hb |].
        destruct (MdlxFile.truthy (BarFile.entry bar 4)) eqn:Ht;
          [| reflexivity].
        destruct (Htruthy bar Hb Ht) as [[f Hr] | Hr];
          rewrite Hr in Hraise; discriminate.
      * rewrite (Hprop _ Hb) in Hraise. discriminate.
      * rewrite (Hprop _ Hb) in Hraise. discriminate.
    + intros (bar & Hb & Hf). apply (Hfalsy bar Hb Hf).
  - intros E open_read path. unfold MdlxFile_from_path.
    destruct (open_read path) as [e | contents].
    + left. exists e. split; reflexivity.
    + right. exists contents. split; reflexivity.
Qed.

(** A name byte outside ASCII: the parser raises [UnicodeDecodeError]. *)
Example BarFile_init_non_ascii_name :
  BarFile.__init__
    (bar_header 1 ++ [x04; x00; x00; x00; xff; x41; x00; x00] ++ zeros 8)
  = Raised UnicodeDecodeError.
Proof. vm_compute. reflexivity. Qed.

(** ** C5: where the header fields are read *)

(** C5 as stated fails: on a blob whose header is laid out with
    bone_count = 1 at 0x9C and the bone table offset 0xAC at 0xA0, the
    decoder reads next_hdr = 1 (not the 0 stored at 0x98) and
    bone_count = 172 (not the 1 stored at 0x9C), and the decode raises
    [struct.error]. *)
Lemma C5_counterexample_table_layout :
  exists h,
    MdlxModel.read_header table_layout_blob = Returned h /\
    field table_layout_blob 0x98 0x9C = 0 /\
    MdlxModel.next_hdr h = 1 /\
    field table_layout_blob 0x9C 0x9E = 1 /\
    MdlxModel.bone_count h = 172 /\
    MdlxModel.__init__ table_layout_blob = Raised struct_error.
Proof.
  exists (MdlxModel.mkHeader 0 1 172 0 0 0).
  repeat split; vm_compute; reflexivity.
Qed.

(** C5, amended.  Within a model blob the decoder reads
    next_header_offset as a 32-bit little-endian value at byte offset
    0x9C and bone_count as a 16-bit little-endian value at byte offset
    0xA0 (the bone table offset follows at 0xA4); a decoded skeleton has
    as many bones as the 16-bit value at 0xA0 says. *)
Theorem C5_header_field_offsets (data : bytes) (h : MdlxModel.header) :
  MdlxModel.read_header data = Returned h ->
  MdlxModel.next_hdr h = field data 0x9C 0xA0 /\
  MdlxModel.bone_count h = field data 0xA0 0xA2 /\
  MdlxModel.bone_offset h = field data 0xA4 0xA8 /\
  (MdlxModel.__init__ data = Raised struct_error \/
   exists m, MdlxModel.__init__ data = Returned m /\
             len (MdlxModel.bones m) = field data 0xA0 0xA2).
Proof.
  intros Hh. destruct (read_header_inv _ _ Hh) as [_ ->].
  cbn [header_at MdlxModel.next_hdr MdlxModel.bone_count MdlxModel.bone_offset].
  repeat split.
  destruct (MdlxModel.__init__ data) as [m|e] eqn:Hm.
  - right. exists m. split; [reflexivity |].
    destruct (MdlxModel_init_inv _ _ Hm) as (_ & _ & ->).
    unfold len. rewrite length_table_bones.
    cbn [header_at MdlxModel.bone_count].
    pose proof (field_range data 0xA0 0xA2). lia.
  - left. rewrite (MdlxModel_init_raises _ _ Hm). reflexivity.
Qed.

Lemma C5_header_field_offsets_witness :
  1 = field (two_bone_blob 7 (-1) 3 1000) 0x9C 0xA0 /\
  2 = field (two_bone_blob 7 (-1) 3 1000) 0xA0 0xA2 /\
  0xB0 = field (two_bone_blob 7 (-1) 3 1000) 0xA4 0xA8 /\
  (MdlxModel.__init__ (two_bone_blob 7 (-1) 3 1000) = Raised struct_error \/
   exists m, MdlxModel.__init__ (two_bone_blob 7 (-1) 3 1000) = Returned m /\
             len (MdlxModel.bones m)
             = field (two_bone_blob 7 (-1) 3 1000) 0xA0 0xA2).
Proof.
  apply (C5_header_field_offsets
           (two_bone_blob 7 (-1) 3 1000) (MdlxModel.mkHeader 0 1 2 0xB0 0 0)).
  vm_compute. reflexivity.
Defined.

(** The two-bone blob does decode, to two bones. *)
Example MdlxModel_init_two_bones :
  MdlxModel.__init__ (two_bone_blob 7 (-1) 3 1000) =
  Returned {| MdlxModel.bones := [bone_with 7 (-1); bone_with 3 1000];
              MdlxModel.meshes := [] |}.
Proof. vm_compute. reflexivity. Qed.

(** ** C6: the index of a decoded bone *)

(** C6 as stated fails: a one-bone blob whose record stores 7 in its
    16-bit index field decodes to a bone at position 0 whose index is 7. *)
Lemma C6_counterexample_stored_index :
  exists m b,
    MdlxModel.__init__ (one_bone_blob 7 0) = Returned m /\
    nth_error (MdlxModel.bones m) 0 = Some b /\
    Bone.index b = 7 /\
    Bone.index b <> Z.of_nat 0.
Proof.
  exists {| MdlxModel.bones := [bone_with 7 0]; MdlxModel.meshes := [] |},
         (bone_with 7 0).
  repeat split; try (vm_compute; reflexivity).
  vm_compute. discriminate.
Qed.

(** C6, amended.  For every successfully decoded skeleton and every
    bone in it, the bone's index field equals the unsigned 16-bit
    little-endian value stored in the first two bytes of its record,
    the record at bone_table_offset + 64 * i for the bone at 0-based
    position i; the position itself is not stored in the bone. *)
Theorem C6_index_is_stored_field
        (data : bytes) (m : MdlxModel.t) (i : nat) (b : Bone.t) :
  MdlxModel.__init__ data = Returned m ->
  nth_error (MdlxModel.bones m) i = Some b ->
  let rec := MdlxModel.bone_offset (header_at data) + 64 * Z.of_nat i in
  Bone.index b = field data rec (rec + 2).
Proof.
  intros Hm Hb rec.
  destruct (MdlxModel_init_inv _ _ Hm) as (_ & _ & Hbones).
  rewrite Hbones in Hb.
  assert (Hi : (i < Z.to_nat (MdlxModel.bone_count (header_at data)))%nat).
  { rewrite <- (length_table_bones data
                  (MdlxModel.bone_offset (header_at data))).
    apply nth_error_Some. rewrite Hb. discriminate. }
  rewrite nth_error_table_bones in Hb by assumption.
  injection Hb as <-. reflexivity.
Qed.

Lemma C6_index_is_stored_field_witness :
  Bone.index (bone_with 3 1000) =
  field (two_bone_blob 7 (-1) 3 1000) (0xB0 + 64) (0xB0 + 64 + 2).
Proof.
  apply (C6_index_is_stored_field
           (two_bone_blob 7 (-1) 3 1000)
           {| MdlxModel.bones := [bone_with 7 (-1); bone_with 3 1000];
              MdlxModel.meshes := [] |}
           1%nat (bone_with 3 1000)).
  - vm_compute. reflexivity.
  - reflexivity.
Defined.

(** ** C7: parent references are passed through *)

(** C7.  For every model blob with a well-formed header and bone
    table, a record whose parent field stores any signed 32-bit value,
    negative, out of range of the table or not, decodes without error,
    and the decoded bone's parent is that value, unmodified. *)
Theorem C7_parent_is_passed_through
        (data : bytes) (h : MdlxModel.header) (i v : Z) :
  MdlxModel.read_header data = Returned h ->
  MdlxModel.bone_offset h + 64 * MdlxModel.bone_count h <= len data ->
  0 <= i < MdlxModel.bone_count h ->
  - 2 ^ 31 <= v < 2 ^ 31 ->
  slice data (MdlxModel.bone_offset h + 64 * i + 4)
             (MdlxModel.bone_offset h + 64 * i + 8) = int_to_le 4 v ->
  exists m b,
    MdlxModel.__init__ data = Returned m /\
    len (MdlxModel.bones m) = MdlxModel.bone_count h /\
    nth_error (MdlxModel.bones m) (Z.to_nat i) = Some b /\
    Bone.parent b = v.
Proof.
  intros Hh Hfit Hi Hv Hrec.
  rewrite (MdlxModel_init_ok data h Hh Hfit).
  eexists. eexists. split; [reflexivity |].
  cbn [MdlxModel.bones]. split.
  - unfold len. rewrite length_table_bones. lia.
  - rewrite nth_error_table_bones by lia. split; [reflexivity |].
    cbn [bone_at Bone.parent]. rewrite Z2Nat.id by lia.
    rewrite Hrec. apply to_signed_32_roundtrip. assumption.
Qed.

Lemma C7_parent_is_passed_through_witness :
  exists m b,
    MdlxModel.__init__ (two_bone_blob 7 (-1) 3 1000) = Returned m /\
    len (MdlxModel.bones m) = 2 /\
    nth_error (MdlxModel.bones m) (Z.to_nat 0) = Some b /\
    Bone.parent b = -1.
Proof.
  apply (C7_parent_is_passed_through
           (two_bone_blob 7 (-1) 3 1000) (MdlxModel.mkHeader 0 1 2 0xB0 0 0)
           0 (-1)).
  - vm_compute. reflexivity.
  - vm_compute. discriminate.
  - vm_compute. split; [discriminate | reflexivity].
  - vm_compute. split; [discriminate | reflexivity].
  - vm_compute. reflexivity.
Defined.

(** The second record of the same blob names bone 1000 as its parent,
    in a table of two. *)
Example parent_out_of_range_kept :
  exists m b,
    MdlxModel.__init__ (two_bone_blob 7 (-1) 3 1000) = Returned m /\
    len (MdlxModel.bones m) = 2 /\
    nth_error (MdlxModel.bones m) (Z.to_nat 1) = Some b /\
    Bone.parent b = 1000.
Proof.
  exists {| MdlxModel.bones := [bone_with 7 (-1); bone_with 3 1000];
            MdlxModel.meshes := [] |}, (bone_with 3 1000).
  repeat split; vm_compute; reflexivity.
Qed.

(** * Further properties of the importer *)

(** ** The table of contents, entry by entry *)

Lemma field_bound (data : bytes) (lo hi : Z) :
  0 <= lo -> lo <= hi -> 0 <= field data lo hi < 256 ^ (hi - lo).
Proof.
  intros Hlo Hle. unfold field.
  pose proof (int_from_le_range (slice data lo hi)) as [H0 H1].
  split; [assumption |].
  eapply Z.lt_le_trans; [eassumption |].
  apply Z.pow_le_mono_r; [lia |].
  rewrite len_slice by lia. pose proof (len_nonneg data). lia.
Qed.

(** One turn of the loop of [BarFile.__init__] on a complete record. *)
Lemma read_entries_step (f : bytes) (n : nat) (pos : Z) (acc : list BarEntry) :
  0 <= pos -> pos + 16 <= len f ->
  BarFile.read_entries f (S n) pos acc =
  if is_ascii (slice f (pos + 4) (pos + 8))
  then BarFile.read_entries f n (pos + 16) (acc ++ [entry_from f pos])
  else Raised UnicodeDecodeError.
Proof.
  intros Hp Hlen. cbn [BarFile.read_entries].
  unfold unpack_from_HH, unpack_from_II.
  rewrite (unpack_from_raw_ok 4 f pos) by lia. cbn [bind].
  unfold decode_ascii. fold (is_ascii (slice f (pos + 4) (pos + 4 + 4))).
  replace (pos + 4 + 4) with (pos + 8) by lia.
  destruct (is_ascii (slice f (pos + 4) (pos + 8))); cbn [bind];
    [| reflexivity].
  rewrite (unpack_from_raw_ok 8 f (pos + 8)) by lia. cbn [bind].
  rewrite !slice_slice by lia.
  unfold entry_from, field.
  replace (pos + 8 + 8) with (pos + 16) by lia.
  replace (pos + 0) with pos by lia.
  replace (pos + 8 + 0) with (pos + 8) by lia.
  replace (pos + 8 + 4) with (pos + 12) by lia.
  reflexivity.
Qed.

Lemma entries_from_S (f : bytes) (pos : Z) (n : nat) :
  entries_from f pos (S n) = entry_from f pos :: entries_from f (pos + 16) n.
Proof.
  unfold entries_from. cbn [seq map].
  rewrite Z.mul_0_r, Z.add_0_r.
  apply (f_equal (cons (entry_from f pos))).
  rewrite <- seq_shift, map_map. apply map_ext. intros i. f_equal. lia.
Qed.

Lemma names_ascii_from_S (f : bytes) (pos : Z) (n : nat) :
  names_ascii_from f pos (S n) =
  is_ascii (slice f (pos + 4) (pos + 8)) && names_ascii_from f (pos + 16) n.
Proof.
  unfold names_ascii_from. cbn [seq forallb].
  rewrite Z.mul_0_r, Z.add_0_r. f_equal.
  rewrite <- seq_shift.
  induction (seq 0 n) as [|i l IH]; [reflexivity |].
  cbn [map forallb]. rewrite IH.
  replace (pos + 16 * Z.of_nat (S i)) with (pos + 16 + 16 * Z.of_nat i) by lia.
  reflexivity.
Qed.

Lemma read_entries_ok (f : bytes) (n : nat) :
  forall (pos : Z) (acc : list BarEntry),
    0 <= pos -> pos + 16 * Z.of_nat n <= len f ->
    names_ascii_from f pos n = true ->
    BarFile.read_entries f n pos acc = Returned (acc ++ entries_from f pos n).
Proof.
  induction n as [|n IH]; intros pos acc Hp Hlen Hasc.
  - simpl. rewrite app_nil_r. reflexivity.
  - rewrite names_ascii_from_S in Hasc.
    apply andb_true_iff in Hasc. destruct Hasc as [H0 Hrest].
    rewrite read_entries_step by lia. rewrite H0.
    rewrite IH by (assumption || lia).
    rewrite entries_from_S, <- app_assoc. reflexivity.
Qed.

(** What a returned table tells about the buffer. *)
Lemma read_entries_returned (f : bytes) (n : nat) :
  forall (pos : Z) (acc es : list BarEntry),
    0 <= pos ->
    BarFile.read_entries f n pos acc = Returned es ->
    (n = O \/ pos + 16 * Z.of_nat n <= len f) /\
    names_ascii_from f pos n = true /\
    es = acc ++ entries_from f pos n.
Proof.
  induction n as [|n IH]; intros pos acc es Hp H.
  - simpl in H. injection H as <-. rewrite app_nil_r. auto.
  - assert (Hfit : pos + 16 <= len f).
    { cbn [BarFile.read_entries] in H.
      unfold unpack_from_HH, unpack_from_II in H.
      destruct (unpack_from_raw 4 f pos) as [b1|]; [| discriminate].
      cbn [bind] in H.
      destruct (decode_ascii _) as [s|]; [| discriminate]. cbn [bind] in H.
      destruct (unpack_from_raw 8 f (pos + 4 + 4)) as [b2|] eqn:E;
        [| discriminate].
      apply unpack_from_raw_inv in E; lia. }
    rewrite read_entries_step in H by lia.
    destruct (is_ascii (slice f (pos + 4) (pos + 8))) eqn:Hasc;
      [| discriminate].
    apply IH in H; [| lia]. destruct H as (Hn & Hnames & ->).
    rewrite names_ascii_from_S, Hasc, Hnames, entries_from_S, <- app_assoc.
    repeat split. right. destruct Hn as [-> | Hn]; lia.
Qed.

(** ** The archive parser, outcome by outcome *)

Lemma BarFile_init_unfold (data : bytes) :
  8 <= len data ->
  BarFile.__init__ data =
  (entries <- BarFile.read_entries data (Z.to_nat (entry_count data)) 16 [] ;;
   Returned {| BarFile.entries := entries; BarFile.data := data |}).
Proof.
  intros Hlen. unfold BarFile.__init__, unpack_from_I. cbv zeta.
  change (0 + 4) with 4. change (4 + 4 + 8) with 16.
  rewrite (unpack_from_raw_ok 4 data 4) by lia. cbn [bind].
  reflexivity.
Qed.

Lemma BarFile_init_short_header (data : bytes) :
  len data < 8 -> BarFile.__init__ data = Raised struct_error.
Proof.
  intros Hlen. unfold BarFile.__init__, unpack_from_I. cbv zeta.
  change (0 + 4) with 4.
  rewrite (unpack_from_raw_short 4 data 4) by lia. reflexivity.
Qed.

Lemma entry_count_nonneg (data : bytes) : 0 <= entry_count data.
Proof. apply field_range. Qed.

(** X1.  An archive whose buffer holds the 16 header bytes and all the
    16-byte records its count field announces, with ASCII names, is
    parsed to exactly that many entries, in table order, record [i] being
    read in place from byte 16 + 16 * i; the archive object keeps the
    buffer. *)
Theorem BarFile_init_complete_table (data : bytes) :
  16 + 16 * entry_count data <= len data ->
  names_ascii_from data 16 (Z.to_nat (entry_count data)) = true ->
  BarFile.__init__ data =
  Returned {| BarFile.entries :=
                entries_from data 16 (Z.to_nat (entry_count data));
              BarFile.data := data |}.
Proof.
  intros Hlen Hasc. pose proof (entry_count_nonneg data).
  rewrite BarFile_init_unfold by lia.
  rewrite read_entries_ok by (assumption || lia). reflexivity.
Qed.

Lemma BarFile_init_complete_table_witness :
  BarFile.__init__ three_entry_archive =
  Returned {| BarFile.entries :=
                entries_from three_entry_archive 16
                             (Z.to_nat (entry_count three_entry_archive));
              BarFile.data := three_entry_archive |}.
Proof.
  apply (BarFile_init_complete_table three_entry_archive).
  - vm_compute. discriminate.
  - vm_compute. reflexivity.
Defined.

Lemma BarFile_init_table (data : bytes) (bar : BarFile.t) :
  BarFile.__init__ data = Returned bar ->
  8 <= len data /\
  (entry_count data = 0 \/ 16 + 16 * entry_count data <= len data) /\
  names_ascii_from data 16 (Z.to_nat (entry_count data)) = true /\
  bar = {| BarFile.entries :=
             entries_from data 16 (Z.to_nat (entry_count data));
           BarFile.data := data |}.
Proof.
  intros H. pose proof (entry_count_nonneg data) as Hc.
  destruct (Z_lt_le_dec (len data) 8) as [Hshort|Hlen].
  { rewrite BarFile_init_short_header in H by assumption. discriminate. }
  rewrite BarFile_init_unfold in H by assumption.
  destruct (BarFile.read_entries _ _ _ _) as [es|] eqn:E; [| discriminate].
  cbn [bind] in H. injection H as <-.
  apply read_entries_returned in E; [| lia].
  destruct E as (Hn & Hasc & ->).
  repeat split; try assumption.
  destruct Hn as [Hn | Hn]; [left | right]; lia.
Qed.

(** X2.  The parser returns no partial archive: when it returns, the
    buffer held the count field, every announced record was complete
    and had an ASCII name, and the entries are exactly the announced
    records in table order. *)
Theorem BarFile_init_returned (data : bytes) (bar : BarFile.t) :
  BarFile.__init__ data = Returned bar ->
  8 <= len data /\
  (entry_count data = 0 \/ 16 + 16 * entry_count data <= len data) /\
  names_ascii_from data 16 (Z.to_nat (entry_count data)) = true /\
  bar = {| BarFile.entries :=
             entries_from data 16 (Z.to_nat (entry_count data));
           BarFile.data := data |}.
Proof. apply BarFile_init_table. Qed.

Lemma BarFile_init_returned_witness :
  8 <= len three_entry_archive /\
  (entry_count three_entry_archive = 0 \/
   16 + 16 * entry_count three_entry_archive <= len three_entry_archive) /\
  names_ascii_from three_entry_archive 16
                   (Z.to_nat (entry_count three_entry_archive)) = true /\
  BarFile.mk three_entries three_entry_archive =
  {| BarFile.entries :=
       entries_from three_entry_archive 16
                    (Z.to_nat (entry_count three_entry_archive));
     BarFile.data := three_entry_archive |}.
Proof.
  apply (BarFile_init_returned three_entry_archive
           (BarFile.mk three_entries three_entry_archive)).
  vm_compute. reflexivity.
Defined.

(** X3.  Only the first 8 bytes of the header are needed: a buffer
    shorter than 8 bytes raises [struct.error], and a buffer of 8 bytes
    or more whose count field is 0 parses to the empty archive, the 8
    reserved bytes being skipped without being read. *)
Theorem BarFile_init_header_only (data : bytes) :
  len data < 8 \/ entry_count data = 0 ->
  BarFile.__init__ data =
  if len data <? 8 then Raised struct_error
  else Returned {| BarFile.entries := []; BarFile.data := data |}.
Proof.
  intros H. destruct (Z.ltb_spec (len data) 8) as [Hshort|Hlen].
  - apply BarFile_init_short_header. assumption.
  - destruct H as [H|H]; [lia |].
    rewrite BarFile_init_unfold by assumption. rewrite H. reflexivity.
Qed.

Lemma BarFile_init_header_only_witness :
  BarFile.__init__ (firstn 8 (bar_header 0)) =
  if len (firstn 8 (bar_header 0)) <? 8 then Raised struct_error
  else Returned {| BarFile.entries := [];
                   BarFile.data := firstn 8 (bar_header 0) |}.
Proof.
  apply (BarFile_init_header_only (firstn 8 (bar_header 0))).
  right. vm_compute. reflexivity.
Defined.

(** The first turn of the loop on a record that is cut short or has a
    name that is not ASCII. *)
Lemma read_entries_bad_first (f : bytes) (n : nat) (pos : Z)
      (acc : list BarEntry) :
  0 <= pos ->
  len f < pos + 16 \/ is_ascii (slice f (pos + 4) (pos + 8)) = false ->
  BarFile.read_entries f (S n) pos acc =
  Raised (if (pos + 4 <=? len f) && negb (is_ascii (slice f (pos + 4) (pos + 8)))
          then UnicodeDecodeError else struct_error).
Proof.
  intros Hp Hbad.
  destruct (Z_le_gt_dec (pos + 16) (len f)) as [Hfit|Hcut].
  - destruct Hbad as [Hbad|Hbad]; [lia |].
    rewrite read_entries_step by lia. rewrite Hbad.
    rewrite (proj2 (Z.leb_le (pos + 4) (len f))) by lia. reflexivity.
  - cbn [BarFile.read_entries]. unfold unpack_from_HH, unpack_from_II.
    destruct (Z.leb_spec (pos + 4) (len f)) as [Hk|Hk].
    + rewrite (unpack_from_raw_ok 4 f pos) by lia. cbn [bind].
      unfold decode_ascii. fold (is_ascii (slice f (pos + 4) (pos + 4 + 4))).
      replace (pos + 4 + 4) with (pos + 8) by lia.
      destruct (is_ascii (slice f (pos + 4) (pos + 8))); cbn [bind negb andb];
        [| reflexivity].
      rewrite (unpack_from_raw_short 8 f (pos + 8)) by lia. reflexivity.
    + rewrite (unpack_from_raw_short 4 f pos) by lia. reflexivity.
Qed.

Lemma read_entries_bad (f : bytes) (i : nat) :
  forall (n : nat) (pos : Z) (acc : list BarEntry),
    (i < n)%nat -> 0 <= pos ->
    (i = O \/ pos + 16 * Z.of_nat i <= len f) ->
    names_ascii_from f pos i = true ->
    let p := pos + 16 * Z.of_nat i in
    len f < p + 16 \/ is_ascii (slice f (p + 4) (p + 8)) = false ->
    BarFile.read_entries f n pos acc =
    Raised (if (p + 4 <=? len f) && negb (is_ascii (slice f (p + 4) (p + 8)))
            then UnicodeDecodeError else struct_error).
Proof.
  induction i as [|i IH]; intros n pos acc Hi Hp Hfit Hasc p Hbad.
  - destruct n as [|n]; [lia |]. subst p.
    rewrite Z.mul_0_r, Z.add_0_r in *.
    apply read_entries_bad_first; assumption.
  - destruct n as [|n]; [lia |].
    destruct Hfit as [Hfit|Hfit]; [discriminate |].
    rewrite names_ascii_from_S in Hasc.
    apply andb_true_iff in Hasc. destruct Hasc as [H0 Hrest].
    rewrite read_entries_step by lia. rewrite H0.
    assert (Hp' : p = pos + 16 + 16 * Z.of_nat i) by (subst p; lia).
    rewrite Hp' in *.
    apply IH; try assumption; try lia.
Qed.

(** X4.  The first record that is cut short or has a non-ASCII name
    decides the exception: all earlier records being complete with
    ASCII names, the parser raises [UnicodeDecodeError] when the kind of
    that record could be read and one of its name bytes present in the
    buffer is not ASCII, even if the record is cut short after the name,
    and [struct.error] otherwise. *)
Theorem BarFile_init_first_bad_record (data : bytes) (i : Z) :
  8 <= len data ->
  0 <= i < entry_count data ->
  i = 0 \/ 16 + 16 * i <= len data ->
  names_ascii_from data 16 (Z.to_nat i) = true ->
  let p := 16 + 16 * i in
  len data < p + 16 \/ is_ascii (slice data (p + 4) (p + 8)) = false ->
  BarFile.__init__ data =
  Raised (if (p + 4 <=? len data)
             && negb (is_ascii (slice data (p + 4) (p + 8)))
          then UnicodeDecodeError else struct_error).
Proof.
  intros Hlen Hi Hfit Hasc p Hbad.
  rewrite BarFile_init_unfold by assumption.
  assert (Hp : p = 16 + 16 * Z.of_nat (Z.to_nat i)) by (subst p; lia).
  rewrite Hp in *.
  rewrite (read_entries_bad data (Z.to_nat i)); try assumption; try lia.
  reflexivity.
Qed.

Lemma BarFile_init_first_bad_record_witness :
  BarFile.__init__ cut_name_archive =
  Raised (if (16 + 16 * 0 + 4 <=? len cut_name_archive)
             && negb (is_ascii (slice cut_name_archive (16 + 16 * 0 + 4)
                                      (16 + 16 * 0 + 8)))
          then UnicodeDecodeError else struct_error).
Proof.
  apply (BarFile_init_first_bad_record cut_name_archive 0).
  - vm_compute. discriminate.
  - vm_compute. split; [discriminate | reflexivity].
  - left. reflexivity.
  - reflexivity.
  - left. vm_compute. reflexivity.
Defined.

(** ** What a parsed entry can hold *)

Lemma lstrip_nul_suffix (l : list ascii) :
  exists pre, l = pre ++ lstrip_nul l.
Proof.
  induction l as [|c t [pre IH]].
  - exists []. reflexivity.
  - simpl. destruct (Ascii.eqb c zero).
    + exists (c :: pre). simpl. f_equal. exact IH.
    + exists []. reflexivity.
Qed.

Lemma lstrip_nul_head (l : list ascii) :
  match lstrip_nul l with
  | x :: _ => Ascii.eqb x zero = false
  | [] => True
  end.
Proof.
  induction l as [|c t IH].
  - exact I.
  - simpl. destruct (Ascii.eqb c zero) eqn:E; [exact IH | exact E].
Qed.

(** The stripped name is a prefix of the decoded name. *)
Lemma rstrip_nul_prefix (s : string) :
  exists post,
    list_ascii_of_string s = list_ascii_of_string (rstrip_nul s) ++ post.
Proof.
  unfold rstrip_nul. rewrite list_ascii_of_string_of_list_ascii.
  destruct (lstrip_nul_suffix (rev (list_ascii_of_string s))) as [pre H].
  exists (rev pre).
  rewrite <- (rev_involutive (list_ascii_of_string s)), H at 1.
  rewrite rev_app_distr. reflexivity.
Qed.

Lemma rstrip_nul_ends (s : string) : ends_with zero (rstrip_nul s) = false.
Proof.
  unfold ends_with, rstrip_nul.
  rewrite list_ascii_of_string_of_list_ascii, rev_involutive.
  pose proof (lstrip_nul_head (rev (list_ascii_of_string s))) as H.
  destruct (lstrip_nul _); [reflexivity | exact H].
Qed.

Lemma length_list_ascii_of_string (s : string) :
  List.length (list_ascii_of_string s) = String.length s.
Proof. induction s; simpl; auto. Qed.

Lemma list_ascii_of_bytes (b : bytes) :
  list_ascii_of_string (string_of_list_byte b) = map ascii_of_byte b.
Proof.
  unfold string_of_list_byte. apply list_ascii_of_string_of_list_ascii.
Qed.

Lemma is_ascii_chars (b : bytes) :
  is_ascii b = true -> ascii_string (string_of_list_byte b).
Proof.
  intros H. unfold ascii_string. rewrite list_ascii_of_bytes.
  apply Forall_map. apply Forall_forall. intros c Hc.
  unfold is_ascii in H. rewrite forallb_forall in H.
  specialize (H c Hc). apply Z.ltb_lt in H. unfold byte_val in H.
  rewrite ascii_of_byte_via_N, N_ascii_embedding.
  - lia.
  - pose proof (Byte.to_N_bounded c). lia.
Qed.

(** X5.  Every entry of a parsed archive has a kind and a duplicate
    number below 2^16, an offset and a size below 2^32, none negative,
    and a name of at most 4 ASCII characters that does not end with a
    NUL character. *)
Theorem BarFile_entry_fields_in_range
        (data : bytes) (bar : BarFile.t) (e : BarEntry) :
  BarFile.__init__ data = Returned bar ->
  In e (BarFile.entries bar) ->
  0 <= type e < 2 ^ 16 /\ 0 <= duplicate e < 2 ^ 16 /\
  0 <= offset e < 2 ^ 32 /\ 0 <= size e < 2 ^ 32 /\
  (String.length (name e) <= 4)%nat /\
  ends_with zero (name e) = false /\
  ascii_string (name e).
Proof.
  intros H Hin. apply BarFile_init_table in H.
  destruct H as (_ & _ & Hasc & ->). cbn [BarFile.entries] in Hin.
  unfold entries_from in Hin. apply in_map_iff in Hin.
  destruct Hin as (i & <- & Hi).
  unfold names_ascii_from in Hasc. rewrite forallb_forall in Hasc.
  specialize (Hasc i Hi). apply in_seq in Hi.
  set (p := 16 + 16 * Z.of_nat i) in *.
  cbn [entry_from type duplicate offset size name].
  pose proof (field_bound data p (p + 2) ltac:(lia) ltac:(lia)) as Ht.
  pose proof (field_bound data (p + 2) (p + 4) ltac:(lia) ltac:(lia)) as Hd.
  pose proof (field_bound data (p + 8) (p + 12) ltac:(lia) ltac:(lia)) as Ho.
  pose proof (field_bound data (p + 12) (p + 16) ltac:(lia) ltac:(lia)) as Hs.
  replace (p + 2 - p) with 2 in Ht by lia.
  replace (p + 4 - (p + 2)) with 2 in Hd by lia.
  replace (p + 12 - (p + 8)) with 4 in Ho by lia.
  replace (p + 16 - (p + 12)) with 4 in Hs by lia.
  change (256 ^ 2) with (2 ^ 16) in *. change (256 ^ 4) with (2 ^ 32) in *.
  repeat (split; [assumption |]).
  set (s := string_of_list_byte (slice data (p + 4) (p + 8))).
  destruct (rstrip_nul_prefix s) as [post Hpre].
  split; [| split].
  - rewrite <- length_list_ascii_of_string.
    apply (f_equal (@List.length ascii)) in Hpre.
    rewrite length_app in Hpre. subst s.
    rewrite list_ascii_of_bytes, length_map in Hpre.
    pose proof (len_slice data (p + 4) (p + 8) ltac:(lia) ltac:(lia)) as Hl.
    pose proof (len_nonneg data). unfold len in Hl, H. lia.
  - apply rstrip_nul_ends.
  - pose proof (is_ascii_chars _ Hasc) as Hc. fold s in Hc.
    unfold ascii_string in *. rewrite Hpre in Hc.
    apply Forall_app in Hc. apply Hc.
Qed.

Lemma BarFile_entry_fields_in_range_witness :
  0 <= 4 < 2 ^ 16 /\ 0 <= 1 < 2 ^ 16 /\
  0 <= 76 < 2 ^ 32 /\ 0 <= 4 < 2 ^ 32 /\
  (String.length "MOD2" <= 4)%nat /\
  ends_with zero "MOD2" = false /\
  ascii_string "MOD2".
Proof.
  apply (BarFile_entry_fields_in_range
           three_entry_archive (BarFile.mk three_entries three_entry_archive)
           (mkBarEntry 4 1 "MOD2" 76 4)).
  - vm_compute. reflexivity.
  - right. right. left. reflexivity.
Defined.

(** ** The lookup in general *)

(** X6.  For every parsed archive and kind, the lookup returns the
    bytes of the first entry of that kind that the buffer really holds:
    the entry's range cut at the buffer end, that is
    min(size, max(0, len - offset)) bytes starting at offset. *)
Theorem BarFile_entry_holds_what_buffer_has
        (data : bytes) (bar : BarFile.t) (k : Z) (e : BarEntry) :
  BarFile.__init__ data = Returned bar ->
  first_of_kind k (BarFile.entries bar) = Some e ->
  exists r,
    BarFile.entry bar k = Some r /\
    r = firstn (Z.to_nat (size e)) (skipn (Z.to_nat (offset e)) data) /\
    len r = Z.min (size e) (Z.max 0 (len data - offset e)).
Proof.
  intros Hparse Hfirst.
  destruct (BarFile_init_inv _ _ Hparse) as [Hdata Huns].
  unfold BarFile.entry. rewrite Hdata, entry_in_find, Hfirst.
  apply find_some in Hfirst. destruct Hfirst as [Hin _].
  rewrite Forall_forall in Huns. destruct (Huns e Hin) as (_ & Ho & Hs).
  pose proof (len_nonneg data) as Hl.
  eexists. split; [reflexivity |].
  assert (Hr : slice data (offset e) (offset e + size e)
               = firstn (Z.to_nat (size e))
                        (skipn (Z.to_nat (offset e)) data)).
  { rewrite slice_nonneg by lia.
    destruct (Z_le_gt_dec (offset e) (len data)) as [Hin'|Hout].
    - rewrite (Z.min_l (offset e)) by lia.
      destruct (Z_le_gt_dec (offset e + size e) (len data)).
      + rewrite Z.min_l by lia. f_equal. lia.
      + rewrite Z.min_r by lia.
        rewrite !firstn_all2; try reflexivity;
          rewrite length_skipn; unfold len in *; lia.
    - rewrite !Z.min_r by lia.
      rewrite (skipn_all2 data (n := Z.to_nat (offset e)))
        by (unfold len in *; lia).
      rewrite skipn_all2 by (unfold len in *; lia).
      rewrite !firstn_nil. reflexivity. }
  split; [exact Hr |].
  rewrite len_slice by lia. lia.
Qed.

Lemma BarFile_entry_holds_what_buffer_has_witness :
  exists r,
    BarFile.entry
      (BarFile.mk [mkBarEntry 4 0 "MODL" 38 100] overlong_archive) 4 = Some r /\
    r = firstn (Z.to_nat 100) (skipn (Z.to_nat 38) overlong_archive) /\
    len r = Z.min 100 (Z.max 0 (len overlong_archive - 38)).
Proof.
  apply (BarFile_entry_holds_what_buffer_has
           overlong_archive
           (BarFile.mk [mkBarEntry 4 0 "MODL" 38 100] overlong_archive)
           4 (mkBarEntry 4 0 "MODL" 38 100)).
  - vm_compute. reflexivity.
  - vm_compute. reflexivity.
Defined.

(** X7.  The lookup returns [None] exactly when no entry of the
    archive has the requested kind; an entry of the kind with an empty
    or out-of-buffer range still gives a byte string, not [None]. *)
Theorem BarFile_entry_None_iff (bar : BarFile.t) (k : Z) :
  BarFile.entry bar k = None <->
  Forall (fun x => type x <> k) (BarFile.entries bar).
Proof.
  unfold BarFile.entry. generalize (BarFile.data bar) as data.
  intros data. induction (BarFile.entries bar) as [|x es IH]; simpl.
  - split; [constructor | reflexivity].
  - destruct (Z.eqb_spec (type x) k) as [He|Hne].
    + split; [discriminate |]. intros H. inversion H. contradiction.
    + rewrite IH. split.
      * intros H. constructor; assumption.
      * intros H. inversion H. assumption.
Qed.

(** ** The model decoder, outcome by outcome *)

(** X8.  The model decoder returns exactly when the blob holds the
    header up to byte 0xAE and either no bone is announced or the whole
    bone table lies inside the blob; it then returns the announced
    number of bones, bone [i] being the record at
    bone_offset + 64 * i.  In every other case it raises
    [struct.error]. *)
Theorem MdlxModel_init_outcome (data : bytes) :
  let h := header_at data in
  MdlxModel.__init__ data =
  if (0xAE <=? len data)
     && ((MdlxModel.bone_count h =? 0)
         || (MdlxModel.bone_offset h + 64 * MdlxModel.bone_count h
             <=? len data))
  then Returned {| MdlxModel.bones :=
                     table_bones data (MdlxModel.bone_offset h)
                                 (Z.to_nat (MdlxModel.bone_count h));
                   MdlxModel.meshes := [] |}
  else Raised struct_error.
Proof.
  intros h. pose proof (read_header_run data) as Hh. fold h in Hh.
  destruct (Z.leb_spec 0xAE (len data)) as [Hlen|Hshort]; cbn [andb].
  - pose proof (header_fields_nonneg _ _ Hh) as [Hc Ho].
    destruct (Z.eqb_spec (MdlxModel.bone_count h) 0) as [Hz|Hnz]; cbn [orb].
    + rewrite (MdlxModel_init_no_bones _ _ Hh Hz), Hz. reflexivity.
    + destruct (Z.leb_spec
                  (MdlxModel.bone_offset h + 64 * MdlxModel.bone_count h)
                  (len data)) as [Hfit|Hcut].
      * apply (MdlxModel_init_ok _ _ Hh Hfit).
      * apply (MdlxModel_init_short _ _ Hh); lia.
  - unfold MdlxModel.__init__. rewrite Hh. reflexivity.
Qed.

(** X9.  Reading a bone from a stream needs 64 bytes after the cursor:
    with fewer it raises [struct.error], also when the bytes run out
    inside one of the two skipped reserved areas; otherwise it returns
    the bone read in place at the cursor and leaves the cursor 64 bytes
    further, the buffer unchanged. *)
Theorem Bone_init_reads_64_bytes (buf : bytes) (p : Z) :
  0 <= p ->
  Bone.__init__ (BytesIO.mk buf p) =
  if p + 64 <=? len buf
  then Returned (bone_at buf p, BytesIO.mk buf (p + 64))
  else Raised struct_error.
Proof. apply Bone_init_run. Qed.

Lemma Bone_init_reads_64_bytes_witness :
  Bone.__init__ (BytesIO.mk (bone_record 7 (-1) ++ bone_record 3 1000) 64) =
  if 64 + 64 <=? len (bone_record 7 (-1) ++ bone_record 3 1000)
  then Returned (bone_at (bone_record 7 (-1) ++ bone_record 3 1000) 64,
                 BytesIO.mk (bone_record 7 (-1) ++ bone_record 3 1000)
                            (64 + 64))
  else Raised struct_error.
Proof.
  apply (Bone_init_reads_64_bytes
           (bone_record 7 (-1) ++ bone_record 3 1000) 64).
  vm_compute. discriminate.
Defined.

(** A record read in a slice is the record read in place. *)
Lemma bone_at_slice_gen (f : bytes) (a b q : Z) :
  0 <= a -> 0 <= q -> a + q + 64 <= b -> a + q + 64 <= len f ->
  bone_at (slice f a b) q = bone_at f (a + q).
Proof.
  intros Ha Hq Hb Hlen. unfold bone_at, vec4_at, f32_at.
  repeat rewrite slice_slice by lia.
  rewrite !Z.add_assoc. reflexivity.
Qed.

(** X10.  The reserved bytes of a bone record (bytes 2-3 and 8-15) are
    skipped, not decoded: two 64-byte records that agree on bytes 0-1,
    4-7 and 16-63 decode to the same bone. *)
Theorem Bone_init_ignores_reserved_bytes (r1 r2 : bytes) :
  len r1 = 64 -> len r2 = 64 ->
  slice r1 0 2 = slice r2 0 2 ->
  slice r1 4 8 = slice r2 4 8 ->
  slice r1 16 64 = slice r2 16 64 ->
  exists b,
    Bone.__init__ (BytesIO.new r1) = Returned (b, BytesIO.mk r1 64) /\
    Bone.__init__ (BytesIO.new r2) = Returned (b, BytesIO.mk r2 64).
Proof.
  intros H1 H2 Hidx Hpar Hvec. exists (bone_at r1 0).
  unfold BytesIO.new. rewrite !Bone_init_run by lia.
  rewrite H1, H2. cbn [Z.add Z.leb Z.compare Pos.compare Pos.compare_cont].
  split; [reflexivity |]. f_equal. f_equal.
  assert (Hv : forall r, len r = 64 ->
             bone_at r 0 =
             {| Bone.index := int_from_le (slice r 0 2);
                Bone.parent := to_signed 32 (int_from_le (slice r 4 8));
                Bone.scale := vec4_at (slice r 16 64) 0;
                Bone.rot := vec4_at (slice r 16 64) 16;
                Bone.trans := vec4_at (slice r 16 64) 32 |}).
  { intros r Hr. unfold bone_at, vec4_at, f32_at.
    repeat rewrite slice_slice by lia. reflexivity. }
  rewrite (Hv r1 H1), (Hv r2 H2), Hidx, Hpar, Hvec. reflexivity.
Qed.

Lemma Bone_init_ignores_reserved_bytes_witness :
  exists b,
    Bone.__init__ (BytesIO.new (bone_record 7 (-1)))
      = Returned (b, BytesIO.mk (bone_record 7 (-1)) 64) /\
    Bone.__init__ (BytesIO.new (reserved_set_record 7 (-1)))
      = Returned (b, BytesIO.mk (reserved_set_record 7 (-1)) 64).
Proof.
  apply (Bone_init_ignores_reserved_bytes
           (bone_record 7 (-1)) (reserved_set_record 7 (-1)));
    vm_compute; reflexivity.
Defined.

Lemma to_signed_32_range (u : Z) :
  0 <= u < 2 ^ 32 -> - 2 ^ 31 <= to_signed 32 u < 2 ^ 31.
Proof.
  intros Hu. unfold to_signed. change (32 - 1) with 31.
  destruct (Z.ltb_spec u (2 ^ 31)); lia.
Qed.

(** X11.  Every bone of a decoded skeleton has an index in
    [0, 2^16) and a parent in [-2^31, 2^31). *)
Theorem MdlxModel_bone_fields_in_range
        (data : bytes) (m : MdlxModel.t) (b : Bone.t) :
  MdlxModel.__init__ data = Returned m ->
  In b (MdlxModel.bones m) ->
  0 <= Bone.index b < 2 ^ 16 /\ - 2 ^ 31 <= Bone.parent b < 2 ^ 31.
Proof.
  intros Hm Hb. destruct (MdlxModel_init_inv _ _ Hm) as (Hh & _ & Hbones).
  rewrite Hbones in Hb. unfold table_bones in Hb. apply in_map_iff in Hb.
  destruct Hb as (i & <- & _).
  pose proof (header_fields_nonneg _ _ Hh) as [_ Ho].
  set (p := MdlxModel.bone_offset (header_at data) + 64 * Z.of_nat i).
  cbn [bone_at Bone.index Bone.parent]. split.
  - pose proof (field_bound data p (p + 2) ltac:(lia) ltac:(lia)) as H.
    replace (p + 2 - p) with 2 in H by lia. exact H.
  - apply to_signed_32_range.
    pose proof (field_bound data (p + 4) (p + 8) ltac:(lia) ltac:(lia)) as H.
    replace (p + 8 - (p + 4)) with 4 in H by lia. exact H.
Qed.

Lemma MdlxModel_bone_fields_in_range_witness :
  0 <= Bone.index (bone_with 3 1000) < 2 ^ 16 /\
  - 2 ^ 31 <= Bone.parent (bone_with 3 1000) < 2 ^ 31.
Proof.
  apply (MdlxModel_bone_fields_in_range
           (two_bone_blob 7 (-1) 3 1000)
           {| MdlxModel.bones := [bone_with 7 (-1); bone_with 3 1000];
              MdlxModel.meshes := [] |}
           (bone_with 3 1000)).
  - vm_compute. reflexivity.
  - right. left. reflexivity.
Defined.

Lemma table_bones_slice (f : bytes) (o : Z) (n : nat) :
  0 <= o -> o + 64 * Z.of_nat n <= len f ->
  table_bones f o n = table_bones (slice f o (o + 64 * Z.of_nat n)) 0 n.
Proof.
  intros Ho Hfit. unfold table_bones. apply map_ext_in.
  intros i Hi. apply in_seq in Hi.
  rewrite bone_at_slice_gen by lia. reflexivity.
Qed.

(** X12.  A decoded skeleton depends on the blob only through its
    bone count, and the bytes of its bone table: two blobs of at least
    0xAE bytes that announce the same number of bones and hold the same
    table bytes, at whatever offsets, decode to the same skeleton; the
    preamble, format_version, next_hdr, unknown_offset and subpart_count
    have no influence. *)
Theorem MdlxModel_init_depends_on_table_only (d1 d2 : bytes) :
  let h1 := header_at d1 in
  let h2 := header_at d2 in
  0xAE <= len d1 -> 0xAE <= len d2 ->
  MdlxModel.bone_count h1 = MdlxModel.bone_count h2 ->
  MdlxModel.bone_offset h1 + 64 * MdlxModel.bone_count h1 <= len d1 ->
  MdlxModel.bone_offset h2 + 64 * MdlxModel.bone_count h2 <= len d2 ->
  slice d1 (MdlxModel.bone_offset h1)
        (MdlxModel.bone_offset h1 + 64 * MdlxModel.bone_count h1)
  = slice d2 (MdlxModel.bone_offset h2)
          (MdlxModel.bone_offset h2 + 64 * MdlxModel.bone_count h2) ->
  MdlxModel.__init__ d1 = MdlxModel.__init__ d2.
Proof.
  intros h1 h2 Hl1 Hl2 Hc Hf1 Hf2 Htab.
  assert (Hh1 : MdlxModel.read_header d1 = Returned h1).
  { rewrite read_header_run.
    rewrite (proj2 (Z.leb_le _ _) Hl1). reflexivity. }
  assert (Hh2 : MdlxModel.read_header d2 = Returned h2).
  { rewrite read_header_run.
    rewrite (proj2 (Z.leb_le _ _) Hl2). reflexivity. }
  pose proof (header_fields_nonneg _ _ Hh1) as [Hc1 Ho1].
  pose proof (header_fields_nonneg _ _ Hh2) as [Hc2 Ho2].
  rewrite (MdlxModel_init_ok _ _ Hh1 Hf1), (MdlxModel_init_ok _ _ Hh2 Hf2).
  rewrite (table_bones_slice d1) by lia.
  rewrite (table_bones_slice d2) by lia.
  rewrite !Z2Nat.id by lia. rewrite Htab, Hc. reflexivity.
Qed.

Lemma MdlxModel_init_depends_on_table_only_witness :
  MdlxModel.__init__ (one_bone_blob 7 (-1)) =
  MdlxModel.__init__ (shifted_one_bone_blob 7 (-1)).
Proof.
  apply (MdlxModel_init_depends_on_table_only
           (one_bone_blob 7 (-1)) (shifted_one_bone_blob 7 (-1)));
    vm_compute; (reflexivity || discriminate).
Defined.

(** ** The pipeline *)

Lemma field_slice (data : bytes) (a b lo hi : Z) :
  0 <= a -> 0 <= lo -> lo <= hi -> a + hi <= b -> a + hi <= len data ->
  field (slice data a b) lo hi = field data (a + lo) (a + hi).
Proof.
  intros. unfold field. rewrite slice_slice by lia. reflexivity.
Qed.

(** X13.  Offsets inside the model blob count from the start of the
    archive entry: when the first entry of kind 4 lies inside the
    buffer, is at least 0xAE bytes long and holds its whole bone table,
    the pipeline returns the bones read in place from the archive
    buffer, bone [i] at offset_of_entry + bone_offset + 64 * i, the bone
    count and bone offset being read at offset_of_entry + 0xA0 and
    offset_of_entry + 0xA4. *)
Theorem MdlxFile_init_reads_bones_in_archive
        (data : bytes) (bar : BarFile.t) (e : BarEntry) :
  BarFile.__init__ data = Returned bar ->
  first_of_kind 4 (BarFile.entries bar) = Some e ->
  offset e + size e <= len data ->
  0xAE <= size e ->
  let count := field data (offset e + 0xA0) (offset e + 0xA2) in
  let boff := field data (offset e + 0xA4) (offset e + 0xA8) in
  boff + 64 * count <= size e ->
  MdlxFile.__init__ data =
  Returned {| MdlxFile.model :=
                {| MdlxModel.bones :=
                     table_bones data (offset e + boff) (Z.to_nat count);
                   MdlxModel.meshes := [] |};
              MdlxFile.textures := [] |}.
Proof.
  intros Hparse Hfirst Hin Hsize count boff Hfit.
  destruct (BarFile_init_inv _ _ Hparse) as [Hdata Huns].
  pose proof Hfirst as Hfind. apply find_some in Hfind.
  destruct Hfind as [Hmem _].
  rewrite Forall_forall in Huns. destruct (Huns e Hmem) as (_ & Ho & Hs).
  set (blob := slice data (offset e) (offset e + size e)).
  assert (Hlen : len blob = size e).
  { unfold blob. rewrite len_slice_inside by lia. lia. }
  assert (Hentry : BarFile.entry bar 4 = Some blob).
  { unfold BarFile.entry. rewrite Hdata, entry_in_find, Hfirst. reflexivity. }
  assert (Hcount : MdlxModel.bone_count (header_at blob) = count).
  { cbn [header_at MdlxModel.bone_count]. unfold blob, count.
    apply field_slice; lia. }
  assert (Hboff : MdlxModel.bone_offset (header_at blob) = boff).
  { cbn [header_at MdlxModel.bone_offset]. unfold blob, boff.
    apply field_slice; lia. }
  assert (H0c : 0 <= count) by apply field_range.
  assert (H0b : 0 <= boff) by apply field_range.
  assert (Hmodel : MdlxModel.__init__ blob =
            Returned {| MdlxModel.bones :=
                          table_bones data (offset e + boff) (Z.to_nat count);
                        MdlxModel.meshes := [] |}).
  { assert (Hh : MdlxModel.read_header blob = Returned (header_at blob)).
    { rewrite read_header_run.
      rewrite (proj2 (Z.leb_le 0xAE (len blob))) by lia. reflexivity. }
    rewrite (MdlxModel_init_ok blob _ Hh) by (rewrite Hcount, Hboff; lia).
    rewrite Hcount, Hboff. f_equal. f_equal.
    unfold table_bones. apply map_ext_in. intros i Hi. apply in_seq in Hi.
    unfold blob. rewrite bone_at_slice_gen by lia. f_equal. lia. }
  unfold MdlxFile.__init__, MdlxFile.init_with.
  rewrite Hparse. cbn [bind]. rewrite Hentry.
  assert (Htruthy : MdlxFile.truthy (Some blob) = true).
  { destruct blob; [unfold len in Hlen; simpl in Hlen; lia | reflexivity]. }
  rewrite Htruthy, Hmodel. reflexivity.
Qed.

Lemma MdlxFile_init_reads_bones_in_archive_witness :
  MdlxFile.__init__ (archive_of (two_bone_blob 7 (-1) 3 1000)) =
  Returned {| MdlxFile.model :=
                {| MdlxModel.bones :=
                     table_bones
                       (archive_of (two_bone_blob 7 (-1) 3 1000))
                       (32 + field (archive_of (two_bone_blob 7 (-1) 3 1000))
                                   (32 + 0xA4) (32 + 0xA8))
                       (Z.to_nat
                          (field (archive_of (two_bone_blob 7 (-1) 3 1000))
                                 (32 + 0xA0) (32 + 0xA2)));
                   MdlxModel.meshes := [] |};
              MdlxFile.textures := [] |}.
Proof.
  apply (MdlxFile_init_reads_bones_in_archive
           (archive_of (two_bone_blob 7 (-1) 3 1000))
           (BarFile.mk [mkBarEntry 4 0 "MODL" 32 304]
                       (archive_of (two_bone_blob 7 (-1) 3 1000)))
           (mkBarEntry 4 0 "MODL" 32 304)).
  - vm_compute. reflexivity.
  - reflexivity.
  - vm_compute. discriminate.
  - vm_compute. discriminate.
  - vm_compute. discriminate.
Defined.

(** X14.  An archive that parses but has no entry of kind 4 makes the
    pipeline raise the no-model-data [ValueError], whatever its other
    entries are. *)
Theorem MdlxFile_init_without_model_entry (data : bytes) (bar : BarFile.t) :
  BarFile.__init__ data = Returned bar ->
  Forall (fun x => type x <> 4) (BarFile.entries bar) ->
  MdlxFile.__init__ data = Raised no_model_data.
Proof.
  intros Hparse Hnone.
  unfold MdlxFile.__init__, MdlxFile.init_with. rewrite Hparse. cbn [bind].
  unfold BarFile.entry. rewrite entry_in_none by assumption. reflexivity.
Qed.

Lemma MdlxFile_init_without_model_entry_witness :
  MdlxFile.__init__ texture_only_archive = Raised no_model_data.
Proof.
  apply (MdlxFile_init_without_model_entry
           texture_only_archive
           (BarFile.mk [mkBarEntry 7 0 "TEX" 32 4] texture_only_archive)).
  - vm_compute. reflexivity.
  - repeat constructor. vm_compute. discriminate.
Defined.

(** ** The integer readers *)

Lemma read_u32_run (buf : bytes) (p : Z) :
  0 <= p ->
  read_u32 (BytesIO.mk buf p) =
  if p + 4 <=? len buf
  then Returned (field buf p (p + 4), BytesIO.mk buf (p + 4))
  else Raised struct_error.
Proof.
  intros Hp.
  cbv [read_u32 read_then BytesIO.read unpack_I BytesIO.buf BytesIO.pos].
  rewrite unpack_uint_slice by lia.
  destruct (Z.leb_spec (p + 4) (len buf)); [| reflexivity].
  cbn [bind]. rewrite read_pos by lia. reflexivity.
Qed.

Lemma read_s16_run (buf : bytes) (p : Z) :
  0 <= p ->
  read_s16 (BytesIO.mk buf p) =
  if p + 2 <=? len buf
  then Returned (to_signed 16 (field buf p (p + 2)), BytesIO.mk buf (p + 2))
  else Raised struct_error.
Proof.
  intros Hp.
  cbv [read_s16 read_then BytesIO.read unpack_h BytesIO.buf BytesIO.pos].
  rewrite unpack_uint_slice by lia.
  destruct (Z.leb_spec (p + 2) (len buf)); [| reflexivity].
  cbn [bind]. rewrite read_pos by lia. reflexivity.
Qed.

Lemma slice_app_mid {A : Type} (pre mid post : list A) :
  slice (pre ++ mid ++ post) (len pre) (len pre + len mid) = mid.
Proof.
  pose proof (len_nonneg pre). pose proof (len_nonneg mid).
  pose proof (len_nonneg post).
  rewrite slice_nonneg by lia. rewrite !len_app.
  rewrite !Z.min_l by lia.
  replace (Z.to_nat (len pre)) with (List.length pre) by (unfold len; lia).
  replace (Z.to_nat (len pre + len mid - len pre)) with (List.length mid)
    by (unfold len; lia).
  rewrite skipn_app, skipn_all, Nat.sub_diag. cbn [app skipn].
  rewrite firstn_app, firstn_all, Nat.sub_diag, firstn_O, app_nil_r.
  reflexivity.
Qed.

Lemma len_int_to_le (n : nat) (z : Z) : len (int_to_le n z) = Z.of_nat n.
Proof. unfold len. rewrite length_int_to_le. reflexivity. Qed.

Lemma field_packed (pre post : bytes) (n : nat) (v k : Z) :
  k = Z.of_nat n ->
  field (pre ++ int_to_le n v ++ post) (len pre) (len pre + k)
  = v mod 256 ^ k.
Proof.
  intros ->. unfold field.
  rewrite <- (len_int_to_le n v) at 1. rewrite slice_app_mid.
  apply int_from_to_le.
Qed.

Lemma packed_fits (pre post : bytes) (n : nat) (v k : Z) :
  k = Z.of_nat n ->
  (len pre + k <=? len (pre ++ int_to_le n v ++ post)) = true.
Proof.
  intros ->. apply Z.leb_le. rewrite !len_app, len_int_to_le.
  pose proof (len_nonneg post). lia.
Qed.

Lemma to_signed_roundtrip (bits v : Z) :
  0 < bits -> - 2 ^ (bits - 1) <= v < 2 ^ (bits - 1) ->
  to_signed bits (v mod 2 ^ bits) = v.
Proof.
  intros Hb Hv. unfold to_signed.
  assert (Hpow : 2 ^ bits = 2 * 2 ^ (bits - 1)).
  { replace bits with (Z.succ (bits - 1)) at 1 by lia.
    apply Z.pow_succ_r. lia. }
  assert (Hpos : 0 < 2 ^ (bits - 1)) by (apply Z.pow_pos_nonneg; lia).
  destruct (Z_lt_le_dec v 0) as [Hn|Hp].
  - assert (Hm : v mod 2 ^ bits = v + 2 ^ bits).
    { rewrite <- (Z.mod_add v 1) by lia. rewrite Z.mul_1_l.
      apply Z.mod_small. lia. }
    rewrite Hm. destruct (Z.ltb_spec (v + 2 ^ bits) (2 ^ (bits - 1))); lia.
  - rewrite Z.mod_small by lia.
    destruct (Z.ltb_spec v (2 ^ (bits - 1))); lia.
Qed.

(** X15.  The four integer readers invert little-endian packing and
    move the cursor by the size of the field: wherever a value in the
    range of the format was packed in a stream, reading at that place
    returns the value, unsigned for [read_u16] and [read_u32], two's
    complement for [read_s16] and [read_s32]. *)
Theorem integer_readers_invert_packing (pre post : bytes) (a b c d : Z) :
  0 <= a < 2 ^ 16 -> - 2 ^ 15 <= b < 2 ^ 15 ->
  0 <= c < 2 ^ 32 -> - 2 ^ 31 <= d < 2 ^ 31 ->
  read_u16 (BytesIO.mk (pre ++ int_to_le 2 a ++ post) (len pre))
    = Returned (a, BytesIO.mk (pre ++ int_to_le 2 a ++ post) (len pre + 2)) /\
  read_s16 (BytesIO.mk (pre ++ int_to_le 2 b ++ post) (len pre))
    = Returned (b, BytesIO.mk (pre ++ int_to_le 2 b ++ post) (len pre + 2)) /\
  read_u32 (BytesIO.mk (pre ++ int_to_le 4 c ++ post) (len pre))
    = Returned (c, BytesIO.mk (pre ++ int_to_le 4 c ++ post) (len pre + 4)) /\
  read_s32 (BytesIO.mk (pre ++ int_to_le 4 d ++ post) (len pre))
    = Returned (d, BytesIO.mk (pre ++ int_to_le 4 d ++ post) (len pre + 4)).
Proof.
  intros Ha Hb Hc Hd.
  pose proof (len_nonneg pre) as Hpre.
  repeat split.
  - rewrite read_u16_run by lia.
    rewrite (packed_fits pre post 2 a 2 eq_refl).
    fold (field (pre ++ int_to_le 2 a ++ post) (len pre) (len pre + 2)).
    rewrite (field_packed pre post 2 a 2 eq_refl).
    change (256 ^ 2) with (2 ^ 16). rewrite Z.mod_small by lia.
    reflexivity.
  - rewrite read_s16_run by lia.
    rewrite (packed_fits pre post 2 b 2 eq_refl).
    rewrite (field_packed pre post 2 b 2 eq_refl).
    change (256 ^ 2) with (2 ^ 16).
    rewrite to_signed_roundtrip by (simpl; lia). reflexivity.
  - rewrite read_u32_run by lia.
    rewrite (packed_fits pre post 4 c 4 eq_refl).
    rewrite (field_packed pre post 4 c 4 eq_refl).
    change (256 ^ 4) with (2 ^ 32). rewrite Z.mod_small by lia.
    reflexivity.
  - rewrite read_s32_run by lia.
    rewrite (packed_fits pre post 4 d 4 eq_refl).
    fold (field (pre ++ int_to_le 4 d ++ post) (len pre) (len pre + 4)).
    rewrite (field_packed pre post 4 d 4 eq_refl).
    change (256 ^ 4) with (2 ^ 32).
    rewrite to_signed_roundtrip by (simpl; lia). reflexivity.
Qed.

Lemma integer_readers_invert_packing_witness :
  read_u16 (BytesIO.mk (zeros 3 ++ int_to_le 2 65535 ++ zeros 1) (len (zeros 3)))
    = Returned (65535,
                BytesIO.mk (zeros 3 ++ int_to_le 2 65535 ++ zeros 1)
                           (len (zeros 3) + 2)) /\
  read_s16 (BytesIO.mk (zeros 3 ++ int_to_le 2 (-32768) ++ zeros 1) (len (zeros 3)))
    = Returned (-32768,
                BytesIO.mk (zeros 3 ++ int_to_le 2 (-32768) ++ zeros 1)
                           (len (zeros 3) + 2)) /\
  read_u32 (BytesIO.mk (zeros 3 ++ int_to_le 4 4294967295 ++ zeros 1) (len (zeros 3)))
    = Returned (4294967295,
                BytesIO.mk (zeros 3 ++ int_to_le 4 4294967295 ++ zeros 1)
                           (len (zeros 3) + 4)) /\
  read_s32 (BytesIO.mk (zeros 3 ++ int_to_le 4 (-1) ++ zeros 1) (len (zeros 3)))
    = Returned (-1,
                BytesIO.mk (zeros 3 ++ int_to_le 4 (-1) ++ zeros 1)
                           (len (zeros 3) + 4)).
Proof.
  apply (integer_readers_invert_packing
           (zeros 3) (zeros 1) 65535 (-32768) 4294967295 (-1));
    vm_compute; split; (reflexivity || discriminate).
Defined.

(** ** The armature builder *)

Lemma create_bones_map (H : Host) (bones : list Bone.t) :
  forall (next : nat) (m : dict) (k : Z),
    dict_get k (snd (create_bones H bones next m)) =
    match last_rank k bones next with
    | Some j => Some j
    | None => dict_get k m
    end.
Proof.
  induction bones as [|b rest IH]; intros next m k.
  - reflexivity.
  - cbn [create_bones last_rank].
    destruct (Bone.trans b) as [[[t0 t1] t2] t3].
    specialize (IH (S next) (dict_set (Bone.index b) next m) k).
    destruct (create_bones H rest (S next) _) as [calls m'].
    cbn [snd] in *. rewrite IH.
    destruct (last_rank k rest (S next)); [reflexivity |].
    unfold dict_set. cbn [dict_get].
    destruct (Bone.index b =? k); reflexivity.
Qed.

Lemma last_rank_some (k : Z) (bones : list Bone.t) :
  forall start b, In b bones -> Bone.index b = k ->
                  exists j, last_rank k bones start = Some j.
Proof.
  induction bones as [|x rest IH]; intros start b Hin Hk; [contradiction |].
  cbn [last_rank]. destruct Hin as [-> | Hin].
  - destruct (last_rank k rest (S start)); [eauto |].
    rewrite (proj2 (Z.eqb_eq _ _) Hk). eauto.
  - destruct (IH (S start) b Hin Hk) as [j ->]. eauto.
Qed.

Lemma wire_parents_run (H : Host) (all : list Bone.t) (m : dict) :
  (forall k, dict_get k m = last_rank k all 0) ->
  forall (bones : list Bone.t) (done : list (host_call H)),
    (forall b, In b bones -> In b all) ->
    wire_parents H bones m done =
    Built (done ++ flat_map (parent_request H all) bones).
Proof.
  intros Hm. induction bones as [|b rest IH]; intros done Hsub.
  - simpl. rewrite app_nil_r. reflexivity.
  - cbn [wire_parents flat_map]. unfold parent_request at 1.
    assert (Hrest : forall x, In x rest -> In x all)
      by (intros x Hx; apply Hsub; right; exact Hx).
    destruct (0 <=? Bone.parent b); [| apply IH; assumption].
    rewrite !Hm.
    destruct (last_rank (Bone.parent b) all 0) as [parent|];
      [| apply IH; assumption].
    destruct (last_rank_some (Bone.index b) all 0 b
                (Hsub b (or_introl eq_refl)) eq_refl) as [child ->].
    destruct (bone_truth H parent).
    + rewrite IH by assumption. rewrite <- app_assoc. reflexivity.
    + apply IH; assumption.
Qed.

Lemma create_bones_calls (H : Host) (bones : list Bone.t) :
  forall (next : nat) (m : dict),
    fst (create_bones H bones next m) =
    flat_map (fun rb => bone_requests H (fst rb) (snd rb)) (ranked next bones).
Proof.
  induction bones as [|b rest IH]; intros next m; [reflexivity |].
  cbn [create_bones]. unfold ranked. cbn [List.length seq combine flat_map].
  unfold bone_requests at 1. cbn [fst snd].
  destruct (Bone.trans b) as [[[t0 t1] t2] t3].
  specialize (IH (S next) (dict_set (Bone.index b) next m)).
  destruct (create_bones H rest (S next) _) as [calls m'].
  cbn [fst] in *. rewrite IH. reflexivity.
Qed.

Lemma armature_calls (H : Host) (bones : list Bone.t) :
  create_armature H bones =
  Built ([armatures_new "MDLXArmature"; objects_new "MDLXArmature";
          objects_link; set_active; mode_set "EDIT"]
         ++ flat_map (fun rb => bone_requests H (fst rb) (snd rb))
                     (ranked 0 bones)
         ++ flat_map (parent_request H bones) bones
         ++ [mode_set "OBJECT"]).
Proof.
  unfold create_armature.
  pose proof (create_bones_map H bones 0 []) as Hm.
  pose proof (create_bones_calls H bones 0 []) as Hc.
  destruct (create_bones H bones 0 []) as [calls m]. cbn [fst snd] in *.
  rewrite (wire_parents_run H bones m).
  - rewrite <- !app_assoc, Hc. reflexivity.
  - intros k. rewrite Hm. destruct (last_rank k bones 0); reflexivity.
  - auto.
Qed.

(** X16.  The armature builder never fails on [bone_map[b.index]]: for
    every list of bones it makes its five opening requests, then three
    requests per bone in table order (create an edit bone named after
    the stored index, set its head to the first three components of the
    translation, set its tail to that head plus [Vector((0, 0.1, 0))]),
    then the parent requests, then the closing mode switch.  A bone asks
    for a parent only if its parent field is not negative and equals the
    stored index of some bone whose edit bone is true; the request then
    names, as parent and as child, the last bones created with those
    stored indices. *)
Theorem create_armature_requests (H : Host) (bones : list Bone.t) :
  create_armature H bones =
  Built ([armatures_new "MDLXArmature"; objects_new "MDLXArmature";
          objects_link; set_active; mode_set "EDIT"]
         ++ flat_map (fun rb => bone_requests H (fst rb) (snd rb))
                     (ranked 0 bones)
         ++ flat_map (parent_request H bones) bones
         ++ [mode_set "OBJECT"]).
Proof. apply armature_calls. Qed.

Lemma last_rank_spec (k : Z) (bones : list Bone.t) :
  forall start r,
    last_rank k bones start = Some r ->
    (start <= r)%nat /\
    (exists x, nth_error bones (r - start) = Some x /\ Bone.index x = k) /\
    forall j y, (r - start < j)%nat -> nth_error bones j = Some y ->
                Bone.index y <> k.
Proof.
  induction bones as [|b rest IH]; intros start r H; [discriminate |].
  cbn [last_rank] in H.
  destruct (last_rank k rest (S start)) as [r'|] eqn:E.
  - injection H as <-. destruct (IH _ _ E) as (Hle & (x & Hx & Hk) & Hlater).
    split; [lia |]. split.
    + exists x. replace (r' - start)%nat with (S (r' - S start)) by lia.
      split; assumption.
    + intros j y Hj Hy. destruct j as [|j]; [lia |].
      apply (Hlater j y); [lia | exact Hy].
  - destruct (Z.eqb_spec (Bone.index b) k) as [Hk|]; [| discriminate].
    injection H as <-. split; [lia |]. rewrite Nat.sub_diag. split.
    + exists b. split; [reflexivity | assumption].
    + intros j y Hj Hy. destruct j as [|j]; [lia |]. cbn [nth_error] in Hy.
      intros Hyk.
      destruct (last_rank_some k rest (S start) y (nth_error_In _ _ Hy) Hyk)
        as [r Hr].
      congruence.
Qed.

Lemma last_rank_NoDup (bones : list Bone.t) :
  NoDup (map Bone.index bones) ->
  forall start i b,
    nth_error bones i = Some b ->
    last_rank (Bone.index b) bones start = Some (start + i)%nat.
Proof.
  intros Hnd start i b Hb.
  destruct (last_rank_some (Bone.index b) bones start b
              (nth_error_In _ _ Hb) eq_refl) as [r Hr].
  rewrite Hr. f_equal.
  destruct (last_rank_spec _ _ _ _ Hr) as (Hle & (x & Hx & Hk) & _).
  assert (Hi : nth_error (map Bone.index bones) i = Some (Bone.index b))
    by (rewrite nth_error_map, Hb; reflexivity).
  assert (Hr' : nth_error (map Bone.index bones) (r - start)
                = Some (Bone.index b))
    by (rewrite nth_error_map, Hx; cbn [option_map]; rewrite Hk; reflexivity).
  assert (Heq : (r - start)%nat = i).
  { apply (proj1 (NoDup_nth_error (map Bone.index bones)) Hnd).
    - apply nth_error_Some. rewrite Hr'. discriminate.
    - rewrite Hi, Hr'. reflexivity. }
  lia.
Qed.

(** A root, a child of the root by stored index, and a bone that names
    itself as parent. *)
Example create_armature_three_bones :
  create_armature example_host
                  [bone_with 7 (-1); bone_with 3 7; bone_with 5 5] =
  @Built example_host
        [@armatures_new example_host "MDLXArmature";
         objects_new "MDLXArmature";
         objects_link; set_active; mode_set "EDIT";
         edit_bones_new "bone_7";
         set_head 0%nat example_origin;
         set_tail 0%nat example_origin;
         edit_bones_new "bone_3";
         set_head 1%nat example_origin;
         set_tail 1%nat example_origin;
         edit_bones_new "bone_5";
         set_head 2%nat example_origin;
         set_tail 2%nat example_origin;
         set_parent 1%nat 0%nat; set_parent 2%nat 2%nat;
         mode_set "OBJECT"].
Proof. vm_compute. reflexivity. Qed.

Lemma create_bones_no_parent (H : Host) (bones : list Bone.t) :
  forall next m c p, ~ In (set_parent c p) (fst (create_bones H bones next m)).
Proof.
  induction bones as [|b rest IH]; intros next m c p; [simpl; tauto |].
  cbn [create_bones].
  destruct (Bone.trans b) as [[[t0 t1] t2] t3].
  specialize (IH (S next) (dict_set (Bone.index b) next m) c p).
  destruct (create_bones H rest (S next) _) as [calls m'].
  cbn [fst] in *. simpl. intros [Hx | [Hx | [Hx | Hx]]];
    try discriminate. contradiction.
Qed.

(** X18.  When two bones store the same index, the edit bone created
    for the earlier one never receives a parent: no parent request of
    the builder names it as child, whatever the parent fields are. *)
Theorem earlier_duplicate_gets_no_parent
        (H : Host) (bones : list Bone.t) (i j : nat) (b b' : Bone.t) :
  nth_error bones i = Some b ->
  nth_error bones j = Some b' ->
  (i < j)%nat ->
  Bone.index b' = Bone.index b ->
  exists calls,
    create_armature H bones = Built calls /\
    forall p, ~ In (set_parent i p) calls.
Proof.
  intros Hb Hb' Hlt Hsame.
  eexists. split; [apply armature_calls |].
  intros p Hin.
  apply in_app_or in Hin. destruct Hin as [Hin | Hin].
  { simpl in Hin. intuition discriminate. }
  apply in_app_or in Hin. destruct Hin as [Hin | Hin].
  { rewrite <- (create_bones_calls H bones 0 []) in Hin.
    exact (create_bones_no_parent H bones 0 [] i p Hin). }
  apply in_app_or in Hin. destruct Hin as [Hin | Hin].
  2:{ simpl in Hin. intuition discriminate. }
  apply in_flat_map in Hin. destruct Hin as (x & _ & Hreq).
  unfold parent_request in Hreq.
  destruct (0 <=? Bone.parent x); [| contradiction].
  destruct (last_rank (Bone.parent x) bones 0) as [q|]; [| contradiction].
  destruct (last_rank (Bone.index x) bones 0) as [c|] eqn:Hc;
    [| contradiction].
  destruct (bone_truth H q); [| contradiction].
  destruct Hreq as [Hreq | []]. injection Hreq as -> ->.
  destruct (last_rank_spec _ _ _ _ Hc) as (_ & (y & Hy & Hk) & Hlater).
  rewrite Nat.sub_0_r in Hy, Hlater.
  rewrite Hb in Hy. injection Hy as <-.
  apply (Hlater j b' Hlt Hb'). congruence.
Qed.

Lemma earlier_duplicate_gets_no_parent_witness :
  exists calls,
    create_armature example_host [bone_with 7 3; bone_with 3 (-1); bone_with 7 3]
    = Built calls /\
    forall p, ~ In (set_parent 0%nat p) calls.
Proof.
  apply (earlier_duplicate_gets_no_parent
           example_host [bone_with 7 3; bone_with 3 (-1); bone_with 7 3]
           0%nat 2%nat (bone_with 7 3) (bone_with 7 3)).
  - reflexivity.
  - reflexivity.
  - repeat constructor.
  - reflexivity.
Defined.

(** ** Parent assignments of the armature builder *)

Lemma in_armature_parent (H : Host) (bones : list Bone.t) (c p : nat) :
  In (@set_parent H c p)
     ([armatures_new "MDLXArmature"; objects_new "MDLXArmature";
       objects_link; set_active; mode_set "EDIT"]
      ++ flat_map (fun rb => bone_requests H (fst rb) (snd rb))
                  (ranked 0 bones)
      ++ flat_map (parent_request H bones) bones
      ++ [mode_set "OBJECT"]) <->
  exists x, In x bones /\ In (set_parent c p) (parent_request H bones x).
Proof.
  rewrite in_app_iff, in_app_iff, in_app_iff.
  rewrite <- (create_bones_calls H bones 0 []).
  rewrite (in_flat_map (parent_request H bones)).
  split.
  - intros [Hin | [Hin | [Hin | Hin]]].
    + simpl in Hin. intuition discriminate.
    + destruct (create_bones_no_parent H bones 0 [] c p Hin).
    + exact Hin.
    + simpl in Hin. intuition discriminate.
  - intros Hin. right. right. left. exact Hin.
Qed.

(** X17.  When the stored indices of the bones are pairwise distinct,
    the builder returns normally, and among its requests the assignment
    [bone i . parent = bone j] occurs exactly when the bone at position
    [i] has a parent field that is not negative and is the stored index
    of the bone at position [j], and the edit bone [j] is true.  So a
    negative parent field, or one that is no bone's stored index, gives
    no assignment for that bone, and a bone whose parent field is its
    own stored index is made its own parent. *)
Theorem create_armature_parents_distinct_indices
        (H : Host) (bones : list Bone.t) :
  NoDup (map Bone.index bones) ->
  exists calls,
    create_armature H bones = Built calls /\
    forall i j : nat,
      In (set_parent i j) calls <->
      exists b bj,
        nth_error bones i = Some b /\
        nth_error bones j = Some bj /\
        0 <= Bone.parent b /\
        Bone.index bj = Bone.parent b /\
        bone_truth H j = true.
Proof.
  intros Hnd. eexists. split; [apply armature_calls |].
  intros i j. rewrite in_armature_parent. split.
  - intros (x & Hx & Hreq).
    destruct (In_nth_error _ _ Hx) as [ix Hix].
    unfold parent_request in Hreq.
    rewrite (last_rank_NoDup bones Hnd 0 ix x Hix) in Hreq.
    cbn [Nat.add] in Hreq.
    destruct (Z.leb_spec 0 (Bone.parent x)) as [Hpar |]; [| contradiction].
    destruct (last_rank (Bone.parent x) bones 0) as [q|] eqn:Hq;
      [| contradiction].
    destruct (bone_truth H q) eqn:Htrue; [| contradiction].
    destruct Hreq as [Hreq | []]. injection Hreq as -> ->.
    destruct (last_rank_spec _ _ _ _ Hq) as (_ & (y & Hy & Hk) & _).
    rewrite Nat.sub_0_r in Hy.
    exists x, y. repeat split; assumption.
  - intros (b & bj & Hb & Hbj & Hpar & Hidx & Htrue).
    exists b. split; [exact (nth_error_In _ _ Hb) |].
    unfold parent_request.
    rewrite (last_rank_NoDup bones Hnd 0 i b Hb).
    rewrite <- Hidx, (last_rank_NoDup bones Hnd 0 j bj Hbj).
    cbn [Nat.add]. rewrite Hidx.
    rewrite (proj2 (Z.leb_le _ _) Hpar), Htrue. left. reflexivity.
Qed.

Lemma create_armature_parents_distinct_indices_witness :
  NoDup (map Bone.index [bone_with 7 (-1); bone_with 3 7; bone_with 5 5]) /\
  exists calls,
    create_armature example_host
                    [bone_with 7 (-1); bone_with 3 7; bone_with 5 5]
    = Built calls /\
    forall i j : nat,
      In (set_parent i j) calls <->
      exists b bj,
        nth_error [bone_with 7 (-1); bone_with 3 7; bone_with 5 5] i
        = Some b /\
        nth_error [bone_with 7 (-1); bone_with 3 7; bone_with 5 5] j
        = Some bj /\
        0 <= Bone.parent b /\
        Bone.index bj = Bone.parent b /\
        bone_truth example_host j = true.
Proof.
  assert (Hnd : NoDup (map Bone.index
                           [bone_with 7 (-1); bone_with 3 7; bone_with 5 5]))
    by (repeat constructor; simpl; intuition discriminate).
  split; [exact Hnd |].
  exact (create_armature_parents_distinct_indices
           example_host [bone_with 7 (-1); bone_with 3 7; bone_with 5 5] Hnd).
Defined.

(** With a repeated stored index the later bone is asked twice and the
    earlier one never. *)
Example create_armature_duplicate_index :
  create_armature example_host
                  [bone_with 7 3; bone_with 3 (-1); bone_with 7 3] =
  @Built example_host
        [armatures_new "MDLXArmature"; objects_new "MDLXArmature";
         objects_link; set_active; mode_set "EDIT";
         edit_bones_new "bone_7";
         set_head 0%nat example_origin;
         set_tail 0%nat example_origin;
         edit_bones_new "bone_3";
         set_head 1%nat example_origin;
         set_tail 1%nat example_origin;
         edit_bones_new "bone_7";
         set_head 2%nat example_origin;
         set_tail 2%nat example_origin;
         set_parent 2%nat 1%nat; set_parent 2%nat 1%nat;
         mode_set "OBJECT"].
Proof. vm_compute. reflexivity. Qed.

(** ** Names asked for the edit bones *)

Lemma to_int_not_nil (z : Z) :
  Z.to_int z <> Decimal.Pos Decimal.Nil /\ Z.to_int z <> Decimal.Neg Decimal.Nil.
Proof.
  destruct z as [|p|p]; simpl; split; try discriminate;
    intros H; injection H as H; exact (DecimalPos.Unsigned.to_uint_nonnil p H).
Qed.

Lemma bone_name_inj (a b : Z) : bone_name a = bone_name b -> a = b.
Proof.
  unfold bone_name. intros H. simpl in H. injection H as H.
  apply DecimalZ.to_int_inj.
  destruct (to_int_not_nil a) as [Ha1 Ha2].
  destruct (to_int_not_nil b) as [Hb1 Hb2].
  pose proof (NilZero.isi (Z.to_int a) Ha1 Ha2) as Ia.
  pose proof (NilZero.isi (Z.to_int b) Hb1 Hb2) as Ib.
  rewrite H in Ia. rewrite Ia in Ib. injection Ib as Ib. exact Ib.
Qed.

Lemma NoDup_map_injective {A B : Type} (f : A -> B) (l : list A) :
  (forall a b, f a = f b -> a = b) -> NoDup l -> NoDup (map f l).
Proof.
  intros Hinj Hnd. induction Hnd as [|a l Hnotin Hnd IH]; simpl.
  - constructor.
  - constructor; [| exact IH]. intros Hin. apply in_map_iff in Hin.
    destruct Hin as (b & Hfb & Hb). apply Hinj in Hfb. subst b.
    contradiction.
Qed.

Lemma requested_names_app {H : Host} (a b : list (host_call H)) :
  requested_names (a ++ b) = requested_names a ++ requested_names b.
Proof. unfold requested_names. apply flat_map_app. Qed.

Lemma requested_names_bones (H : Host) (bones : list Bone.t) :
  forall start,
    requested_names
      (flat_map (fun rb => bone_requests H (fst rb) (snd rb))
                (ranked start bones))
    = map (fun b => bone_name (Bone.index b)) bones.
Proof.
  induction bones as [|b rest IH]; intros start; [reflexivity |].
  unfold ranked. cbn [List.length seq combine flat_map map].
  rewrite requested_names_app. fold (ranked (S start) rest). rewrite IH.
  unfold bone_requests. cbn [fst snd].
  destruct (Bone.trans b) as [[[t0 t1] t2] t3]. reflexivity.
Qed.

Lemma requested_names_parents (H : Host) (all bones : list Bone.t) :
  requested_names (flat_map (parent_request H all) bones) = [].
Proof.
  induction bones as [|b rest IH]; [reflexivity |].
  cbn [flat_map]. rewrite requested_names_app, IH, app_nil_r.
  unfold parent_request.
  destruct (0 <=? Bone.parent b); [| reflexivity].
  destruct (last_rank (Bone.parent b) all 0); [| reflexivity].
  destruct (last_rank (Bone.index b) all 0); [| reflexivity].
  destruct (bone_truth H _); reflexivity.
Qed.

(** X19.  The builder asks [edit_bones.new] for one name per bone, in
    table order, each [bone_] followed by the stored index in decimal;
    the names it asks for are pairwise distinct exactly when the stored
    indices of the bones are, so with a repeated stored index the
    builder asks twice for the same name. *)
Theorem create_armature_requested_names (H : Host) (bones : list Bone.t) :
  exists calls,
    create_armature H bones = Built calls /\
    requested_names calls = map (fun b => bone_name (Bone.index b)) bones /\
    (NoDup (requested_names calls) <-> NoDup (map Bone.index bones)).
Proof.
  eexists. split; [apply armature_calls |].
  assert (Hnames :
            requested_names
              ([armatures_new "MDLXArmature"; objects_new "MDLXArmature";
                objects_link; set_active; mode_set "EDIT"]
               ++ flat_map (fun rb => bone_requests H (fst rb) (snd rb))
                           (ranked 0 bones)
               ++ flat_map (parent_request H bones) bones
               ++ [mode_set "OBJECT"])
            = map (fun b => bone_name (Bone.index b)) bones).
  { rewrite !requested_names_app, requested_names_bones,
      requested_names_parents.
    cbn. rewrite app_nil_r. reflexivity. }
  split; [exact Hnames |].
  rewrite Hnames, <- (map_map Bone.index bone_name). split.
  - apply NoDup_map_inv.
  - apply NoDup_map_injective. apply bone_name_inj.
Qed.

(** ** Names of entries *)

Lemma lstrip_nul_zeros (l : list ascii) :
  exists n, l = repeat zero n ++ lstrip_nul l.
Proof.
  induction l as [|c t [n IH]].
  - exists O. reflexivity.
  - simpl. destruct (Ascii.eqb_spec c zero) as [-> | Hne].
    + exists (S n). simpl. f_equal. exact IH.
    + exists O. reflexivity.
Qed.

Lemma rev_repeat {A : Type} (x : A) (n : nat) : rev (repeat x n) = repeat x n.
Proof.
  induction n as [|n IH]; [reflexivity |].
  simpl. rewrite IH. symmetry. apply repeat_cons.
Qed.

Lemma rstrip_nul_padding (s : string) :
  list_ascii_of_string s =
  list_ascii_of_string (rstrip_nul s)
  ++ repeat zero (String.length s - String.length (rstrip_nul s)).
Proof.
  unfold rstrip_nul.
  destruct (lstrip_nul_zeros (rev (list_ascii_of_string s))) as [n Hn].
  assert (Hs : list_ascii_of_string s =
               rev (lstrip_nul (rev (list_ascii_of_string s)))
               ++ repeat zero n).
  { rewrite <- (rev_involutive (list_ascii_of_string s)) at 1.
    rewrite Hn at 1. rewrite rev_app_distr, rev_repeat. reflexivity. }
  rewrite <- !length_list_ascii_of_string.
  rewrite list_ascii_of_string_of_list_ascii.
  rewrite Hs at 1. f_equal. f_equal.
  apply (f_equal (@List.length ascii)) in Hs.
  rewrite length_app, repeat_length in Hs. lia.
Qed.

(** X20.  The name of a parsed entry is its 4-byte name field without
    the NUL characters at its end, and only those: NUL characters
    before the last other character are kept, and padding the name with
    NUL characters to 4 gives back the field. *)
Theorem BarFile_entry_name_is_unpadded_field
        (data : bytes) (bar : BarFile.t) (i : nat) (e : BarEntry) :
  BarFile.__init__ data = Returned bar ->
  nth_error (BarFile.entries bar) i = Some e ->
  let p := 16 + 16 * Z.of_nat i in
  list_ascii_of_string (name e) ++ repeat zero (4 - String.length (name e))
  = map ascii_of_byte (slice data (p + 4) (p + 8)).
Proof.
  intros H He p. apply BarFile_init_table in H.
  destruct H as (_ & Hfit & _ & ->). cbn [BarFile.entries] in He.
  assert (Hi : (i < Z.to_nat (entry_count data))%nat).
  { assert (Hsome : nth_error
                      (entries_from data 16 (Z.to_nat (entry_count data))) i
                    <> None) by (rewrite He; discriminate).
    apply nth_error_Some in Hsome. unfold entries_from in Hsome.
    rewrite length_map, length_seq in Hsome. exact Hsome. }
  unfold entries_from in He.
  rewrite nth_error_map, nth_error_seq in He.
  destruct (Nat.ltb_spec i (Z.to_nat (entry_count data))); [| lia].
  cbn [option_map Nat.add] in He. injection He as <-.
  fold p. cbn [entry_from name].
  set (s := string_of_list_byte (slice data (p + 4) (p + 8))).
  assert (Hlen : String.length s = 4%nat).
  { unfold s. rewrite <- length_list_ascii_of_string, list_ascii_of_bytes.
    rewrite length_map.
    assert (Hl : len (slice data (p + 4) (p + 8)) = 4).
    { rewrite len_slice_inside; lia. }
    unfold len in Hl. lia. }
  rewrite <- Hlen, <- rstrip_nul_padding. unfold s.
  apply list_ascii_of_bytes.
Qed.

Lemma BarFile_entry_name_is_unpadded_field_witness :
  list_ascii_of_string "TEX" ++ repeat zero (4 - String.length "TEX")
  = map ascii_of_byte
        (slice three_entry_archive (16 + 16 * Z.of_nat 0 + 4)
               (16 + 16 * Z.of_nat 0 + 8)).
Proof.
  apply (BarFile_entry_name_is_unpadded_field
           three_entry_archive (BarFile.mk three_entries three_entry_archive)
           0%nat (mkBarEntry 7 0 "TEX" 64 4)).
  - vm_compute. reflexivity.
  - reflexivity.
Defined.

(** ** C8: decoding on a store of mutable objects *)

(** *** The object store *)

Lemma nth_error_old (st new : Heap.store) (r : Heap.ref) (o : Heap.obj) :
  nth_error st r = Some o -> nth_error (st ++ new) r = Some o.
Proof.
  intros Hr. rewrite nth_error_app1; [exact Hr |].
  apply nth_error_Some. rewrite Hr. discriminate.
Qed.

Lemma nth_error_new (st new : Heap.store) (r k : nat) :
  r = (List.length st + k)%nat ->
  nth_error (st ++ new) r = nth_error new k.
Proof.
  intros ->. rewrite nth_error_app2 by lia. f_equal. lia.
Qed.

Lemma update_new (st new : Heap.store) (r k : nat) (o : Heap.obj) :
  r = (List.length st + k)%nat ->
  Heap.update (st ++ new) r o = st ++ Heap.update new k o.
Proof.
  intros ->. induction st as [|x st IH]; [reflexivity |].
  cbn [List.length Nat.add app Heap.update]. rewrite IH. reflexivity.
Qed.

Lemma update_last (new : Heap.store) (x o : Heap.obj) :
  Heap.update (new ++ [x]) (List.length new) o = new ++ [o].
Proof.
  induction new as [|y new IH]; [reflexivity |].
  cbn [List.length app Heap.update]. rewrite IH. reflexivity.
Qed.

Lemma nth_error_last (new : Heap.store) (x : Heap.obj) :
  nth_error (new ++ [x]) (List.length new) = Some x.
Proof.
  rewrite nth_error_app2 by lia. rewrite Nat.sub_diag. reflexivity.
Qed.

(** *** Running one statement *)

Lemma hbind_assoc {A B C : Type} (c : Heap.run A) (k1 : A -> Heap.run B)
      (k2 : B -> Heap.run C) (st : Heap.store) :
  Heap.hbind (Heap.hbind c k1) k2 st =
  Heap.hbind c (fun x => Heap.hbind (k1 x) k2) st.
Proof.
  unfold Heap.hbind. destruct (c st) as [[v | e |] st']; reflexivity.
Qed.

Lemma hbind_ret {A : Type} (c : Heap.run A) (st : Heap.store) :
  Heap.hbind c Heap.ret st = c st.
Proof.
  unfold Heap.hbind, Heap.ret. destruct (c st) as [[v | e |] st']; reflexivity.
Qed.

Lemma lift_run {A B : Type} (c : outcome A) (k : A -> Heap.run B)
      (st : Heap.store) :
  Heap.hbind (Heap.lift c) k st =
  match c with
  | Returned v => k v st
  | Raised e => (Heap.Fail e, st)
  end.
Proof. unfold Heap.hbind, Heap.lift. destruct c; reflexivity. Qed.

Lemma alloc_run {B : Type} (o : Heap.obj) (k : Heap.ref -> Heap.run B)
      (st new : Heap.store) :
  Heap.hbind (Heap.alloc o) k (st ++ new) =
  k (List.length st + List.length new)%nat (st ++ new ++ [o]).
Proof.
  unfold Heap.hbind, Heap.alloc. rewrite length_app, app_assoc. reflexivity.
Qed.

Lemma alloc_first {B : Type} (o : Heap.obj) (k : Heap.ref -> Heap.run B)
      (st : Heap.store) :
  Heap.hbind (Heap.alloc o) k st = k (List.length st) (st ++ [o]).
Proof. reflexivity. Qed.

Lemma setattr_run {B : Type} (st new : Heap.store) (self k : nat)
      (cls name : string) (attrs : list (string * Heap.value))
      (v : Heap.value) (K : unit -> Heap.run B) :
  self = (List.length st + k)%nat ->
  nth_error new k = Some (Heap.OInstance cls attrs) ->
  Heap.hbind (Heap.setattr self name v) K (st ++ new) =
  K tt (st ++ Heap.update new k
                          (Heap.OInstance cls (Heap.attr_set name v attrs))).
Proof.
  intros Hself Hk. unfold Heap.setattr, Heap.hbind, Heap.get, Heap.put.
  rewrite (nth_error_new st new self k Hself), Hk.
  rewrite (update_new st new self k _ Hself). reflexivity.
Qed.

Lemma getattr_run {B : Type} (st new : Heap.store) (self k : nat)
      (cls name : string) (attrs : list (string * Heap.value))
      (v : Heap.value) (K : Heap.value -> Heap.run B) :
  self = (List.length st + k)%nat ->
  nth_error new k = Some (Heap.OInstance cls attrs) ->
  Heap.attr_get name attrs = Some v ->
  Heap.hbind (Heap.getattr self name) K (st ++ new) = K v (st ++ new).
Proof.
  intros Hself Hk Hv. unfold Heap.getattr, Heap.hbind, Heap.get.
  rewrite (nth_error_new st new self k Hself), Hk, Hv. reflexivity.
Qed.

Lemma memoryview_run {B : Type} (st new : Heap.store) (data : Heap.ref)
      (b : bytes) (K : Heap.ref -> Heap.run B) :
  nth_error st data = Some (Heap.OBuffer b) ->
  Heap.hbind (Heap.memoryview data) K (st ++ new) =
  K (List.length st + List.length new)%nat (st ++ new ++ [Heap.OView data]).
Proof.
  intros Hd. unfold Heap.memoryview. rewrite hbind_assoc.
  unfold Heap.hbind at 1. unfold Heap.get.
  rewrite (nth_error_old st new data _ Hd). apply alloc_run.
Qed.

Lemma view_bytes_run {B : Type} (st new : Heap.store) (f k : nat)
      (data : Heap.ref) (b : bytes) (K : bytes -> Heap.run B) :
  f = (List.length st + k)%nat ->
  nth_error new k = Some (Heap.OView data) ->
  nth_error st data = Some (Heap.OBuffer b) ->
  Heap.hbind (Heap.view_bytes f) K (st ++ new) = K b (st ++ new).
Proof.
  intros Hf Hk Hd. unfold Heap.view_bytes, Heap.hbind, Heap.get.
  rewrite (nth_error_new st new f k Hf), Hk.
  rewrite (nth_error_old st new data _ Hd). reflexivity.
Qed.

Lemma list_append_run {B : Type} (st new : Heap.store) (l k : nat)
      (items : list Heap.value) (x : Heap.value) (K : unit -> Heap.run B) :
  l = (List.length st + k)%nat ->
  nth_error new k = Some (Heap.OList items) ->
  Heap.hbind (Heap.list_append l x) K (st ++ new) =
  K tt (st ++ Heap.update new k (Heap.OList (items ++ [x]))).
Proof.
  intros Hl Hk. unfold Heap.list_append, Heap.hbind, Heap.get, Heap.put.
  rewrite (nth_error_new st new l k Hl), Hk.
  rewrite (update_new st new l k _ Hl). reflexivity.
Qed.

Lemma f_read_run {B : Type} (st new : Heap.store) (f k : nat) (n : Z)
      (s : BytesIO.t) (K : bytes -> Heap.run B) :
  f = (List.length st + k)%nat ->
  nth_error new k = Some (Heap.OBytesIO s) ->
  Heap.hbind (Heap.f_read f n) K (st ++ new) =
  K (fst (BytesIO.read n s))
    (st ++ Heap.update new k (Heap.OBytesIO (snd (BytesIO.read n s)))).
Proof.
  intros Hf Hk. unfold Heap.f_read, Heap.hbind, Heap.get, Heap.put, Heap.ret.
  rewrite (nth_error_new st new f k Hf), Hk.
  rewrite (update_new st new f k _ Hf). reflexivity.
Qed.

(** *** The archive parser on the store *)

Lemma BarEntry_new_run {B : Type} (st new : Heap.store)
      (t d : Z) (n : string) (o s : Z) (K : Heap.ref -> Heap.run B) :
  Heap.hbind (Heap.instantiate "BarEntry"
                (fun e => Heap.BarEntry_init e t d n o s)) K (st ++ new) =
  K (List.length st + List.length new)%nat
    (st ++ new ++ [Heap.BarEntry_obj (mkBarEntry t d n o s)]).
Proof.
  unfold Heap.instantiate, Heap.BarEntry_init.
  rewrite hbind_assoc, alloc_run. rewrite !hbind_assoc.
  assert (Hlast : forall cls attrs,
             nth_error (new ++ [Heap.OInstance cls attrs]) (List.length new)
             = Some (Heap.OInstance cls attrs))
    by (intros; apply nth_error_last).
  do 5 (erewrite setattr_run; [| reflexivity | apply Hlast];
        rewrite update_last; rewrite ?hbind_assoc).
  reflexivity.
Qed.

Lemma refs_from_S (start n : nat) :
  Heap.refs_from start (S n) =
  Heap.refs_from start n ++ [Heap.VRef (start + n)%nat].
Proof.
  unfold Heap.refs_from. rewrite seq_S, map_app. reflexivity.
Qed.

Lemma BarFile_objects_snoc (base : nat) (data : Heap.ref)
      (acc : list BarEntry) (e : BarEntry) :
  Heap.update (Heap.BarFile_objects base data acc ++ [Heap.BarEntry_obj e]) 1%nat
    (Heap.OList (Heap.refs_from (base + 3) (List.length acc)
                 ++ [Heap.VRef (base + (3 + List.length acc))%nat]))
  = Heap.BarFile_objects base data (acc ++ [e]).
Proof.
  unfold Heap.BarFile_objects. cbn [app Heap.update].
  rewrite length_app, map_app. cbn [List.length map].
  replace (List.length acc + 1)%nat with (S (List.length acc)) by lia.
  rewrite refs_from_S.
  replace (base + 3 + List.length acc)%nat
    with (base + (3 + List.length acc))%nat by lia.
  reflexivity.
Qed.

Lemma BarFile_objects_length (base : nat) (data : Heap.ref)
      (acc : list BarEntry) :
  List.length (Heap.BarFile_objects base data acc) = (3 + List.length acc)%nat.
Proof.
  unfold Heap.BarFile_objects. rewrite length_app, length_map. reflexivity.
Qed.

(** The loop of [BarFile.__init__] on the store: it reads the buffer
    and writes only to the list and the entries of its own instance. *)
Lemma BarFile_loop_run (st : Heap.store) (data : Heap.ref) (b : bytes) :
  nth_error st data = Some (Heap.OBuffer b) ->
  forall (n : nat) (pos : Z) (acc : list BarEntry),
  exists es',
    Heap.BarFile_loop (List.length st) (List.length st + 2)%nat n pos
      (st ++ Heap.BarFile_objects (List.length st) data acc)
    = (match BarFile.read_entries b n pos acc with
       | Returned _ => Heap.Done tt
       | Raised e => Heap.Fail e
       end,
       st ++ Heap.BarFile_objects (List.length st) data es') /\
    (forall es, BarFile.read_entries b n pos acc = Returned es -> es' = es).
Proof.
  intros Hd. induction n as [|n IH]; intros pos acc.
  - exists acc. split; [reflexivity |]. cbn. intros es Hes.
    injection Hes as <-. reflexivity.
  - cbn [Heap.BarFile_loop BarFile.read_entries].
    assert (Hview : nth_error (Heap.BarFile_objects (List.length st) data acc)
                              2%nat = Some (Heap.OView data)) by reflexivity.
    rewrite (view_bytes_run st _ _ 2%nat data b _ eq_refl Hview Hd), lift_run.
    destruct (unpack_from_HH b pos) as [[etype dup] | e]; cbn [bind];
      [| exists acc; split; [reflexivity | discriminate]].
    rewrite (view_bytes_run st _ _ 2%nat data b _ eq_refl Hview Hd), lift_run.
    destruct (decode_ascii (slice b (pos + 4) (pos + 4 + 4))) as [s | e];
      cbn [bind]; [| exists acc; split; [reflexivity | discriminate]].
    rewrite (view_bytes_run st _ _ 2%nat data b _ eq_refl Hview Hd), lift_run.
    destruct (unpack_from_II b (pos + 4 + 4)) as [[off size] | e]; cbn [bind];
      [| exists acc; split; [reflexivity | discriminate]].
    erewrite (getattr_run st _ (List.length st) 0%nat);
      [| lia | reflexivity | reflexivity].
    cbv beta iota. rewrite BarEntry_new_run, BarFile_objects_length.
    erewrite (list_append_run st _ (List.length st + 1)%nat 1%nat);
      [| reflexivity | reflexivity].
    rewrite BarFile_objects_snoc.
    apply IH.
Qed.

Lemma view_BarEntry_obj (pre post : Heap.store) (e : BarEntry) :
  Heap.view_BarEntry (pre ++ Heap.BarEntry_obj e :: post)
                     (Heap.VRef (List.length pre)) = Some e.
Proof.
  unfold Heap.view_BarEntry, Heap.view_instance.
  rewrite (nth_error_new pre _ _ 0%nat) by lia.
  destruct e. reflexivity.
Qed.

Lemma view_all_entries (es : list BarEntry) :
  forall (pre post : Heap.store),
    Heap.view_all
      (Heap.view_BarEntry (pre ++ map Heap.BarEntry_obj es ++ post))
      (Heap.refs_from (List.length pre) (List.length es)) = Some es.
Proof.
  induction es as [|e es IH]; intros pre post; [reflexivity |].
  unfold Heap.refs_from. cbn [List.length seq map app Heap.view_all].
  rewrite view_BarEntry_obj.
  specialize (IH (pre ++ [Heap.BarEntry_obj e]) post).
  rewrite <- app_assoc, length_app in IH. cbn [app List.length] in IH.
  rewrite Nat.add_1_r in IH. unfold Heap.refs_from in IH.
  rewrite IH. reflexivity.
Qed.

(** [BarFile(data)] on the store: the store it leaves is the one it
    found with the new objects after it, and the new instance stands
    for what the parser gives on the contents of the buffer. *)
Lemma BarFile_new_run (st : Heap.store) (data : Heap.ref) (b : bytes) :
  nth_error st data = Some (Heap.OBuffer b) ->
  exists new,
    Heap.BarFile_new data st
    = (match BarFile.__init__ b with
       | Returned _ => Heap.Done (List.length st)
       | Raised e => Heap.Fail e
       end, st ++ new) /\
    (forall bar, BarFile.__init__ b = Returned bar ->
                 Heap.view_BarFile (st ++ new) (List.length st) = Some bar).
Proof.
  intros Hd. unfold Heap.BarFile_new, Heap.instantiate, Heap.BarFile_init.
  rewrite alloc_first. rewrite !hbind_assoc. rewrite alloc_run.
  cbn [app List.length]. rewrite !hbind_assoc.
  erewrite (setattr_run st _ _ 0%nat); [| lia | reflexivity].
  cbn [Heap.update Heap.attr_set]. rewrite !hbind_assoc.
  rewrite (memoryview_run st _ data b _ Hd). cbn [app List.length].
  assert (Hview : forall es,
             nth_error (Heap.BarFile_objects (List.length st) data es) 2%nat
             = Some (Heap.OView data)) by reflexivity.
  change [Heap.OInstance "BarFile"
            [("entries"%string, Heap.VRef (List.length st + 1)%nat)];
          Heap.OList []; Heap.OView data]
    with (Heap.BarFile_objects (List.length st) data []).
  rewrite !hbind_assoc.
  rewrite (view_bytes_run st _ _ 2%nat data b _ eq_refl (Hview []) Hd).
  rewrite !hbind_assoc.
  rewrite (view_bytes_run st _ _ 2%nat data b _ eq_refl (Hview []) Hd).
  rewrite !hbind_assoc, lift_run.
  unfold BarFile.__init__.
  destruct (unpack_from_I b (0 + 4)) as [count | e]; cbn [bind].
  2:{ eexists. split; [reflexivity | discriminate]. }
  rewrite !hbind_assoc.
  destruct (BarFile_loop_run st data b Hd (Z.to_nat count) (0 + 4 + 4 + 8) [])
    as (es' & Hrun & Hes).
  unfold Heap.hbind at 1. rewrite Hrun.
  destruct (BarFile.read_entries b (Z.to_nat count) (0 + 4 + 4 + 8) [])
    as [es | e]; cbn [bind].
  2:{ eexists. split; [reflexivity | discriminate]. }
  rewrite (Hes es eq_refl).
  erewrite (setattr_run st _ _ 0%nat); [| lia | reflexivity].
  unfold Heap.BarFile_objects.
  cbn [Heap.update Heap.attr_set app String.eqb Ascii.eqb Bool.eqb].
  eexists. split; [reflexivity |].
  intros bar Hbar. injection Hbar as <-.
  unfold Heap.view_BarFile, Heap.view_instance.
  rewrite (nth_error_new st _ _ 0%nat) by lia.
  cbn [nth_error String.eqb Ascii.eqb Bool.eqb Heap.attr_get].
  unfold Heap.view_list, Heap.view_buffer.
  rewrite (nth_error_new st _ _ 1%nat) by lia.
  rewrite (nth_error_old st _ data _ Hd).
  cbn [nth_error].
  pose proof (view_all_entries es
                (st ++ [Heap.OInstance "BarFile"
                          [("entries"%string,
                            Heap.VRef (List.length st + 1)%nat);
                           ("data"%string, Heap.VRef data)];
                        Heap.OList (Heap.refs_from (List.length st + 3)
                                                   (List.length es));
                        Heap.OView data]) []) as Hall.
  rewrite length_app, app_nil_r, <- app_assoc in Hall.
  cbn [List.length app] in Hall. rewrite Hall. reflexivity.
Qed.

(** *** The bone decoder on the store *)

Lemma sbind_unfold {A B : Type} (c : stream A) (k : A -> stream B)
      (s : BytesIO.t) :
  sbind c k s = match c s with
                | Returned (v, s') => k v s'
                | Raised e => Raised e
                end.
Proof. reflexivity. Qed.

Lemma sbind_read_then {A B : Type} (n : Z) (unpack : bytes -> outcome A)
      (k : A -> stream B) (s : BytesIO.t) :
  sbind (read_then n unpack) k s =
  match unpack (fst (BytesIO.read n s)) with
  | Returned v => k v (snd (BytesIO.read n s))
  | Raised e => Raised e
  end.
Proof.
  unfold sbind, read_then. destruct (BytesIO.read n s) as [bs s'].
  cbn [fst snd]. destruct (unpack bs); reflexivity.
Qed.

Lemma sbind_skip {B : Type} (n : Z) (k : unit -> stream B) (s : BytesIO.t) :
  sbind (skip n) k s = k tt (snd (BytesIO.read n s)).
Proof. reflexivity. Qed.

(** A stream and the instance being filled, the last two objects. *)
Lemma read_then_ok {A B : Type} (pre : Heap.store) (s : BytesIO.t)
      (I : Heap.obj) (n : Z) (unpack : bytes -> outcome A) (v : A)
      (K : A -> Heap.run B) :
  unpack (fst (BytesIO.read n s)) = Returned v ->
  Heap.hbind (Heap.read_then (List.length pre) n unpack) K
             (pre ++ [Heap.OBytesIO s; I]) =
  K v (pre ++ [Heap.OBytesIO (snd (BytesIO.read n s)); I]).
Proof.
  intros Hv. unfold Heap.read_then. rewrite hbind_assoc.
  rewrite (f_read_run pre _ _ 0%nat n s); [| lia | reflexivity].
  rewrite lift_run, Hv. reflexivity.
Qed.

Lemma read_then_fail {A B : Type} (pre : Heap.store) (s : BytesIO.t)
      (I : Heap.obj) (n : Z) (unpack : bytes -> outcome A) (e : exn)
      (K : A -> Heap.run B) :
  unpack (fst (BytesIO.read n s)) = Raised e ->
  Heap.hbind (Heap.read_then (List.length pre) n unpack) K
             (pre ++ [Heap.OBytesIO s; I]) =
  (Heap.Fail e, pre ++ [Heap.OBytesIO (snd (BytesIO.read n s)); I]).
Proof.
  intros Hv. unfold Heap.read_then. rewrite hbind_assoc.
  rewrite (f_read_run pre _ _ 0%nat n s); [| lia | reflexivity].
  rewrite lift_run, Hv. reflexivity.
Qed.

Lemma f_read_pair {B : Type} (pre : Heap.store) (s : BytesIO.t)
      (I : Heap.obj) (n : Z) (K : bytes -> Heap.run B) :
  Heap.hbind (Heap.f_read (List.length pre) n) K
             (pre ++ [Heap.OBytesIO s; I]) =
  K (fst (BytesIO.read n s))
    (pre ++ [Heap.OBytesIO (snd (BytesIO.read n s)); I]).
Proof.
  rewrite (f_read_run pre _ _ 0%nat n s); [| lia | reflexivity].
  reflexivity.
Qed.

Lemma setattr_pair {B : Type} (pre : Heap.store) (x : Heap.obj)
      (cls name : string) (attrs : list (string * Heap.value))
      (v : Heap.value) (K : unit -> Heap.run B) :
  Heap.hbind (Heap.setattr (List.length pre + 1)%nat name v) K
             (pre ++ [x; Heap.OInstance cls attrs]) =
  K tt (pre ++ [x; Heap.OInstance cls (Heap.attr_set name v attrs)]).
Proof.
  rewrite (setattr_run pre _ _ 1%nat cls name attrs);
    [| reflexivity | reflexivity].
  reflexivity.
Qed.

Lemma read_tuple4_run (pre : Heap.store) (s : BytesIO.t) (I : Heap.obj) :
  match Bone.read_vec4 s with
  | Returned (v, s1) =>
      forall (B : Type) (K : Heap.value -> Heap.run B),
        Heap.hbind (Heap.read_tuple4 (List.length pre)) K
                   (pre ++ [Heap.OBytesIO s; I]) =
        K (Heap.vec4_value v) (pre ++ [Heap.OBytesIO s1; I])
  | Raised e =>
      exists s',
      forall (B : Type) (K : Heap.value -> Heap.run B),
        Heap.hbind (Heap.read_tuple4 (List.length pre)) K
                   (pre ++ [Heap.OBytesIO s; I]) =
        (Heap.Fail e, pre ++ [Heap.OBytesIO s'; I])
  end.
Proof.
  unfold Bone.read_vec4, read_f32. rewrite sbind_read_then.
  destruct (unpack_f (fst (BytesIO.read 4 s))) as [a | e] eqn:Ea.
  2:{ eexists. intros B K. unfold Heap.read_tuple4, Heap.read_f32.
      rewrite hbind_assoc, (read_then_fail _ _ _ _ _ _ _ Ea). reflexivity. }
  rewrite sbind_read_then.
  destruct (unpack_f (fst (BytesIO.read 4 (snd (BytesIO.read 4 s)))))
    as [b | e] eqn:Eb.
  2:{ eexists. intros B K. unfold Heap.read_tuple4, Heap.read_f32.
      rewrite hbind_assoc, (read_then_ok _ _ _ _ _ _ _ Ea).
      rewrite hbind_assoc, (read_then_fail _ _ _ _ _ _ _ Eb). reflexivity. }
  rewrite sbind_read_then.
  destruct (unpack_f
              (fst (BytesIO.read 4 (snd (BytesIO.read 4
                                           (snd (BytesIO.read 4 s)))))))
    as [c | e] eqn:Ec.
  2:{ eexists. intros B K. unfold Heap.read_tuple4, Heap.read_f32.
      rewrite hbind_assoc, (read_then_ok _ _ _ _ _ _ _ Ea).
      rewrite hbind_assoc, (read_then_ok _ _ _ _ _ _ _ Eb).
      rewrite hbind_assoc, (read_then_fail _ _ _ _ _ _ _ Ec). reflexivity. }
  rewrite sbind_read_then.
  destruct (unpack_f
              (fst (BytesIO.read
                      4 (snd (BytesIO.read
                                4 (snd (BytesIO.read
                                          4 (snd (BytesIO.read 4 s)))))))))
    as [d | e] eqn:Ed.
  2:{ eexists. intros B K. unfold Heap.read_tuple4, Heap.read_f32.
      rewrite hbind_assoc, (read_then_ok _ _ _ _ _ _ _ Ea).
      rewrite hbind_assoc, (read_then_ok _ _ _ _ _ _ _ Eb).
      rewrite hbind_assoc, (read_then_ok _ _ _ _ _ _ _ Ec).
      rewrite hbind_assoc, (read_then_fail _ _ _ _ _ _ _ Ed). reflexivity. }
  cbn [sret]. intros B K. unfold Heap.read_tuple4, Heap.read_f32.
  rewrite hbind_assoc, (read_then_ok _ _ _ _ _ _ _ Ea).
  rewrite hbind_assoc, (read_then_ok _ _ _ _ _ _ _ Eb).
  rewrite hbind_assoc, (read_then_ok _ _ _ _ _ _ _ Ec).
  rewrite hbind_assoc, (read_then_ok _ _ _ _ _ _ _ Ed).
  reflexivity.
Qed.

Ltac bone_step :=
  rewrite ?hbind_assoc;
  first [ erewrite read_then_ok by eassumption
        | erewrite read_then_fail by eassumption
        | rewrite f_read_pair
        | rewrite setattr_pair ].

(** [MdlxModel.Bone(f)] on the store, [f] being the newest object: the
    reads move the cursor of [f] and the attributes are set on the new
    instance; nothing else is written, also when a read fails. *)
Lemma Bone_new_run (pre : Heap.store) (s0 : BytesIO.t) :
  match Bone.__init__ s0 with
  | Returned (bone, s1) =>
      forall (B : Type) (K : Heap.ref -> Heap.run B),
        Heap.hbind (Heap.instantiate
                      "Bone" (fun self => Heap.Bone_init self (List.length pre)))
                   K (pre ++ [Heap.OBytesIO s0]) =
        K (List.length pre + 1)%nat
          (pre ++ [Heap.OBytesIO s1; Heap.Bone_obj bone])
  | Raised e =>
      exists s' attrs',
      forall (B : Type) (K : Heap.ref -> Heap.run B),
        Heap.hbind (Heap.instantiate
                      "Bone" (fun self => Heap.Bone_init self (List.length pre)))
                   K (pre ++ [Heap.OBytesIO s0]) =
        (Heap.Fail e,
         pre ++ [Heap.OBytesIO s'; Heap.OInstance "Bone" attrs'])
  end.
Proof.
  assert (Hstart : forall (B : Type) (K : Heap.ref -> Heap.run B),
             Heap.hbind (Heap.instantiate
                           "Bone"
                           (fun self => Heap.Bone_init self (List.length pre)))
                        K (pre ++ [Heap.OBytesIO s0]) =
             Heap.hbind (Heap.Bone_init (List.length pre + 1)%nat
                                        (List.length pre))
                        (fun _ => K (List.length pre + 1)%nat)
                        (pre ++ [Heap.OBytesIO s0; Heap.OInstance "Bone" []])).
  { intros B K. unfold Heap.instantiate.
    rewrite hbind_assoc, alloc_run. cbn [List.length app].
    rewrite hbind_assoc. reflexivity. }
  unfold Bone.__init__, read_u16, read_s32.
  rewrite sbind_read_then.
  destruct (unpack_H (fst (BytesIO.read 2 s0))) as [index | e] eqn:Ei.
  2:{ do 2 eexists. intros B K. rewrite Hstart.
      unfold Heap.Bone_init, Heap.read_u16. repeat bone_step. reflexivity. }
  rewrite sbind_skip, sbind_read_then.
  set (s2 := snd (BytesIO.read 2 (snd (BytesIO.read 2 s0)))).
  destruct (unpack_i (fst (BytesIO.read 4 s2))) as [parent | e] eqn:Ep.
  2:{ do 2 eexists. intros B K. rewrite Hstart.
      unfold Heap.Bone_init, Heap.read_u16, Heap.read_s32.
      do 3 bone_step. fold s2. repeat bone_step. reflexivity. }
  rewrite sbind_skip.
  set (s4 := snd (BytesIO.read 8 (snd (BytesIO.read 4 s2)))).
  rewrite sbind_unfold.
  pose proof (read_tuple4_run
                pre s4
                (Heap.OInstance "Bone"
                   [("index"%string, Heap.VInt index);
                    ("parent"%string, Heap.VInt parent)])) as Hscale.
  destruct (Bone.read_vec4 s4) as [[scale s5] | e].
  2:{ destruct Hscale as [s' Hscale]. do 2 eexists. intros B K.
      rewrite Hstart.
      unfold Heap.Bone_init, Heap.read_u16, Heap.read_s32.
      do 3 bone_step. fold s2. do 3 bone_step. fold s4.
      cbn [Heap.attr_set String.eqb Ascii.eqb Bool.eqb].
      rewrite hbind_assoc, Hscale. reflexivity. }
  rewrite sbind_unfold.
  pose proof (read_tuple4_run
                pre s5
                (Heap.OInstance "Bone"
                   [("index"%string, Heap.VInt index);
                    ("parent"%string, Heap.VInt parent);
                    ("scale"%string, Heap.vec4_value scale)])) as Hrot.
  destruct (Bone.read_vec4 s5) as [[rot s6] | e].
  2:{ destruct Hrot as [s' Hrot]. do 2 eexists. intros B K.
      rewrite Hstart.
      unfold Heap.Bone_init, Heap.read_u16, Heap.read_s32.
      do 3 bone_step. fold s2. do 3 bone_step. fold s4.
      cbn [Heap.attr_set String.eqb Ascii.eqb Bool.eqb].
      rewrite hbind_assoc, Hscale. bone_step.
      cbn [Heap.attr_set String.eqb Ascii.eqb Bool.eqb].
      rewrite hbind_assoc, Hrot. reflexivity. }
  rewrite sbind_unfold.
  pose proof (read_tuple4_run
                pre s6
                (Heap.OInstance "Bone"
                   [("index"%string, Heap.VInt index);
                    ("parent"%string, Heap.VInt parent);
                    ("scale"%string, Heap.vec4_value scale);
                    ("rot"%string, Heap.vec4_value rot)])) as Htrans.
  destruct (Bone.read_vec4 s6) as [[trans s7] | e].
  2:{ destruct Htrans as [s' Htrans]. do 2 eexists. intros B K.
      rewrite Hstart.
      unfold Heap.Bone_init, Heap.read_u16, Heap.read_s32.
      do 3 bone_step. fold s2. do 3 bone_step. fold s4.
      cbn [Heap.attr_set String.eqb Ascii.eqb Bool.eqb].
      rewrite hbind_assoc, Hscale. bone_step.
      cbn [Heap.attr_set String.eqb Ascii.eqb Bool.eqb].
      rewrite hbind_assoc, Hrot. bone_step.
      cbn [Heap.attr_set String.eqb Ascii.eqb Bool.eqb].
      rewrite hbind_assoc, Htrans. reflexivity. }
  cbn [sret]. intros B K. rewrite Hstart.
  unfold Heap.Bone_init, Heap.read_u16, Heap.read_s32.
  do 3 bone_step. fold s2. do 3 bone_step. fold s4.
  cbn [Heap.attr_set String.eqb Ascii.eqb Bool.eqb].
  rewrite hbind_assoc, Hscale. bone_step.
  cbn [Heap.attr_set String.eqb Ascii.eqb Bool.eqb].
  rewrite hbind_assoc, Hrot. bone_step.
  cbn [Heap.attr_set String.eqb Ascii.eqb Bool.eqb].
  rewrite hbind_assoc, Htrans. bone_step.
  cbn [Heap.attr_set String.eqb Ascii.eqb Bool.eqb].
  reflexivity.
Qed.

(** *** The model decoder on the store *)

Lemma view_read_header_run {B : Type} (st new : Heap.store) (stream k : nat)
      (data : Heap.ref) (b : bytes)
      (K : MdlxModel.header -> Heap.run B) :
  stream = (List.length st + k)%nat ->
  nth_error new k = Some (Heap.OView data) ->
  nth_error st data = Some (Heap.OBuffer b) ->
  Heap.hbind (Heap.read_header stream) K (st ++ new) =
  match MdlxModel.read_header b with
  | Returned h => K h (st ++ new)
  | Raised e => (Heap.Fail e, st ++ new)
  end.
Proof.
  intros Hs Hk Hd. unfold Heap.read_header, MdlxModel.read_header.
  do 6 (rewrite ?hbind_assoc;
        rewrite (view_bytes_run st new stream k data b _ Hs Hk Hd);
        rewrite ?hbind_assoc; rewrite lift_run;
        match goal with
        | |- context [bind ?c _] =>
            destruct c as [? | ?]; cbn [bind]; [| reflexivity]
        end).
  reflexivity.
Qed.

Lemma bone_refs_S (n : nat) :
  forall start,
    Heap.bone_refs start (S n) =
    Heap.bone_refs start n ++ [Heap.VRef (S (start + 2 * n))].
Proof.
  induction n as [|n IH]; intros start.
  - cbn. rewrite Nat.add_0_r. reflexivity.
  - change (Heap.bone_refs start (S (S n)))
      with (Heap.VRef (S start) :: Heap.bone_refs (S (S start)) (S n)).
    rewrite IH. cbn [Heap.bone_refs app].
    replace (S (S start) + 2 * n)%nat with (start + 2 * S n)%nat by lia.
    reflexivity.
Qed.

Lemma Bone_objects_length (rs : list (Bone.t * BytesIO.t)) :
  List.length (Heap.Bone_objects rs) = (2 * List.length rs)%nat.
Proof.
  induction rs as [|r rs IH]; [reflexivity |].
  unfold Heap.Bone_objects in *. cbn [flat_map app List.length].
  rewrite IH. lia.
Qed.

Lemma MdlxModel_objects_length (base : nat) (data : Heap.ref)
      (rs : list (Bone.t * BytesIO.t)) :
  List.length (Heap.MdlxModel_objects base data rs) =
  (5 + 2 * List.length rs)%nat.
Proof.
  unfold Heap.MdlxModel_objects. rewrite length_app, Bone_objects_length.
  reflexivity.
Qed.

Lemma MdlxModel_objects_snoc (base : nat) (data : Heap.ref)
      (rs : list (Bone.t * BytesIO.t)) (bone : Bone.t) (s : BytesIO.t) :
  Heap.update
    (Heap.MdlxModel_objects base data rs
     ++ [Heap.OBytesIO s; Heap.Bone_obj bone]) 4%nat
    (Heap.OList (Heap.bone_refs (base + 5) (List.length rs)
                 ++ [Heap.VRef (base + (5 + 2 * List.length rs) + 1)%nat]))
  = Heap.MdlxModel_objects base data (rs ++ [(bone, s)]).
Proof.
  unfold Heap.MdlxModel_objects, Heap.Bone_objects.
  cbn [app Heap.update]. rewrite flat_map_app, length_app.
  cbn [List.length flat_map fst snd app].
  replace (List.length rs + 1)%nat with (S (List.length rs)) by lia.
  rewrite bone_refs_S.
  replace (base + (5 + 2 * List.length rs) + 1)%nat
    with (S (base + 5 + 2 * List.length rs)) by lia.
  reflexivity.
Qed.

(** The loop of [MdlxModel.__init__] on the store. *)
Lemma MdlxModel_loop_run (st : Heap.store) (data : Heap.ref) (b : bytes) :
  nth_error st data = Some (Heap.OBuffer b) ->
  forall (n : nat) (p : Z) (rs : list (Bone.t * BytesIO.t)),
  exists new',
    Heap.MdlxModel_loop (List.length st + 4)%nat (List.length st + 3)%nat n p
      (st ++ Heap.MdlxModel_objects (List.length st) data rs)
    = (match MdlxModel.read_bones b n p (map fst rs) with
       | Returned _ => Heap.Done tt
       | Raised e => Heap.Fail e
       end, st ++ new') /\
    (forall bs,
        MdlxModel.read_bones b n p (map fst rs) = Returned bs ->
        exists rs',
          new' = Heap.MdlxModel_objects (List.length st) data rs' /\
          map fst rs' = bs).
Proof.
  intros Hd. induction n as [|n IH]; intros p rs.
  - eexists. split; [reflexivity |]. cbn. intros bs Hbs.
    injection Hbs as <-. exists rs. split; reflexivity.
  - cbn [Heap.MdlxModel_loop MdlxModel.read_bones].
    assert (Hview : nth_error (Heap.MdlxModel_objects (List.length st) data rs)
                              3%nat = Some (Heap.OView data)) by reflexivity.
    rewrite (view_bytes_run st _ _ 3%nat data b _ eq_refl Hview Hd).
    rewrite alloc_run, MdlxModel_objects_length.
    pose proof (Bone_new_run
                  (st ++ Heap.MdlxModel_objects (List.length st) data rs)
                  (BytesIO.new (slice b p (p + 64)))) as Hbone.
    rewrite length_app, MdlxModel_objects_length, <- app_assoc in Hbone.
    destruct (Bone.__init__ (BytesIO.new (slice b p (p + 64))))
      as [[bone s1] | e]; cbn [bind fst].
    + rewrite Hbone. rewrite <- app_assoc.
      erewrite (list_append_run st _ _ 4%nat);
        [| reflexivity | reflexivity].
      rewrite MdlxModel_objects_snoc.
      specialize (IH (p + 64) (rs ++ [(bone, s1)])).
      rewrite map_app in IH. exact IH.
    + destruct Hbone as (s' & attrs' & Hbone). rewrite Hbone.
      rewrite <- app_assoc. eexists. split; [reflexivity | discriminate].
Qed.

Lemma view_Bone_obj (pre post : Heap.store) (bone : Bone.t) :
  Heap.view_Bone (pre ++ Heap.Bone_obj bone :: post)
                 (Heap.VRef (List.length pre)) = Some bone.
Proof.
  unfold Heap.view_Bone, Heap.view_instance.
  rewrite (nth_error_new pre _ _ 0%nat) by lia.
  destruct bone as [i p [[[s0 s1] s2] s3] [[[r0 r1] r2] r3]
                      [[[t0 t1] t2] t3]].
  reflexivity.
Qed.

Lemma view_all_bones (rs : list (Bone.t * BytesIO.t)) :
  forall (pre post : Heap.store),
    Heap.view_all
      (Heap.view_Bone (pre ++ Heap.Bone_objects rs ++ post))
      (Heap.bone_refs (List.length pre) (List.length rs))
    = Some (map fst rs).
Proof.
  induction rs as [|[bone s] rs IH]; intros pre post; [reflexivity |].
  unfold Heap.Bone_objects.
  cbn [List.length flat_map map app fst snd Heap.bone_refs Heap.view_all].
  fold (Heap.Bone_objects rs).
  pose proof (view_Bone_obj (pre ++ [Heap.OBytesIO s])
                            (Heap.Bone_objects rs ++ post) bone) as Hone.
  rewrite <- app_assoc, length_app in Hone. cbn [app List.length] in Hone.
  rewrite Nat.add_1_r in Hone. rewrite Hone.
  specialize (IH (pre ++ [Heap.OBytesIO s; Heap.Bone_obj bone]) post).
  rewrite <- app_assoc, length_app in IH. cbn [app List.length] in IH.
  replace (List.length pre + 2)%nat with (S (S (List.length pre))) in IH
    by lia.
  rewrite IH. reflexivity.
Qed.

(** [MdlxModel(data)] on the store: the store it leaves is the one it
    found with the new objects after it, and the new instance stands
    for what the decoder gives on the contents of the buffer. *)
Lemma MdlxModel_new_run (st : Heap.store) (data : Heap.ref) (b : bytes) :
  nth_error st data = Some (Heap.OBuffer b) ->
  exists new,
    Heap.MdlxModel_new data st
    = (match MdlxModel.__init__ b with
       | Returned _ => Heap.Done (List.length st)
       | Raised e => Heap.Fail e
       end, st ++ new) /\
    (forall m, MdlxModel.__init__ b = Returned m ->
               Heap.view_MdlxModel (st ++ new) (List.length st) = Some m).
Proof.
  intros Hd. unfold Heap.MdlxModel_new, Heap.instantiate, Heap.MdlxModel_init.
  rewrite alloc_first. rewrite !hbind_assoc.
  rewrite (memoryview_run st _ data b _ Hd). cbn [app List.length].
  rewrite !hbind_assoc.
  rewrite (memoryview_run st _ data b _ Hd). cbn [app List.length].
  rewrite !hbind_assoc.
  erewrite (view_read_header_run st _ _ 2%nat data b);
    [| reflexivity | reflexivity | exact Hd].
  unfold MdlxModel.__init__.
  destruct (MdlxModel.read_header b) as [h | e]; cbn [bind].
  2:{ eexists. split; [reflexivity | discriminate]. }
  rewrite !hbind_assoc.
  rewrite (memoryview_run st _ data b _ Hd). cbn [app List.length].
  rewrite !hbind_assoc. rewrite alloc_run. cbn [app List.length].
  change [Heap.OInstance "MdlxModel" []; Heap.OView data; Heap.OView data;
          Heap.OView data; Heap.OList []]
    with (Heap.MdlxModel_objects (List.length st) data []).
  rewrite !hbind_assoc.
  destruct (MdlxModel_loop_run st data b Hd
              (Z.to_nat (MdlxModel.bone_count h)) (MdlxModel.bone_offset h) [])
    as (new' & Hrun & Hnew).
  cbn [map] in Hrun, Hnew.
  unfold Heap.hbind at 1. rewrite Hrun.
  destruct (MdlxModel.read_bones b (Z.to_nat (MdlxModel.bone_count h))
                                 (MdlxModel.bone_offset h) [])
    as [bs | e]; cbn [bind].
  2:{ eexists. split; [reflexivity | discriminate]. }
  destruct (Hnew bs eq_refl) as (rs & -> & Hrs).
  rewrite !hbind_assoc.
  erewrite (setattr_run st _ _ 0%nat); [| lia | reflexivity].
  rewrite !hbind_assoc.
  assert (Hlen : forall o,
             List.length
               (Heap.update (Heap.MdlxModel_objects (List.length st) data rs)
                            0%nat o)
             = (5 + 2 * List.length rs)%nat).
  { intros o. unfold Heap.MdlxModel_objects. cbn [app Heap.update List.length].
    rewrite Bone_objects_length. reflexivity. }
  rewrite alloc_run, Hlen.
  erewrite (setattr_run st _ _ 0%nat); [| lia | reflexivity].
  unfold Heap.MdlxModel_objects.
  cbn [Heap.update Heap.attr_set app String.eqb Ascii.eqb Bool.eqb].
  eexists. split; [reflexivity |].
  intros m Hm. injection Hm as <-.
  unfold Heap.view_MdlxModel, Heap.view_instance.
  rewrite (nth_error_new st _ _ 0%nat) by lia.
  cbn [nth_error String.eqb Ascii.eqb Bool.eqb Heap.attr_get].
  unfold Heap.view_list.
  rewrite (nth_error_new st _ _ 4%nat) by lia.
  cbn [nth_error].
  rewrite (nth_error_new st _ _ (5 + 2 * List.length rs)%nat) by lia.
  cbn [nth_error Nat.add].
  rewrite <- (Bone_objects_length rs), nth_error_last.
  cbn [Heap.view_all].
  match goal with
  | |- context [Heap.view_Bone
                  (st ++ ?x :: ?v1 :: ?v2 :: ?v3 :: ?l :: _ ++ ?post)] =>
      pose proof (view_all_bones rs (st ++ [x; v1; v2; v3; l]) post) as Hall
  end.
  rewrite length_app, <- app_assoc in Hall.
  cbn [List.length app] in Hall.
  rewrite Hall, Hrs. reflexivity.
Qed.

(** What a caller sees of [BarFile(data)] is the parser's outcome on
    the contents of the buffer, and the objects that were there before
    the call are as they were. *)
Lemma BarFile_new_pure (st : Heap.store) (data : Heap.ref) (b : bytes) :
  nth_error st data = Some (Heap.OBuffer b) ->
  (exists new, snd (Heap.BarFile_new data st) = st ++ new) /\
  Heap.observe Heap.view_BarFile (Heap.BarFile_new data st)
  = Some (BarFile.__init__ b).
Proof.
  intros Hd. destruct (BarFile_new_run st data b Hd) as (new & Hrun & Hview).
  rewrite Hrun. split; [exists new; reflexivity |].
  destruct (BarFile.__init__ b) as [bar | e]; cbn [Heap.observe].
  - rewrite (Hview bar eq_refl). reflexivity.
  - reflexivity.
Qed.

Lemma MdlxModel_new_pure (st : Heap.store) (data : Heap.ref) (b : bytes) :
  nth_error st data = Some (Heap.OBuffer b) ->
  (exists new, snd (Heap.MdlxModel_new data st) = st ++ new) /\
  Heap.observe Heap.view_MdlxModel (Heap.MdlxModel_new data st)
  = Some (MdlxModel.__init__ b).
Proof.
  intros Hd. destruct (MdlxModel_new_run st data b Hd) as (new & Hrun & Hview).
  rewrite Hrun. split; [exists new; reflexivity |].
  destruct (MdlxModel.__init__ b) as [m | e]; cbn [Heap.observe].
  - rewrite (Hview m eq_refl). reflexivity.
  - reflexivity.
Qed.

(** C8.  Archive parsing and model decoding, run as the statements of
    the code on a store of mutable objects, are functions of the
    contents of the buffer alone and write to nothing they did not
    create.  Take any two stores, each holding a buffer with the same
    contents [b] among whatever other objects, and call [BarFile(data)]
    or [MdlxModel(data)] in each.  Every object that was in a store
    before the call, the buffer included, is unchanged after it, also
    when the call raises: the store after the call is the store before
    it followed by new objects.  What the caller gets, the entries and
    data the new [BarFile] stands for or the bones of the new
    [MdlxModel], or the exception raised, is the outcome of the pure
    decoder on [b], so it is the same in both stores. *)
Theorem C8_decoding_is_deterministic
        (st1 st2 : Heap.store) (d1 d2 : Heap.ref) (b : bytes) :
  nth_error st1 d1 = Some (Heap.OBuffer b) ->
  nth_error st2 d2 = Some (Heap.OBuffer b) ->
  ((exists new1, snd (Heap.BarFile_new d1 st1) = st1 ++ new1) /\
   (exists new2, snd (Heap.BarFile_new d2 st2) = st2 ++ new2) /\
   Heap.observe Heap.view_BarFile (Heap.BarFile_new d1 st1)
   = Some (BarFile.__init__ b) /\
   Heap.observe Heap.view_BarFile (Heap.BarFile_new d2 st2)
   = Heap.observe Heap.view_BarFile (Heap.BarFile_new d1 st1)) /\
  ((exists new1, snd (Heap.MdlxModel_new d1 st1) = st1 ++ new1) /\
   (exists new2, snd (Heap.MdlxModel_new d2 st2) = st2 ++ new2) /\
   Heap.observe Heap.view_MdlxModel (Heap.MdlxModel_new d1 st1)
   = Some (MdlxModel.__init__ b) /\
   Heap.observe Heap.view_MdlxModel (Heap.MdlxModel_new d2 st2)
   = Heap.observe Heap.view_MdlxModel (Heap.MdlxModel_new d1 st1)).
Proof.
  intros H1 H2.
  destruct (BarFile_new_pure st1 d1 b H1) as [Hf1 Ho1].
  destruct (BarFile_new_pure st2 d2 b H2) as [Hf2 Ho2].
  destruct (MdlxModel_new_pure st1 d1 b H1) as [Hg1 Hp1].
  destruct (MdlxModel_new_pure st2 d2 b H2) as [Hg2 Hp2].
  split.
  - split; [exact Hf1 |]. split; [exact Hf2 |]. split; [exact Ho1 |].
    rewrite Ho1, Ho2. reflexivity.
  - split; [exact Hg1 |]. split; [exact Hg2 |]. split; [exact Hp1 |].
    rewrite Hp1, Hp2. reflexivity.
Qed.

Lemma C8_decoding_is_deterministic_witness :
  nth_error store_with_archive 0
  = Some (Heap.OBuffer (minimal_archive 0 0 0 0)) /\
  nth_error store_with_more 1
  = Some (Heap.OBuffer (minimal_archive 0 0 0 0)) /\
  ((exists new1,
       snd (Heap.BarFile_new 0%nat store_with_archive)
       = store_with_archive ++ new1) /\
   (exists new2,
       snd (Heap.BarFile_new 1%nat store_with_more)
       = store_with_more ++ new2) /\
   Heap.observe Heap.view_BarFile (Heap.BarFile_new 0%nat store_with_archive)
   = Some (BarFile.__init__ (minimal_archive 0 0 0 0)) /\
   Heap.observe Heap.view_BarFile (Heap.BarFile_new 1%nat store_with_more)
   = Heap.observe Heap.view_BarFile
                  (Heap.BarFile_new 0%nat store_with_archive)) /\
  ((exists new1,
       snd (Heap.MdlxModel_new 0%nat store_with_archive)
       = store_with_archive ++ new1) /\
   (exists new2,
       snd (Heap.MdlxModel_new 1%nat store_with_more)
       = store_with_more ++ new2) /\
   Heap.observe Heap.view_MdlxModel
                (Heap.MdlxModel_new 0%nat store_with_archive)
   = Some (MdlxModel.__init__ (minimal_archive 0 0 0 0)) /\
   Heap.observe Heap.view_MdlxModel
                (Heap.MdlxModel_new 1%nat store_with_more)
   = Heap.observe Heap.view_MdlxModel
                  (Heap.MdlxModel_new 0%nat store_with_archive)).
Proof.
  split; [reflexivity |]. split; [reflexivity |].
  apply (C8_decoding_is_deterministic
           store_with_archive store_with_more 0%nat 1%nat
           (minimal_archive 0 0 0 0)); reflexivity.
Defined.

(** Two calls one after the other in one store: the second call finds
    the objects of the first, returns another new instance, and both
    instances stand for the same archive afterwards. *)
Example BarFile_new_twice :
  fst (Heap.BarFile_new 0%nat store_with_archive) = Heap.Done 1%nat /\
  fst (Heap.BarFile_new
         0%nat (snd (Heap.BarFile_new 0%nat store_with_archive)))
  = Heap.Done 5%nat /\
  Heap.view_BarFile
    (snd (Heap.BarFile_new
            0%nat (snd (Heap.BarFile_new 0%nat store_with_archive)))) 1%nat
  = Heap.view_BarFile
      (snd (Heap.BarFile_new
              0%nat (snd (Heap.BarFile_new 0%nat store_with_archive)))) 5%nat /\
  Heap.view_BarFile
    (snd (Heap.BarFile_new
            0%nat (snd (Heap.BarFile_new 0%nat store_with_archive)))) 1%nat
  = Heap.view_BarFile (snd (Heap.BarFile_new 0%nat store_with_archive)) 1%nat.
Proof. repeat split; vm_compute; reflexivity. Qed.
